(** * 2020rule: the work/break scheduler, its configuration and its statistics

  A shallow embedding of the Go sources

    - [internal/config/types.go]   (package [config]: [Config], [Validate])
    - the [stats] model file       ([CalculateComplianceRate])
    - the [timer] package          ([State], [Manager] and its methods)

  Go's [time.Duration] and [int64] are integers with 64-bit two's
  complement wrap-around, [float64] is IEEE-754 binary64 (Rocq's primitive
  floats), and the methods of [timer.Manager] are written in a small
  state-and-trace monad that threads the receiver and records the calls
  made to the collaborators (mutex, runtime timer, statistics store,
  callbacks). *)

From Stdlib Require Import ZArith List Bool Lia.
From Stdlib Require Import PrimInt63 PrimFloat.
From Stdlib Require String SpecFloat FloatOps.
Import ListNotations.

Local Open Scope Z_scope.

(* ====================================================================== *)
(** ** Package [time] (the part the sources use)                          *)
(* ====================================================================== *)

Module GoTime.

(** [time.Duration] is an [int64] count of nanoseconds. *)
Definition Duration := Z.

Definition minDuration : Duration := - 2 ^ 63.
Definition maxDuration : Duration := 2 ^ 63 - 1.

Definition Second : Duration := 1000000000.
Definition Minute : Duration := 60 * Second.

(** Membership in the range of [int64]. *)
Definition int64_range (z : Z) : Prop := minDuration <= z <= maxDuration.

(** Two's complement reduction of an integer to [int64]. *)
Definition wrap64 (z : Z) : Z := (z + 2 ^ 63) mod 2 ^ 64 - 2 ^ 63.

(** [a + b] and [a - b] on [time.Duration]. *)
Definition add (a b : Duration) : Duration := wrap64 (a + b).
Definition sub (a b : Duration) : Duration := wrap64 (a - b).

(** Saturation, as [time.Time.Sub] does on overflow. *)
Definition sat64 (z : Z) : Duration :=
  if z <? minDuration then minDuration
  else if maxDuration <? z then maxDuration
  else z.

(** A [time.Time] as the scheduler uses it: either the zero value of a
    field that was never assigned, or a reading of the monotonic clock in
    nanoseconds. *)
Inductive Instant : Type :=
| zeroInstant
| mono (ns : Z).

(** [time.Since(t)] when the clock reads [now].  Against a monotonic
    reading it is the saturated difference; against the zero [time.Time]
    (year 1) the difference to any present-day clock overflows and
    [Sub] returns [maxDuration]. *)
Definition Since (now : Z) (t : Instant) : Duration :=
  match t with
  | zeroInstant => maxDuration
  | mono u => sat64 (now - u)
  end.

End GoTime.

(* ====================================================================== *)
(** ** Package [config]                                                   *)
(* ====================================================================== *)

Module config.
Import GoTime.

Record Config : Type := mkConfig {
  WorkDuration : Duration;
  BreakDuration : Duration;
  IdleThreshold : Duration;
  AutoStartOnLogin : bool;
  PauseOnFullscreen : bool;
  NotificationSound : bool;
  OverlayOpacity : float;
  FirstRun : bool
}.

(** The error values of the package that [Validate] can return. *)
Inductive error : Type :=
| ErrInvalidWorkDuration
| ErrInvalidBreakDuration
| ErrInvalidIdleThreshold
| ErrInvalidOpacity.

Definition DefaultConfig : Config :=
  {| WorkDuration := 20 * Minute;
     BreakDuration := 20 * Second;
     IdleThreshold := 5 * Minute;
     AutoStartOnLogin := true;
     PauseOnFullscreen := false;
     NotificationSound := true;
     OverlayOpacity := 0x1.e666666666666p-1%float;
     FirstRun := true |}.

(** [func (c *Config) Validate() error]; [None] is Go's [nil].  The
    method reads the receiver and assigns to none of its fields. *)
Definition Validate (c : Config) : option error :=
  if WorkDuration c <? 1 * Minute then Some ErrInvalidWorkDuration
  else if BreakDuration c <? 1 * Second then Some ErrInvalidBreakDuration
  else if IdleThreshold c <? 1 * Minute then Some ErrInvalidIdleThreshold
  else if (PrimFloat.ltb (OverlayOpacity c) 0.0%float
           || PrimFloat.ltb 1.0%float (OverlayOpacity c))%bool
       then Some ErrInvalidOpacity
  else None.


End config.

(* ====================================================================== *)
(** ** Package [stats]                                                    *)
(* ====================================================================== *)

Module stats.

(** Conversion of a non-negative [Z] below [2^63] to a primitive
    integer, bit by bit. *)
Fixpoint int_of_pos (p : positive) : PrimInt63.int :=
  match p with
  | xH => 1%uint63
  | xO q => PrimInt63.lsl (int_of_pos q) 1%uint63
  | xI q => PrimInt63.lor (PrimInt63.lsl (int_of_pos q) 1%uint63) 1%uint63
  end.

(** [float64(x)] for a Go [int] [x] (64 bits): the nearest binary64,
    ties to even. *)
Definition float64_of_int (x : Z) : float :=
  match x with
  | Z0 => 0.0%float
  | Zpos p => PrimFloat.of_uint63 (int_of_pos p)
  | Zneg p =>
      if (x =? - 2 ^ 63) then (-0x1p+63)%float
      else PrimFloat.opp (PrimFloat.of_uint63 (int_of_pos p))
  end.

(** [func CalculateComplianceRate(completed, total int) float64] *)
Definition CalculateComplianceRate (completed total : Z) : float :=
  if total =? 0 then 0.0%float
  else PrimFloat.mul
         (PrimFloat.div (float64_of_int completed) (float64_of_int total))
         100.0%float.

End stats.


(* ====================================================================== *)
(** ** Package [timer]                                                    *)
(* ====================================================================== *)

Module timer.
Import GoTime.

(** [type State int] with its four [iota] constants. *)
Definition State := Z.

Definition StateRunning : State := 0.
Definition StateBreakRequired : State := 1.
Definition StatePausedManual : State := 2.
Definition StatePausedInactive : State := 3.

(** The [*time.Timer] returned by [time.AfterFunc(d, f)]: the clock reading
    at which it was armed and its delay [d].  The function [f] is always the
    closure of [scheduleWorkTimer], embedded below as [workTimerFunc]. *)
Record Timer : Type := mkTimer {
  armedAt : Z;
  delay : Duration
}.

(** [type Manager struct].  The pointer [statsStore] and the three callback
    fields are opaque to the scheduler: only whether they are [nil] matters,
    so each is a [bool] that is [true] when the field is not [nil].
    [config] is a non-nil pointer (the methods dereference it unguarded).
    The mutex [mu] appears as the [mu_Lock]/[mu_Unlock] events. *)
Record Manager : Type := mkManager {
  state : State;
  config : config.Config;
  statsStore : bool;
  currentTimer : option Timer;
  workStartTime : Instant;
  breakStartTime : Instant;
  currentBreakID : Z;
  elapsed : Duration;
  pauseTime : Instant;
  onBreakRequired : bool;
  onBreakComplete : bool;
  onStateChange : bool
}.

(** What a method call lets the outside world see, in program order. *)
Inductive Event : Type :=
| mu_Lock                                   (* m.mu.Lock() *)
| mu_Unlock                                 (* deferred m.mu.Unlock() *)
| timer_Stop                                (* m.currentTimer.Stop() *)
| time_AfterFunc (d : Duration)             (* time.AfterFunc(d, func) *)
| go_onStateChange (s : State)              (* go m.onStateChange(s) *)
| call_onBreakRequired                      (* m.onBreakRequired() *)
| call_onBreakComplete                      (* m.onBreakComplete() *)
| store_RecordBreakStart                    (* m.statsStore.RecordBreakStart() *)
| store_RecordBreakComplete (id : Z) (d : Duration)
| store_RecordBreakSkipped (id : Z).

(** What the outside world answers during one critical section: the clock
    reading (all readings taken while the mutex is held are one instant),
    and the results of the three store calls.  [RecordBreakStart] yields
    [Some id] for [(id, nil)] and [None] for a non-nil error; the errors
    returned by the other two are discarded by the scheduler. *)
Record Env : Type := mkEnv {
  now : Z;
  breakStartResult : option Z;
  breakCompleteErr : bool;
  breakSkippedErr : bool
}.

(** *** The monad of the methods: receiver state and event trace *)

Definition M (A : Type) : Type := Manager -> A * Manager * list Event.

Definition ret {A} (a : A) : M A := fun m => (a, m, []).

Definition bind {A B} (c : M A) (k : A -> M B) : M B :=
  fun m =>
    let '(a, m1, t1) := c m in
    let '(b, m2, t2) := k a m1 in
    (b, m2, t1 ++ t2).

Definition gets {A} (f : Manager -> A) : M A := fun m => (f m, m, []).

Definition modify (f : Manager -> Manager) : M unit := fun m => (tt, f m, []).

Definition emit (e : Event) : M unit := fun m => (tt, m, [e]).

Definition when (b : bool) (c : M unit) : M unit := if b then c else ret tt.

Declare Scope go_scope.
Delimit Scope go_scope with go.
Notation "x <- c ;; k" := (bind c (fun x => k))
  (at level 61, c at next level, right associativity) : go_scope.
Notation "c ;; k" := (bind c (fun _ => k))
  (at level 61, right associativity) : go_scope.
Local Open Scope go_scope.

(** Result, final receiver and trace of a run. *)
Definition result {A} (r : A * Manager * list Event) : A := fst (fst r).
Definition final {A} (r : A * Manager * list Event) : Manager := snd (fst r).
Definition trace {A} (r : A * Manager * list Event) : list Event := snd r.

(** *** Field assignments *)

Definition set_state (v : State) (m : Manager) : Manager :=
  mkManager v (config m) (statsStore m) (currentTimer m) (workStartTime m)
    (breakStartTime m) (currentBreakID m) (elapsed m) (pauseTime m)
    (onBreakRequired m) (onBreakComplete m) (onStateChange m).

Definition set_config (v : config.Config) (m : Manager) : Manager :=
  mkManager (state m) v (statsStore m) (currentTimer m) (workStartTime m)
    (breakStartTime m) (currentBreakID m) (elapsed m) (pauseTime m)
    (onBreakRequired m) (onBreakComplete m) (onStateChange m).

Definition set_currentTimer (v : option Timer) (m : Manager) : Manager :=
  mkManager (state m) (config m) (statsStore m) v (workStartTime m)
    (breakStartTime m) (currentBreakID m) (elapsed m) (pauseTime m)
    (onBreakRequired m) (onBreakComplete m) (onStateChange m).

Definition set_workStartTime (v : Instant) (m : Manager) : Manager :=
  mkManager (state m) (config m) (statsStore m) (currentTimer m) v
    (breakStartTime m) (currentBreakID m) (elapsed m) (pauseTime m)
    (onBreakRequired m) (onBreakComplete m) (onStateChange m).

Definition set_breakStartTime (v : Instant) (m : Manager) : Manager :=
  mkManager (state m) (config m) (statsStore m) (currentTimer m)
    (workStartTime m) v (currentBreakID m) (elapsed m) (pauseTime m)
    (onBreakRequired m) (onBreakComplete m) (onStateChange m).

Definition set_currentBreakID (v : Z) (m : Manager) : Manager :=
  mkManager (state m) (config m) (statsStore m) (currentTimer m)
    (workStartTime m) (breakStartTime m) v (elapsed m) (pauseTime m)
    (onBreakRequired m) (onBreakComplete m) (onStateChange m).

Definition set_elapsed (v : Duration) (m : Manager) : Manager :=
  mkManager (state m) (config m) (statsStore m) (currentTimer m)
    (workStartTime m) (breakStartTime m) (currentBreakID m) v (pauseTime m)
    (onBreakRequired m) (onBreakComplete m) (onStateChange m).

Definition set_pauseTime (v : Instant) (m : Manager) : Manager :=
  mkManager (state m) (config m) (statsStore m) (currentTimer m)
    (workStartTime m) (breakStartTime m) (currentBreakID m) (elapsed m) v
    (onBreakRequired m) (onBreakComplete m) (onStateChange m).

Definition set_onBreakRequired (v : bool) (m : Manager) : Manager :=
  mkManager (state m) (config m) (statsStore m) (currentTimer m)
    (workStartTime m) (breakStartTime m) (currentBreakID m) (elapsed m)
    (pauseTime m) v (onBreakComplete m) (onStateChange m).

Definition set_onBreakComplete (v : bool) (m : Manager) : Manager :=
  mkManager (state m) (config m) (statsStore m) (currentTimer m)
    (workStartTime m) (breakStartTime m) (currentBreakID m) (elapsed m)
    (pauseTime m) (onBreakRequired m) v (onStateChange m).

Definition set_onStateChange (v : bool) (m : Manager) : Manager :=
  mkManager (state m) (config m) (statsStore m) (currentTimer m)
    (workStartTime m) (breakStartTime m) (currentBreakID m) (elapsed m)
    (pauseTime m) (onBreakRequired m) (onBreakComplete m) v.

(** [m.mu.Lock(); defer m.mu.Unlock()] around a method body. *)
Definition locked {A} (body : M A) : M A :=
  emit mu_Lock ;; r <- body ;; emit mu_Unlock ;; ret r.

(** *** Methods *)

(** [func NewManager(cfg *config.Config, store *stats.Store) *Manager]:
    every field not listed in the literal has its zero value. *)
Definition NewManager (cfg : config.Config) (store : bool) : Manager :=
  {| state := StatePausedManual;
     config := cfg;
     statsStore := store;
     currentTimer := None;
     workStartTime := zeroInstant;
     breakStartTime := zeroInstant;
     currentBreakID := 0;
     elapsed := 0;
     pauseTime := zeroInstant;
     onBreakRequired := false;
     onBreakComplete := false;
     onStateChange := false |}.

(** [func (m *Manager) notifyStateChange()] *)
Definition notifyStateChange : M unit :=
  cb <- gets onStateChange ;;
  when cb (st <- gets state ;; emit (go_onStateChange st)).

(** [func (m *Manager) stopCurrentTimer()] *)
Definition stopCurrentTimer : M unit :=
  t <- gets currentTimer ;;
  match t with
  | Some _ => emit timer_Stop ;; modify (set_currentTimer None)
  | None => ret tt
  end.

(** [func (m *Manager) triggerBreak()] *)
Definition triggerBreak (e : Env) : M unit :=
  store <- gets statsStore ;;
  when store
    (emit store_RecordBreakStart ;;
     match breakStartResult e with
     | Some breakID => modify (set_currentBreakID breakID)
     | None => ret tt
     end) ;;
  modify (set_state StateBreakRequired) ;;
  modify (set_breakStartTime (mono (now e))) ;;
  notifyStateChange ;;
  cb <- gets onBreakRequired ;;
  when cb (emit call_onBreakRequired).

(** [func (m *Manager) scheduleWorkTimer()] *)
Definition scheduleWorkTimer (e : Env) : M unit :=
  stopCurrentTimer ;;
  cfg <- gets config ;;
  el <- gets elapsed ;;
  let remaining := sub (config.WorkDuration cfg) el in
  if remaining <=? 0 then triggerBreak e
  else
    emit (time_AfterFunc remaining) ;;
    modify (set_currentTimer (Some (mkTimer (now e) remaining))).

(** The closure handed to [time.AfterFunc] by [scheduleWorkTimer]: what
    runs when a work-duration wake-up fires. *)
Definition workTimerFunc (e : Env) : M unit :=
  locked
    (st <- gets state ;;
     when (st =? StateRunning) (triggerBreak e)).

(** [func (m *Manager) Start()] *)
Definition Start (e : Env) : M unit :=
  locked
    (st <- gets state ;;
     if (st =? StateRunning) || (st =? StateBreakRequired) then ret tt
     else
       modify (set_state StateRunning) ;;
       modify (set_workStartTime (mono (now e))) ;;
       modify (set_elapsed 0) ;;
       scheduleWorkTimer e ;;
       notifyStateChange).

(** [func (m *Manager) Pause()] *)
Definition Pause (e : Env) : M unit :=
  locked
    (st <- gets state ;;
     if negb (st =? StateRunning) then ret tt
     else
       stopCurrentTimer ;;
       modify (set_pauseTime (mono (now e))) ;;
       el <- gets elapsed ;;
       ws <- gets workStartTime ;;
       modify (set_elapsed (add el (Since (now e) ws))) ;;
       modify (set_state StatePausedManual) ;;
       notifyStateChange).

(** [func (m *Manager) Resume()] *)
Definition Resume (e : Env) : M unit :=
  locked
    (st <- gets state ;;
     if negb (st =? StatePausedManual) && negb (st =? StatePausedInactive)
     then ret tt
     else
       modify (set_state StateRunning) ;;
       modify (set_workStartTime (mono (now e))) ;;
       scheduleWorkTimer e ;;
       notifyStateChange).

(** [func (m *Manager) PauseInactive()] *)
Definition PauseInactive (e : Env) : M unit :=
  locked
    (st <- gets state ;;
     if negb (st =? StateRunning) then ret tt
     else
       stopCurrentTimer ;;
       modify (set_pauseTime (mono (now e))) ;;
       el <- gets elapsed ;;
       ws <- gets workStartTime ;;
       modify (set_elapsed (add el (Since (now e) ws))) ;;
       modify (set_state StatePausedInactive) ;;
       notifyStateChange).

(** [func (m *Manager) ResumeFromInactive()] *)
Definition ResumeFromInactive (e : Env) : M unit :=
  locked
    (st <- gets state ;;
     if negb (st =? StatePausedInactive) then ret tt
     else
       modify (set_state StateRunning) ;;
       modify (set_workStartTime (mono (now e))) ;;
       scheduleWorkTimer e ;;
       notifyStateChange).

(** [func (m *Manager) CompleteBreak()] *)
Definition CompleteBreak (e : Env) : M unit :=
  locked
    (st <- gets state ;;
     if negb (st =? StateBreakRequired) then ret tt
     else
       store <- gets statsStore ;;
       id <- gets currentBreakID ;;
       when (store && (0 <? id))
         (bs <- gets breakStartTime ;;
          emit (store_RecordBreakComplete id (Since (now e) bs))) ;;
       modify (set_state StateRunning) ;;
       modify (set_workStartTime (mono (now e))) ;;
       modify (set_elapsed 0) ;;
       modify (set_currentBreakID 0) ;;
       scheduleWorkTimer e ;;
       notifyStateChange ;;
       cb <- gets onBreakComplete ;;
       when cb (emit call_onBreakComplete)).

(** [func (m *Manager) SkipBreak()] *)
Definition SkipBreak (e : Env) : M unit :=
  locked
    (st <- gets state ;;
     if negb (st =? StateBreakRequired) then ret tt
     else
       store <- gets statsStore ;;
       id <- gets currentBreakID ;;
       when (store && (0 <? id)) (emit (store_RecordBreakSkipped id)) ;;
       modify (set_state StateRunning) ;;
       modify (set_workStartTime (mono (now e))) ;;
       modify (set_elapsed 0) ;;
       modify (set_currentBreakID 0) ;;
       scheduleWorkTimer e ;;
       notifyStateChange).

(** [func (m *Manager) GetState() State] *)
Definition GetState : M State := locked (gets state).

(** [func (m *Manager) GetTimeUntilBreak() time.Duration] *)
Definition GetTimeUntilBreak (e : Env) : M Duration :=
  locked
    (st <- gets state ;;
     if negb (st =? StateRunning) then ret 0
     else
       el <- gets elapsed ;;
       ws <- gets workStartTime ;;
       cfg <- gets config ;;
       let totalElapsed := add el (Since (now e) ws) in
       let remaining := sub (config.WorkDuration cfg) totalElapsed in
       if remaining <? 0 then ret 0 else ret remaining).

(** [func (m *Manager) GetBreakTimeRemaining() time.Duration] *)
Definition GetBreakTimeRemaining (e : Env) : M Duration :=
  locked
    (st <- gets state ;;
     if negb (st =? StateBreakRequired) then ret 0
     else
       bs <- gets breakStartTime ;;
       cfg <- gets config ;;
       let elapsed := Since (now e) bs in
       let remaining := sub (config.BreakDuration cfg) elapsed in
       if remaining <? 0 then ret 0 else ret remaining).

(** [SetOnBreakRequired], [SetOnBreakComplete], [SetOnStateChange]: the
    argument says whether the callback passed is non-nil. *)
Definition SetOnBreakRequired (callback : bool) : M unit :=
  locked (modify (set_onBreakRequired callback)).

Definition SetOnBreakComplete (callback : bool) : M unit :=
  locked (modify (set_onBreakComplete callback)).

Definition SetOnStateChange (callback : bool) : M unit :=
  locked (modify (set_onStateChange callback)).

(** [func (m *Manager) UpdateConfig(cfg *config.Config)] *)
Definition UpdateConfig (cfg : config.Config) : M unit :=
  locked (modify (set_config cfg)).

(** [func (m *Manager) Stop()] *)
Definition Stop : M unit :=
  locked
    (stopCurrentTimer ;;
     modify (set_state StatePausedManual) ;;
     modify (set_elapsed 0) ;;
     notifyStateChange).

End timer.

(* ====================================================================== *)
(** ** Driving the scheduler                                              *)
(* ====================================================================== *)

Module driver.
Import GoTime timer.

(** The operations that the collaborators (menu bar, idle monitor, overlay,
    runtime timer, shutdown) invoke on the scheduler. *)
Inductive Trigger : Type :=
| start
| pause
| pauseInactive
| resume
| resumeFromInactive
| completeBreak
| skipBreak
| wakeUp              (* a work-duration wake-up fires *)
| stop.

(** Everything a client can call, queries and registrations included. *)
Inductive Command : Type :=
| trigger (t : Trigger)
| updateConfig (cfg : config.Config)
| setOnBreakRequired (callback : bool)
| setOnBreakComplete (callback : bool)
| setOnStateChange (callback : bool)
| getState
| getTimeUntilBreak
| getBreakTimeRemaining.

Definition fire (e : Env) (t : Trigger) : M unit :=
  match t with
  | start => Start e
  | pause => Pause e
  | pauseInactive => PauseInactive e
  | resume => Resume e
  | resumeFromInactive => ResumeFromInactive e
  | completeBreak => CompleteBreak e
  | skipBreak => SkipBreak e
  | wakeUp => workTimerFunc e
  | stop => Stop
  end.

Definition discard {A} (c : M A) : M unit := bind c (fun _ => ret tt).

Definition exec (e : Env) (c : Command) : M unit :=
  match c with
  | trigger t => fire e t
  | updateConfig cfg => UpdateConfig cfg
  | setOnBreakRequired cb => SetOnBreakRequired cb
  | setOnBreakComplete cb => SetOnBreakComplete cb
  | setOnStateChange cb => SetOnStateChange cb
  | getState => discard GetState
  | getTimeUntilBreak => discard (GetTimeUntilBreak e)
  | getBreakTimeRemaining => discard (GetBreakTimeRemaining e)
  end.

(** A history: each call with what the world answers during it. *)
Fixpoint run (h : list (Env * Command)) : M unit :=
  match h with
  | [] => ret tt
  | (e, c) :: h' => bind (exec e c) (fun _ => run h')
  end.

(** The instant [t] with a store that accepts every write and hands out
    [id] as the next break id. *)
Definition at_time (t : Z) (id : Z) : Env := mkEnv t (Some id) false false.

(** The instant [t] with a store whose writes all fail. *)
Definition at_time_failing (t : Z) : Env := mkEnv t None true true.

(** *** The transition table of the design (section 4.1)

    [listed t s] tells whether the table has a row for trigger [t] in
    source state [s]. *)
Definition listed (t : Trigger) (s : State) : bool :=
  match t with
  | start => (s =? StatePausedManual) || (s =? StatePausedInactive)
  | pause | pauseInactive => s =? StateRunning
  | resume | resumeFromInactive =>
      (s =? StatePausedManual) || (s =? StatePausedInactive)
  | wakeUp => s =? StateRunning
  | completeBreak | skipBreak => s =? StateBreakRequired
  | stop => true
  end.

(** The state is one of the four constants (which are pairwise distinct,
    so it is exactly one of them). *)
Definition one_of_four (s : State) : Prop :=
  (s = StateRunning /\ s <> StateBreakRequired /\
     s <> StatePausedManual /\ s <> StatePausedInactive) \/
  (s <> StateRunning /\ s = StateBreakRequired /\
     s <> StatePausedManual /\ s <> StatePausedInactive) \/
  (s <> StateRunning /\ s <> StateBreakRequired /\
     s = StatePausedManual /\ s <> StatePausedInactive) \/
  (s <> StateRunning /\ s <> StateBreakRequired /\
     s <> StatePausedManual /\ s = StatePausedInactive).

(** *** What the four unexported helpers do, in closed form

    These restate [notifyStateChange], [stopCurrentTimer], [triggerBreak]
    and [scheduleWorkTimer] as a final receiver and a trace; they are proved
    equal to the methods below and serve to compose them. *)

Definition notify_trace (m : Manager) : list Event :=
  if onStateChange m then [go_onStateChange (state m)] else [].

Definition stop_trace (m : Manager) : list Event :=
  match currentTimer m with
  | Some _ => [timer_Stop]
  | None => []
  end.

Definition record_start (e : Env) (m : Manager) : Manager :=
  if statsStore m then
    match breakStartResult e with
    | Some breakID => set_currentBreakID breakID m
    | None => m
    end
  else m.

Definition break_state (e : Env) (m : Manager) : Manager :=
  set_breakStartTime (mono (now e))
    (set_state StateBreakRequired (record_start e m)).

Definition break_trace (e : Env) (m : Manager) : list Event :=
  (if statsStore m then [store_RecordBreakStart] else []) ++
  notify_trace (break_state e m) ++
  (if onBreakRequired m then [call_onBreakRequired] else []).

(** The delay [scheduleWorkTimer] computes, and whether it is already due. *)
Definition remaining (m : Manager) : Duration :=
  sub (config.WorkDuration (config m)) (elapsed m).

Definition due (m : Manager) : bool := remaining m <=? 0.

Definition sched_state (e : Env) (m : Manager) : Manager :=
  if due m then break_state e (set_currentTimer None m)
  else set_currentTimer (Some (mkTimer (now e) (remaining m)))
         (set_currentTimer None m).

Definition sched_trace (e : Env) (m : Manager) : list Event :=
  stop_trace m ++
  (if due m then break_trace e (set_currentTimer None m)
   else [time_AfterFunc (remaining m)]).

(** The receiver after the assignments of [Start], of [Pause] and
    [PauseInactive] (ending in state [s]), of [Resume] and
    [ResumeFromInactive], and of [CompleteBreak] and [SkipBreak], before the
    call of [scheduleWorkTimer] where there is one. *)
Definition begin_work (e : Env) (m : Manager) : Manager :=
  set_elapsed 0
    (set_workStartTime (mono (now e)) (set_state StateRunning m)).

Definition bank (s : State) (e : Env) (m : Manager) : Manager :=
  set_state s
    (set_elapsed (add (elapsed m) (Since (now e) (workStartTime m)))
       (set_pauseTime (mono (now e)) (set_currentTimer None m))).

Definition resume_work (e : Env) (m : Manager) : Manager :=
  set_workStartTime (mono (now e)) (set_state StateRunning m).

Definition end_break (e : Env) (m : Manager) : Manager :=
  set_currentBreakID 0
    (set_elapsed 0
       (set_workStartTime (mono (now e)) (set_state StateRunning m))).

(** What a resume that re-arms the wake-up with delay [d] leaves behind,
    when called on [m] at [now e]. *)
Definition resumed_ok (e : Env) (m : Manager) (d : Duration)
    (r : unit * Manager * list Event) : Prop :=
  state (final r) = StateRunning /\
  workStartTime (final r) = mono (now e) /\
  elapsed (final r) = elapsed m /\
  currentTimer (final r) = Some (mkTimer (now e) d) /\
  trace r =
    mu_Lock
    :: (stop_trace m ++ [time_AfterFunc d]) ++
       (if onStateChange m then [go_onStateChange StateRunning] else []) ++
       [mu_Unlock].

(** The timestamps that the queries read are clock readings in the states
    in which they are read. *)
Definition times_set (m : Manager) : Prop :=
  (state m = StateRunning -> exists ws, workStartTime m = mono ws) /\
  (state m = StateBreakRequired -> exists bs, breakStartTime m = mono bs).

(** *** Lock discipline on a trace *)

Definition is_callback_call (ev : Event) : bool :=
  match ev with
  | call_onBreakRequired | call_onBreakComplete => true
  | _ => false
  end.

(** [calls_under_lock held t]: some callback is invoked synchronously at a
    point of [t] where the mutex is held ([held] is whether it is held at
    the start of [t]). *)
Fixpoint calls_under_lock (held : bool) (t : list Event) : bool :=
  match t with
  | [] => false
  | mu_Lock :: t' => calls_under_lock true t'
  | mu_Unlock :: t' => calls_under_lock false t'
  | ev :: t' => (held && is_callback_call ev) || calls_under_lock held t'
  end.

Definition is_store_write (ev : Event) : bool :=
  match ev with
  | store_RecordBreakStart
  | store_RecordBreakComplete _ _
  | store_RecordBreakSkipped _ => true
  | _ => false
  end.

Definition is_lock_event (ev : Event) : bool :=
  match ev with
  | mu_Lock | mu_Unlock => true
  | _ => false
  end.

Definition no_store_write (t : list Event) : bool :=
  forallb (fun ev => negb (is_store_write ev)) t.

Definition no_lock_event (t : list Event) : bool :=
  forallb (fun ev => negb (is_lock_event ev)) t.

(** The trace of a method that holds the mutex from its first to its last
    step. *)
Definition bracketed (t : list Event) : Prop :=
  exists body : list Event,
    t = mu_Lock :: body ++ [mu_Unlock] /\ no_lock_event body = true.

End driver.

(* ====================================================================== *)
(** ** A sample session                                                   *)
(* ====================================================================== *)

Module scenario.
Import GoTime timer driver.

(** Work 1200 s, break 20 s, idle threshold 300 s. *)
Definition cfg : config.Config :=
  config.mkConfig (1200 * Second) (20 * Second) (5 * Minute)
    true false true 0x1.e666666666666p-1%float true.

(** A new scheduler with a store and the three callbacks registered. *)
Definition fresh : Manager :=
  final
    (run [(at_time 0 1, setOnBreakRequired true);
          (at_time 0 1, setOnBreakComplete true);
          (at_time 0 1, setOnStateChange true)]
       (NewManager cfg true)).

(** Started at instant 0. *)
Definition running : Manager := final (Start (at_time 0 1) fresh).

(** Paused by the user, or by the idle monitor, after 100 s of work. *)
Definition paused_manual : Manager :=
  final (Pause (at_time (100 * Second) 1) running).

Definition paused_inactive : Manager :=
  final (PauseInactive (at_time (100 * Second) 1) running).

(** The wake-up fired after 1200 s; the store opened break 1. *)
Definition in_break : Manager :=
  final (workTimerFunc (at_time (1200 * Second) 1) running).

End scenario.

(* ====================================================================== *)
(** ** Histories of work intervals                                        *)
(* ====================================================================== *)

Module accounting.
Import GoTime timer driver.

(** One work interval ended by a pause, and the resume that follows it:
    whether the pause is the user's ([Pause], answered by [Resume]) or the
    idle monitor's ([PauseInactive], answered by [ResumeFromInactive]), and
    what the world answers during the two calls. *)
Record Cycle : Type := mkCycle {
  manual : bool;
  paused_at : Env;
  resumed_at : Env
}.

Definition cycle_calls (c : Cycle) : list (Env * Command) :=
  if manual c
  then [(paused_at c, trigger pause); (resumed_at c, trigger resume)]
  else [(paused_at c, trigger pauseInactive);
        (resumed_at c, trigger resumeFromInactive)].

(** Work time of the intervals of [l], the first of which began at [t]. *)
Fixpoint worked (t : Z) (l : list Cycle) : Z :=
  match l with
  | [] => 0
  | c :: l' => (now (paused_at c) - t) + worked (now (resumed_at c)) l'
  end.

(** No interval ends before it began. *)
Fixpoint in_order (t : Z) (l : list Cycle) : Prop :=
  match l with
  | [] => True
  | c :: l' => t <= now (paused_at c) /\ in_order (now (resumed_at c)) l'
  end.

(** The instant of the last resume ([t] when there is none). *)
Fixpoint last_resume (t : Z) (l : list Cycle) : Z :=
  match l with
  | [] => t
  | c :: l' => last_resume (now (resumed_at c)) l'
  end.

(** In [StateRunning] the wake-up that is armed is the one for the moment
    at which the work time runs out; while paused none is armed. *)
Definition timer_consistent (m : Manager) : Prop :=
  (state m = StateRunning ->
   exists ws, workStartTime m = mono ws /\
              currentTimer m = Some (mkTimer ws (remaining m))) /\
  (state m = StatePausedManual \/ state m = StatePausedInactive ->
   currentTimer m = None).

Definition is_updateConfig (c : Command) : bool :=
  match c with
  | updateConfig _ => true
  | _ => false
  end.

Definition is_RecordBreakStart (ev : Event) : bool :=
  match ev with
  | store_RecordBreakStart => true
  | _ => false
  end.

(** The break ids that the store returned to the scheduler in the course of
    a history: the answers to the [RecordBreakStart] calls it made. *)
Fixpoint opened (h : list (Env * Command)) (m : Manager) : list Z :=
  match h with
  | [] => []
  | (e, c) :: h' =>
      (if existsb is_RecordBreakStart (trace (exec e c m))
       then match breakStartResult e with
            | Some id => [id]
            | None => []
            end
       else []) ++ opened h' (final (exec e c m))
  end.

(** The ids of the breaks that a trace marks as completed or skipped. *)
Fixpoint resolved (t : list Event) : list Z :=
  match t with
  | [] => []
  | store_RecordBreakComplete id _ :: t' => id :: resolved t'
  | store_RecordBreakSkipped id :: t' => id :: resolved t'
  | _ :: t' => resolved t'
  end.

End accounting.
(* ====================================================================== *)
(** ** Package [timer]: the name of a state                               *)
(* ====================================================================== *)

Module timer_names.
Import timer.
Import String.

(** The name returned by the [default] case of [String]. *)
Definition Unknown : string := "Unknown"%string.

(** [func (s State) String() string] *)
Definition State_String (s : State) : string :=
  if s =? StateRunning then "Running"%string
  else if s =? StateBreakRequired then "Break Required"%string
  else if s =? StatePausedManual then "Paused"%string
  else if s =? StatePausedInactive then "Paused (Idle)"%string
  else Unknown.

End timer_names.

(* ====================================================================== *)
(** ** Package [activity]                                                 *)
(* ====================================================================== *)

Module activity.
Import GoTime.

(** The channel [stopChan] is made once, in [NewMonitor], is never sent on,
    and is closed by [Stop]: all that matters is whether it is closed. *)
Inductive Chan : Type :=
| chan_open
| chan_closed.

(** [type Monitor struct].  As for the scheduler, the ticker pointer and
    the callbacks are [true] when they are not [nil]. *)
Record Monitor : Type := mkMonitor {
  config : config.Config;
  pollInterval : Duration;
  isIdle : bool;
  ticker : bool;
  stopChan : Chan;
  onBecameIdle : bool;
  onBecameActive : bool;
  running : bool
}.

Inductive Event : Type :=
| Lock                                (* m.mu.Lock() *)
| Unlock                              (* m.mu.Unlock() *)
| time_NewTicker (d : Duration)       (* time.NewTicker(m.pollInterval) *)
| go_monitorLoop                      (* go m.monitorLoop() *)
| close_stopChan                      (* close(m.stopChan) *)
| ticker_Stop                         (* m.ticker.Stop() *)
| call_onBecameIdle                   (* callback() in setIdle *)
| call_onBecameActive.                (* callback() in setActive *)

Definition set_config (v : config.Config) (m : Monitor) : Monitor :=
  mkMonitor v (pollInterval m) (isIdle m) (ticker m) (stopChan m)
    (onBecameIdle m) (onBecameActive m) (running m).

Definition set_isIdle (v : bool) (m : Monitor) : Monitor :=
  mkMonitor (config m) (pollInterval m) v (ticker m) (stopChan m)
    (onBecameIdle m) (onBecameActive m) (running m).

Definition set_ticker (v : bool) (m : Monitor) : Monitor :=
  mkMonitor (config m) (pollInterval m) (isIdle m) v (stopChan m)
    (onBecameIdle m) (onBecameActive m) (running m).

Definition set_stopChan (v : Chan) (m : Monitor) : Monitor :=
  mkMonitor (config m) (pollInterval m) (isIdle m) (ticker m) v
    (onBecameIdle m) (onBecameActive m) (running m).

Definition set_onBecameIdle (v : bool) (m : Monitor) : Monitor :=
  mkMonitor (config m) (pollInterval m) (isIdle m) (ticker m) (stopChan m)
    v (onBecameActive m) (running m).

Definition set_onBecameActive (v : bool) (m : Monitor) : Monitor :=
  mkMonitor (config m) (pollInterval m) (isIdle m) (ticker m) (stopChan m)
    (onBecameIdle m) v (running m).

Definition set_running (v : bool) (m : Monitor) : Monitor :=
  mkMonitor (config m) (pollInterval m) (isIdle m) (ticker m) (stopChan m)
    (onBecameIdle m) (onBecameActive m) v.

(** [func NewMonitor(cfg *config.Config) *Monitor] *)
Definition NewMonitor (cfg : config.Config) : Monitor :=
  {| config := cfg;
     pollInterval := 10 * Second;
     isIdle := false;
     ticker := false;
     stopChan := chan_open;
     onBecameIdle := false;
     onBecameActive := false;
     running := false |}.

(** [func (m *Monitor) Start()] *)
Definition Start (m : Monitor) : Monitor * list Event :=
  if running m then (m, [Lock; Unlock])
  else
    (set_ticker true (set_running true m),
     [Lock; time_NewTicker (pollInterval m); go_monitorLoop; Unlock]).

(** [func (m *Monitor) Stop()].  Closing a closed channel panics: the
    result is then [None] (the deferred unlock still runs). *)
Definition Stop (m : Monitor) : option (Monitor * list Event) :=
  if negb (running m) then Some (m, [Lock; Unlock])
  else
    match stopChan m with
    | chan_closed => None
    | chan_open =>
        let m1 := set_stopChan chan_closed (set_running false m) in
        if ticker m1
        then Some (set_ticker false m1,
                   [Lock; close_stopChan; ticker_Stop; Unlock])
        else Some (m1, [Lock; close_stopChan; Unlock])
    end.

(** [func (m *Monitor) IsIdle() bool] *)
Definition IsIdle (m : Monitor) : bool * list Event :=
  (isIdle m, [Lock; Unlock]).

(** [SetOnBecameIdle], [SetOnBecameActive], [UpdateConfig] *)
Definition SetOnBecameIdle (callback : bool) (m : Monitor)
  : Monitor * list Event :=
  (set_onBecameIdle callback m, [Lock; Unlock]).

Definition SetOnBecameActive (callback : bool) (m : Monitor)
  : Monitor * list Event :=
  (set_onBecameActive callback m, [Lock; Unlock]).

Definition UpdateConfig (cfg : config.Config) (m : Monitor)
  : Monitor * list Event :=
  (set_config cfg m, [Lock; Unlock]).

(** [func (m *Monitor) setIdle()]: the callback is read under the mutex and
    called after the mutex is released. *)
Definition setIdle (m : Monitor) : Monitor * list Event :=
  if isIdle m then (m, [Lock; Unlock])
  else
    (set_isIdle true m,
     [Lock; Unlock] ++ (if onBecameIdle m then [call_onBecameIdle] else [])).

(** [func (m *Monitor) setActive()] *)
Definition setActive (m : Monitor) : Monitor * list Event :=
  if negb (isIdle m) then (m, [Lock; Unlock])
  else
    (set_isIdle false m,
     [Lock; Unlock] ++
     (if onBecameActive m then [call_onBecameActive] else [])).

(** [func (m *Monitor) checkIdleStatus()], given what [idle.Get()]
    returns: [Some d] for [(d, nil)], [None] for an error. *)
Definition checkIdleStatus (got : option Duration) (m : Monitor)
  : Monitor * list Event :=
  match got with
  | None => setActive m
  | Some idleDuration =>
      let threshold := config.IdleThreshold (config m) in
      let wasIdle := isIdle m in
      let '(m', t) :=
        if threshold <=? idleDuration then
          if negb wasIdle then setIdle m else (m, [])
        else
          if wasIdle then setActive m else (m, [])
      in (m', [Lock; Unlock] ++ t)
  end.

(** [func (m *Monitor) monitorLoop()], for the ticks that arrive before the
    stop channel is closed: one [checkIdleStatus] per tick, with the idle
    time read at each. *)
Fixpoint monitorLoop (ticks : list (option Duration)) (m : Monitor)
  : Monitor * list Event :=
  match ticks with
  | [] => (m, [])
  | got :: ticks' =>
      let '(m1, t1) := checkIdleStatus got m in
      let '(m2, t2) := monitorLoop ticks' m1 in
      (m2, t1 ++ t2)
  end.

(** The callback calls of a trace, in order. *)
Definition is_call (ev : Event) : bool :=
  match ev with
  | call_onBecameIdle | call_onBecameActive => true
  | _ => false
  end.

Definition calls (t : list Event) : list Event := filter is_call t.

(** The calls of a trace alternate, beginning with the one that fits the
    level [idle] before the trace. *)
Fixpoint alternating (idle : bool) (l : list Event) : Prop :=
  match l with
  | [] => True
  | call_onBecameIdle :: l' => idle = false /\ alternating true l'
  | call_onBecameActive :: l' => idle = true /\ alternating false l'
  | _ :: l' => False
  end.

(** Some callback is called at a point of the trace where the monitor's
    mutex is held. *)
Fixpoint calls_under_lock (held : bool) (t : list Event) : bool :=
  match t with
  | [] => false
  | Lock :: t' => calls_under_lock true t'
  | Unlock :: t' => calls_under_lock false t'
  | ev :: t' => (held && is_call ev) || calls_under_lock held t'
  end.

(** Whether the mutex is held after a trace. *)
Fixpoint held_after (held : bool) (t : list Event) : bool :=
  match t with
  | [] => held
  | Lock :: t' => held_after true t'
  | Unlock :: t' => held_after false t'
  | _ :: t' => held_after held t'
  end.

(** Whether a reading of [idle.Get()] counts as idle. *)
Definition reads_idle (got : option Duration) (m : Monitor) : bool :=
  match got with
  | None => false
  | Some d => config.IdleThreshold (config m) <=? d
  end.

End activity.
(* ====================================================================== *)
(** ** Package [app]: the monitor wired to the scheduler                  *)
(* ====================================================================== *)

Module app.
Import GoTime.

(** [type App struct], with the two components that [setupCallbacks] wires
    to each other. *)
Record App : Type := mkApp {
  activityMonitor : activity.Monitor;
  timerManager : timer.Manager
}.

(** [func New()] once the configuration and the store are there: the components are created and [setupCallbacks] registers every
    callback. *)
Definition New (cfg : config.Config) : App :=
  {| activityMonitor :=
       fst (activity.SetOnBecameActive true
              (fst (activity.SetOnBecameIdle true
                      (activity.NewMonitor cfg))));
     timerManager :=
       timer.final
         (timer.SetOnStateChange true
            (timer.final
               (timer.SetOnBreakComplete true
                  (timer.final
                     (timer.SetOnBreakRequired true
                        (timer.NewManager cfg true)))))) |}.

(** The part of [func (a *App) Run()] that starts the two components. *)
Definition Run (e : timer.Env) (a : App) : App :=
  {| activityMonitor := fst (activity.Start (activityMonitor a));
     timerManager := timer.final (timer.Start e (timerManager a)) |}.

(** The callbacks that [setupCallbacks] registers on the monitor:
    "became idle" calls [PauseInactive], "became active" calls
    [ResumeFromInactive]. *)
Definition monitor_callback (e : timer.Env) (ev : activity.Event)
    (tm : timer.Manager) : timer.Manager :=
  match ev with
  | activity.call_onBecameIdle => timer.final (timer.PauseInactive e tm)
  | activity.call_onBecameActive =>
      timer.final (timer.ResumeFromInactive e tm)
  | _ => tm
  end.

Definition deliver (e : timer.Env) (t : list activity.Event)
    (tm : timer.Manager) : timer.Manager :=
  fold_left (fun tm ev => monitor_callback e ev tm) t tm.

(** What reaches the application: a tick of the monitor's ticker (with what
    [idle.Get()] returns), the two menu entries, the end of the overlay's
    countdown, and a work-duration wake-up. *)
Inductive Input : Type :=
| tick (got : option Duration)
| menuPause
| menuResume
| overlayComplete
| wakeUp.

Definition step (e : timer.Env) (i : Input) (a : App) : App :=
  match i with
  | tick got =>
      let '(mon, t) := activity.checkIdleStatus got (activityMonitor a) in
      mkApp mon (deliver e t (timerManager a))
  | menuPause =>
      mkApp (activityMonitor a) (timer.final (timer.Pause e (timerManager a)))
  | menuResume =>
      mkApp (activityMonitor a)
        (timer.final (timer.Resume e (timerManager a)))
  | overlayComplete =>
      mkApp (activityMonitor a)
        (timer.final (timer.CompleteBreak e (timerManager a)))
  | wakeUp =>
      mkApp (activityMonitor a)
        (timer.final (timer.workTimerFunc e (timerManager a)))
  end.

Fixpoint steps (h : list (timer.Env * Input)) (a : App) : App :=
  match h with
  | [] => a
  | (e, i) :: h' => steps h' (step e i a)
  end.

End app.
(* ====================================================================== *)
(** ** Conversions between [float64] and [time.Duration]                  *)
(* ====================================================================== *)

Module GoConv.
Import GoTime.

(** The integer part of a finite [float64] (the fraction is discarded,
    rounding toward zero); [None] for a NaN or an infinity. *)
Definition trunc (f : float) : option Z :=
  match FloatOps.Prim2SF f with
  | SpecFloat.S754_zero _ => Some 0
  | SpecFloat.S754_finite s m e =>
      let v := if 0 <=? e then Zpos m * 2 ^ e else Zpos m / 2 ^ (- e) in
      Some (if s then - v else v)
  | _ => None
  end.

(** The conversion [int64(f)], hence [time.Duration(f)].  Where the integer
    part does not fit [int64] (or [f] is a NaN or an infinity) Go leaves the
    result to the implementation: [ovf] stands for what the platform
    yields. *)
Definition int64_of_float (ovf : float -> Z) (f : float) : Z :=
  match trunc f with
  | Some z => if (minDuration <=? z) && (z <=? maxDuration) then z else ovf f
  | None => ovf f
  end.

(** [func (d Duration) Minutes() float64] and [Seconds], as in package
    [time]: the integer and the fractional part are converted apart. *)
Definition Minutes (d : Duration) : float :=
  PrimFloat.add (stats.float64_of_int (Z.quot d Minute))
    (PrimFloat.div (stats.float64_of_int (Z.rem d Minute)) 6e10%float).

Definition Seconds (d : Duration) : float :=
  PrimFloat.add (stats.float64_of_int (Z.quot d Second))
    (PrimFloat.div (stats.float64_of_int (Z.rem d Second)) 1e9%float).

(** A test on every integer of [k, k + fuel). *)
Fixpoint all_from (fuel : nat) (k : Z) (p : Z -> bool) : bool :=
  match fuel with
  | O => true
  | S f => p k && all_from f (k + 1) p
  end.

End GoConv.

(* ====================================================================== *)
(** ** Package [config]: the manager                                      *)
(* ====================================================================== *)

Module config_manager.
Import GoTime.
Import String.

(** [const configFileName] *)
Definition configFileName : string := "config.json"%string.

(** A value of a [map[string]interface{}] filled by [json.Unmarshal]. *)
Inductive JSON : Type :=
| JNumber (f : float)
| JBool (b : bool)
| JString (s : string)
| JNull
| JArray
| JObject.

(** The map itself, by its lookups. *)
Definition Raw : Type := string -> option JSON.

Definition no_keys : Raw := fun _ => None.

Definition put (k : string) (v : JSON) (r : Raw) : Raw :=
  fun k' => if String.eqb k' k then Some v else r k'.

(** The type assertions [raw[k].(float64)] and [raw[k].(bool)]. *)
Definition as_float64 (v : option JSON) : option float :=
  match v with
  | Some (JNumber f) => Some f
  | _ => None
  end.

Definition as_bool (v : option JSON) : option bool :=
  match v with
  | Some (JBool b) => Some b
  | _ => None
  end.

(** What [os.ReadFile] followed by [json.Unmarshal] yields: no file, a
    file that cannot be read, content that [json.Unmarshal] refuses, or
    the map that it fills (without keys for [{}] and for [null]).  The
    text of the file is not modelled: a file is the map that it denotes. *)
Inductive FileRead : Type :=
| file_missing
| file_unreadable
| file_not_json
| file_json (raw : Raw).

(** The errors of the manager, with the wrapping of [fmt.Errorf]. *)
Inductive error : Type :=
| ErrNotExist                          (* from os.ReadFile, unwrapped *)
| ErrRead                              (* from os.ReadFile, unwrapped *)
| ErrUnmarshal                         (* "failed to unmarshal config" *)
| ErrInvalidConfig (e : config.error)  (* "invalid config: %w" *)
| ErrValidation (e : config.error)     (* returned bare by Update *)
| ErrMarshal                           (* "failed to marshal config" *)
| ErrWriteFile                         (* "failed to write config file" *)
| ErrGetConfigDir                      (* "failed to get config directory" *)
| ErrConfigDirCreation
| ErrSaveDefault (e : error)           (* "failed to save default config" *)
| ErrLoadConfig (e : error).           (* "failed to load config" *)

(** [type Manager struct]; [config] is [None] for a [nil] pointer. *)
Record Manager : Type := mkManager {
  configPath : string;
  config : option config.Config
}.

(** The helpers at the end of the file. *)
Definition minutesToDuration (ovf : float -> Z) (minutes : float)
  : Duration :=
  GoConv.int64_of_float ovf
    (PrimFloat.mul minutes (stats.float64_of_int Minute)).

Definition secondsToDuration (ovf : float -> Z) (seconds : float)
  : Duration :=
  GoConv.int64_of_float ovf
    (PrimFloat.mul seconds (stats.float64_of_int Second)).

Definition durationToMinutes (d : Duration) : float := GoConv.Minutes d.

Definition durationToSeconds (d : Duration) : float := GoConv.Seconds d.

(** The configuration that [Load] builds before it validates it: the
    defaults, overwritten by each key of the file that has a value of the
    expected JSON type. *)
Definition parse (ovf : float -> Z) (raw : Raw) : config.Config :=
  let d := config.DefaultConfig in
  {| config.WorkDuration :=
       match as_float64 (raw "work_duration_minutes"%string) with
       | Some v => minutesToDuration ovf v
       | None => config.WorkDuration d
       end;
     config.BreakDuration :=
       match as_float64 (raw "break_duration_seconds"%string) with
       | Some v => secondsToDuration ovf v
       | None => config.BreakDuration d
       end;
     config.IdleThreshold :=
       match as_float64 (raw "idle_threshold_minutes"%string) with
       | Some v => minutesToDuration ovf v
       | None => config.IdleThreshold d
       end;
     config.AutoStartOnLogin :=
       match as_bool (raw "auto_start_on_login"%string) with
       | Some v => v
       | None => config.AutoStartOnLogin d
       end;
     config.PauseOnFullscreen :=
       match as_bool (raw "pause_on_fullscreen_app"%string) with
       | Some v => v
       | None => config.PauseOnFullscreen d
       end;
     config.NotificationSound :=
       match as_bool (raw "notification_sound"%string) with
       | Some v => v
       | None => config.NotificationSound d
       end;
     config.OverlayOpacity :=
       match as_float64 (raw "overlay_opacity"%string) with
       | Some v => v
       | None => config.OverlayOpacity d
       end;
     config.FirstRun :=
       match as_bool (raw "first_run"%string) with
       | Some v => v
       | None => config.FirstRun d
       end |}.

(** [func (m *Manager) Load() error] *)
Definition Load (ovf : float -> Z) (read : FileRead) (m : Manager)
  : Manager * option error :=
  match read with
  | file_missing => (m, Some ErrNotExist)
  | file_unreadable => (m, Some ErrRead)
  | file_not_json => (m, Some ErrUnmarshal)
  | file_json raw =>
      let c := parse ovf raw in
      match config.Validate c with
      | Some err => (m, Some (ErrInvalidConfig err))
      | None => (mkManager (configPath m) (Some c), None)
      end
  end.

(** The map that [Save] hands to [json.MarshalIndent]. *)
Definition to_raw (c : config.Config) : Raw :=
  put "work_duration_minutes" (JNumber (durationToMinutes (config.WorkDuration c)))
  (put "break_duration_seconds" (JNumber (durationToSeconds (config.BreakDuration c)))
  (put "idle_threshold_minutes" (JNumber (durationToMinutes (config.IdleThreshold c)))
  (put "auto_start_on_login" (JBool (config.AutoStartOnLogin c))
  (put "pause_on_fullscreen_app" (JBool (config.PauseOnFullscreen c))
  (put "notification_sound" (JBool (config.NotificationSound c))
  (put "overlay_opacity" (JNumber (config.OverlayOpacity c))
  (put "first_run" (JBool (config.FirstRun c)) no_keys))))))).

(** What the world answers to [Save]: whether [json.MarshalIndent] and
    [os.WriteFile] succeed. *)
Record Disk : Type := mkDisk {
  marshal_ok : bool;
  write_ok : bool
}.

(** [func (m *Manager) Save() error]; the third component is the map
    written to the file, when the call gets that far and succeeds. *)
Definition Save (w : Disk) (m : Manager)
  : Manager * option error * option Raw :=
  let c := match config m with
           | Some c => c
           | None => config.DefaultConfig
           end in
  let m1 := mkManager (configPath m) (Some c) in
  match config.Validate c with
  | Some err => (m1, Some (ErrInvalidConfig err), None)
  | None =>
      if negb (marshal_ok w) then (m1, Some ErrMarshal, None)
      else if negb (write_ok w) then (m1, Some ErrWriteFile, None)
      else (m1, None, Some (to_raw c))
  end.

(** [func (m *Manager) Get() *Config] *)
Definition Get (m : Manager) : Manager * config.Config :=
  match config m with
  | Some c => (m, c)
  | None =>
      (mkManager (configPath m) (Some config.DefaultConfig),
       config.DefaultConfig)
  end.

(** [func (m *Manager) Update(config *Config) error] *)
Definition Update (w : Disk) (c : config.Config) (m : Manager)
  : Manager * option error * option Raw :=
  match config.Validate c with
  | Some err => (m, Some (ErrValidation err), None)
  | None => Save w (mkManager (configPath m) (Some c))
  end.

(** What the world answers to [NewManager]: the path of the configuration
    file if the home directory is known, whether the directory can be made,
    what reading the file gives, and the answers to a [Save]. *)
Record Startup : Type := mkStartup {
  path : option string;
  mkdir_ok : bool;
  read : FileRead;
  disk : Disk
}.

(** [func NewManager()], returning the manager or an error *)
Definition NewManager (ovf : float -> Z) (s : Startup)
  : Manager + error :=
  match path s with
  | None => inr ErrGetConfigDir
  | Some p =>
      if negb (mkdir_ok s) then inr ErrConfigDirCreation
      else
        let m := mkManager p None in
        match Load ovf (read s) m with
        | (m1, None) => inl m1
        | (m1, Some ErrNotExist) =>
            let m2 := mkManager (configPath m1) (Some config.DefaultConfig) in
            match Save (disk s) m2 with
            | (m3, None, _) => inl m3
            | (_, Some err, _) => inr (ErrSaveDefault err)
            end
        | (_, Some err) => inr (ErrLoadConfig err)
        end
  end.

(** The calls a client makes on a manager, with the world's answers. *)
Inductive Call : Type :=
| call_Load (read : FileRead)
| call_Save (w : Disk)
| call_Update (w : Disk) (c : config.Config)
| call_Get.

Definition call (ovf : float -> Z) (c : Call) (m : Manager) : Manager :=
  match c with
  | call_Load r => fst (Load ovf r m)
  | call_Save w => fst (fst (Save w m))
  | call_Update w c => fst (fst (Update w c m))
  | call_Get => fst (Get m)
  end.

(** The manager holds no configuration or a valid one. *)
Definition holds_valid (m : Manager) : Prop :=
  match config m with
  | Some c => config.Validate c = None
  | None => True
  end.

End config_manager.
(* ====================================================================== *)
(** ** Package [overlay]: the countdown                                   *)
(* ====================================================================== *)

Module overlay.
Import GoTime.

(** [type Window struct], without the AppKit windows and labels.
    [stopChan] has room for one signal: [true] when it holds one. *)
Record Window : Type := mkWindow {
  config : config.Config;
  isShowing : bool;
  ticker : bool;
  stopChan : bool;
  onComplete : bool;
  remainingSecs : Z
}.

Inductive Event : Type :=
| Lock                          (* w.mu.Lock() *)
| Unlock                        (* w.mu.Unlock() *)
| dispatch_show                 (* createOverlayWindows, startCountdown *)
| dispatch_close                (* closeOverlayWindows *)
| dispatch_labels (n : Z)       (* label.SetStringValue of [n] *)
| time_NewTicker                (* time.NewTicker(1 * time.Second) *)
| go_countdown                  (* go func() ... *)
| ticker_Stop                   (* w.ticker.Stop() *)
| call_onComplete.              (* w.onComplete() *)

Definition set_isShowing (v : bool) (w : Window) : Window :=
  mkWindow (config w) v (ticker w) (stopChan w) (onComplete w)
    (remainingSecs w).

Definition set_ticker (v : bool) (w : Window) : Window :=
  mkWindow (config w) (isShowing w) v (stopChan w) (onComplete w)
    (remainingSecs w).

Definition set_stopChan (v : bool) (w : Window) : Window :=
  mkWindow (config w) (isShowing w) (ticker w) v (onComplete w)
    (remainingSecs w).

Definition set_onComplete (v : bool) (w : Window) : Window :=
  mkWindow (config w) (isShowing w) (ticker w) (stopChan w) v
    (remainingSecs w).

Definition set_remainingSecs (v : Z) (w : Window) : Window :=
  mkWindow (config w) (isShowing w) (ticker w) (stopChan w) (onComplete w)
    v.

(** [func NewWindow(cfg *config.Config) *Window] *)
Definition NewWindow (cfg : config.Config) : Window :=
  {| config := cfg;
     isShowing := false;
     ticker := false;
     stopChan := false;
     onComplete := false;
     remainingSecs := 0 |}.

(** [func (w *Window) Show(duration time.Duration)]; [int] has 64 bits. *)
Definition Show (ovf : float -> Z) (duration : Duration) (w : Window)
  : Window * list Event :=
  if isShowing w then (w, [Lock; Unlock])
  else
    (set_stopChan false
       (set_remainingSecs
          (GoConv.int64_of_float ovf (GoConv.Seconds duration))
          (set_isShowing true w)),
     [Lock; Unlock; dispatch_show]).

(** [func (w *Window) Hide()]: the send on [stopChan] fills the channel
    if it is empty and is dropped if it is full. *)
Definition Hide (w : Window) : Window * list Event :=
  if negb (isShowing w) then (w, [Lock; Unlock])
  else
    let w1 := set_isShowing false w in
    (set_stopChan true (set_ticker false w1),
     [Lock] ++ (if ticker w1 then [ticker_Stop] else []) ++
     [Unlock; dispatch_close]).

(** [func (w *Window) SetOnComplete(callback func())] *)
Definition SetOnComplete (callback : bool) (w : Window) : Window :=
  set_onComplete callback w.

(** [func (w *Window) startCountdown()] up to the start of the goroutine *)
Definition startCountdown (w : Window) : Window * list Event :=
  (set_ticker true w, [time_NewTicker; go_countdown]).

(** The branch [case <-w.ticker.C] of the goroutine of [startCountdown]:
    the window after it, what it did, and whether the loop goes on. *)
Definition countdownTick (w : Window) : Window * list Event * bool :=
  if negb (isShowing w) then (w, [Lock; Unlock], false)
  else
    let remaining := sub (remainingSecs w) 1 in
    let w1 := set_remainingSecs remaining w in
    let t1 := [Lock; Unlock; dispatch_labels remaining] in
    if remaining <=? 0 then
      let '(w2, t2) := Hide w1 in
      (w2,
       t1 ++ [Lock] ++ (if ticker w1 then [ticker_Stop] else []) ++
       [Unlock] ++ t2 ++
       (if onComplete w2 then [call_onComplete] else []),
       false)
    else (w1, t1, true).

(** The goroutine over [n] ticks of the ticker, as long as it takes no
    stop signal. *)
Fixpoint countdown (n : nat) (w : Window) : Window * list Event * bool :=
  match n with
  | O => (w, [], true)
  | S n' =>
      let '(w1, t1, more) := countdownTick w in
      if more then
        let '(w2, t2, more') := countdown n' w1 in (w2, t1 ++ t2, more')
      else (w1, t1, false)
  end.

(** The numbers that a trace puts on the labels, in order. *)
Fixpoint shown (t : list Event) : list Z :=
  match t with
  | [] => []
  | dispatch_labels n :: t' => n :: shown t'
  | _ :: t' => shown t'
  end.

Definition is_onComplete (ev : Event) : bool :=
  match ev with
  | call_onComplete => true
  | _ => false
  end.

(** How often a trace calls the completion callback. *)
Definition completions (t : list Event) : nat :=
  length (filter is_onComplete t).

(** [k - 1], [k - 2], ..., [k - n]. *)
Fixpoint down_from (n : nat) (k : Z) : list Z :=
  match n with
  | O => []
  | S n' => (k - 1) :: down_from n' (k - 1)
  end.

End overlay.

(* ====================================================================== *)
(** ** Properties                                                         *)
(* ====================================================================== *)

Import GoTime timer driver.
Local Open Scope go_scope.

Arguments wrap64 : simpl never.
Arguments sat64 : simpl never.

(** *** 64-bit arithmetic *)

Lemma wrap64_id (z : Z) : int64_range z -> wrap64 z = z.
Proof.
  unfold int64_range, minDuration, maxDuration, wrap64. intros H.
  rewrite Z.mod_small; lia.
Qed.

Lemma wrap64_range (z : Z) : int64_range (wrap64 z).
Proof.
  unfold int64_range, minDuration, maxDuration, wrap64.
  pose proof (Z.mod_pos_bound (z + 2 ^ 63) (2 ^ 64) ltac:(lia)). lia.
Qed.

Lemma sat64_id (z : Z) : int64_range z -> sat64 z = z.
Proof.
  unfold int64_range, sat64. intros H.
  destruct (Z.ltb_spec z minDuration); [lia|].
  destruct (Z.ltb_spec maxDuration z); [lia|reflexivity].
Qed.

Lemma sat64_range (z : Z) : int64_range (sat64 z).
Proof.
  unfold int64_range, sat64, minDuration, maxDuration.
  destruct (Z.ltb_spec z (- 2 ^ 63)); [lia|].
  destruct (Z.ltb_spec (2 ^ 63 - 1) z); lia.
Qed.

Lemma add_exact (a b : Z) : int64_range (a + b) -> add a b = a + b.
Proof. apply wrap64_id. Qed.

Lemma sub_exact (a b : Z) : int64_range (a - b) -> sub a b = a - b.
Proof. apply wrap64_id. Qed.

(** Unfolding of the monad and of the methods down to conditionals on the
    receiver's fields. *)
Ltac go_unfold :=
  unfold run, exec, fire, discard,
    Start, Pause, Resume, PauseInactive, ResumeFromInactive,
    CompleteBreak, SkipBreak, Stop, workTimerFunc,
    GetState, GetTimeUntilBreak, GetBreakTimeRemaining,
    SetOnBreakRequired, SetOnBreakComplete, SetOnStateChange, UpdateConfig,
    locked, bind, gets, modify, emit, when, ret in *.

Ltac go_fields :=
  cbn [state config statsStore currentTimer workStartTime breakStartTime
       currentBreakID elapsed pauseTime onBreakRequired onBreakComplete
       onStateChange set_state set_config set_currentTimer set_workStartTime
       set_breakStartTime set_currentBreakID set_elapsed set_pauseTime
       set_onBreakRequired set_onBreakComplete set_onStateChange
       result final trace fst snd app negb andb orb Z.eqb Pos.eqb
       StateRunning StateBreakRequired StatePausedManual
       StatePausedInactive] in *.

(** Case split on the outermost undecided test of the goal. *)
Ltac go_case :=
  match goal with
  | |- context [if ?b then _ else _] => destruct b eqn:?; go_fields
  end.

(** *** Remaining-time queries *)

Section Queries.

Variables (e : Env) (m : Manager).

Lemma GetTimeUntilBreak_running (ws : Z) :
  state m = StateRunning ->
  workStartTime m = mono ws ->
  int64_range (now e - ws) ->
  int64_range (elapsed m + (now e - ws)) ->
  int64_range
    (config.WorkDuration (config m) - elapsed m - (now e - ws)) ->
  result (GetTimeUntilBreak e m) =
  Z.max 0 (config.WorkDuration (config m) - elapsed m - (now e - ws)).
Proof.
  intros Hst Hws H1 H2 H3. go_unfold. rewrite Hst. go_fields.
  rewrite Hws. unfold Since.
  rewrite (sat64_id _ H1), (add_exact _ _ H2), sub_exact
    by (replace (config.WorkDuration (config m) - (elapsed m + (now e - ws)))
          with (config.WorkDuration (config m) - elapsed m - (now e - ws))
          by lia; exact H3).
  go_case; [apply Z.ltb_lt in Heqb | apply Z.ltb_ge in Heqb]; lia.
Qed.

Lemma GetBreakTimeRemaining_break (bs : Z) :
  state m = StateBreakRequired ->
  breakStartTime m = mono bs ->
  int64_range (now e - bs) ->
  int64_range (config.BreakDuration (config m) - (now e - bs)) ->
  result (GetBreakTimeRemaining e m) =
  Z.max 0 (config.BreakDuration (config m) - (now e - bs)).
Proof.
  intros Hst Hbs H1 H2. go_unfold. rewrite Hst. go_fields.
  rewrite Hbs. unfold Since.
  rewrite (sat64_id _ H1), (sub_exact _ _ H2).
  go_case; [apply Z.ltb_lt in Heqb | apply Z.ltb_ge in Heqb]; lia.
Qed.

Lemma GetTimeUntilBreak_other :
  state m <> StateRunning -> result (GetTimeUntilBreak e m) = 0.
Proof.
  intros Hst. go_unfold.
  destruct (Z.eqb_spec (state m) StateRunning) as [E|_]; [contradiction|].
  reflexivity.
Qed.

Lemma GetBreakTimeRemaining_other :
  state m <> StateBreakRequired -> result (GetBreakTimeRemaining e m) = 0.
Proof.
  intros Hst. go_unfold.
  destruct (Z.eqb_spec (state m) StateBreakRequired) as [E|_];
    [contradiction|].
  reflexivity.
Qed.

Lemma GetTimeUntilBreak_nonneg : 0 <= result (GetTimeUntilBreak e m).
Proof.
  go_unfold.
  destruct (state m =? StateRunning); go_fields; [|lia].
  go_case; [lia | apply Z.ltb_ge in Heqb; exact Heqb].
Qed.

Lemma GetBreakTimeRemaining_nonneg :
  0 <= result (GetBreakTimeRemaining e m).
Proof.
  go_unfold.
  destruct (state m =? StateBreakRequired); go_fields; [|lia].
  go_case; [lia | apply Z.ltb_ge in Heqb; exact Heqb].
Qed.

Lemma GetTimeUntilBreak_pure :
  final (GetTimeUntilBreak e m) = m /\
  trace (GetTimeUntilBreak e m) = [mu_Lock; mu_Unlock].
Proof.
  go_unfold.
  destruct (state m =? StateRunning); go_fields; [|split; reflexivity].
  go_case; split; reflexivity.
Qed.

Lemma GetBreakTimeRemaining_pure :
  final (GetBreakTimeRemaining e m) = m /\
  trace (GetBreakTimeRemaining e m) = [mu_Lock; mu_Unlock].
Proof.
  go_unfold.
  destruct (state m =? StateBreakRequired); go_fields; [|split; reflexivity].
  go_case; split; reflexivity.
Qed.

End Queries.

(** C1.  At every clock reading [now e]: in [Running],
    [GetTimeUntilBreak] returns
    [max 0 (WorkDuration - elapsed - (now - workStartTime))]; in
    [BreakRequired], [GetBreakTimeRemaining] returns
    [max 0 (BreakDuration - (now - breakStartTime))] (both whenever these
    differences are representable as [int64] nanoseconds, so that Go's
    [Duration] arithmetic is exact); in every other state each query returns
    0; and neither query ever returns a negative duration, changes the
    scheduler, or does anything but take and release the mutex. *)
Theorem C1_queries (e : Env) (m : Manager) :
  (forall ws,
      state m = StateRunning ->
      workStartTime m = mono ws ->
      int64_range (now e - ws) ->
      int64_range (elapsed m + (now e - ws)) ->
      int64_range
        (config.WorkDuration (config m) - elapsed m - (now e - ws)) ->
      result (GetTimeUntilBreak e m) =
      Z.max 0 (config.WorkDuration (config m) - elapsed m - (now e - ws)))
  /\
  (forall bs,
      state m = StateBreakRequired ->
      breakStartTime m = mono bs ->
      int64_range (now e - bs) ->
      int64_range (config.BreakDuration (config m) - (now e - bs)) ->
      result (GetBreakTimeRemaining e m) =
      Z.max 0 (config.BreakDuration (config m) - (now e - bs)))
  /\
  (state m <> StateRunning -> result (GetTimeUntilBreak e m) = 0) /\
  (state m <> StateBreakRequired ->
   result (GetBreakTimeRemaining e m) = 0) /\
  0 <= result (GetTimeUntilBreak e m) /\
  0 <= result (GetBreakTimeRemaining e m) /\
  (final (GetTimeUntilBreak e m) = m /\
   trace (GetTimeUntilBreak e m) = [mu_Lock; mu_Unlock]) /\
  (final (GetBreakTimeRemaining e m) = m /\
   trace (GetBreakTimeRemaining e m) = [mu_Lock; mu_Unlock]).
Proof.
  repeat split.
  - intros ws. apply GetTimeUntilBreak_running.
  - intros bs. apply GetBreakTimeRemaining_break.
  - apply GetTimeUntilBreak_other.
  - apply GetBreakTimeRemaining_other.
  - apply GetTimeUntilBreak_nonneg.
  - apply GetBreakTimeRemaining_nonneg.
  - apply GetTimeUntilBreak_pure.
  - apply GetTimeUntilBreak_pure.
  - apply GetBreakTimeRemaining_pure.
  - apply GetBreakTimeRemaining_pure.
Qed.

(** *** Triggers outside their source states *)

(** C3.  A trigger invoked in a state for which the transition table has
    no row returns normally and leaves the whole scheduler as it was (the
    state, [workStartTime], [elapsed], [breakStartTime], [currentBreakID]
    and every other field): nothing but the mutex is touched, no timer is
    armed or stopped, no callback runs and the store is not written. *)
Theorem C3_unlisted_trigger_is_noop (e : Env) (t : Trigger) (m : Manager) :
  one_of_four (state m) ->
  listed t (state m) = false ->
  fire e t m = (tt, m, [mu_Lock; mu_Unlock]).
Proof.
  intros Hs Hl.
  destruct Hs as [(E & _)|[(_ & E & _)|[(_ & _ & E & _)|(_ & _ & _ & E)]]];
    rewrite E in Hl; destruct t; cbn in Hl; try discriminate Hl;
    go_unfold; rewrite E; go_fields; reflexivity.
Qed.

(** *** The helpers in closed form *)

Lemma notifyStateChange_eq (m : Manager) :
  notifyStateChange m = (tt, m, notify_trace m).
Proof.
  unfold notifyStateChange, notify_trace, bind, gets, emit, when, ret.
  destruct (onStateChange m); reflexivity.
Qed.

Lemma stopCurrentTimer_eq (m : Manager) :
  stopCurrentTimer m = (tt, set_currentTimer None m, stop_trace m).
Proof.
  destruct m as [st cfg store [tm|] ws bs id el pt obr obc osc];
    reflexivity.
Qed.

Lemma triggerBreak_eq (e : Env) (m : Manager) :
  triggerBreak e m = (tt, break_state e m, break_trace e m).
Proof.
  destruct m as [st cfg store tm ws bs id el pt obr obc osc].
  unfold triggerBreak, break_trace, notify_trace, break_state, record_start,
    notifyStateChange, bind, gets, modify, emit, when, ret.
  go_fields.
  destruct store, (breakStartResult e), osc, obr; cbn; reflexivity.
Qed.

Lemma scheduleWorkTimer_eq (e : Env) (m : Manager) :
  scheduleWorkTimer e m = (tt, sched_state e m, sched_trace e m).
Proof.
  unfold scheduleWorkTimer, sched_state, sched_trace, due, remaining.
  unfold bind at 1. rewrite stopCurrentTimer_eq.
  unfold bind, gets, modify, emit, ret. go_fields.
  destruct (sub (config.WorkDuration (config m)) (elapsed m) <=? 0).
  - rewrite triggerBreak_eq. reflexivity.
  - reflexivity.
Qed.

(** Evaluation of a method body: unfold the monad, then replace each helper
    call on a known receiver by its closed form. *)
Ltac go_eval :=
  go_unfold; go_fields;
  repeat (progress
            (rewrite ?notifyStateChange_eq, ?stopCurrentTimer_eq,
               ?scheduleWorkTimer_eq, ?triggerBreak_eq);
          go_fields).

(** Fields of the receiver after [triggerBreak] and [scheduleWorkTimer]. *)

Ltac frame_cases m e :=
  destruct m as [st cfg store tm ws bs id el pt obr obc osc];
  unfold sched_state, break_state, record_start; go_fields;
  try destruct (due _); destruct store, (breakStartResult e);
  repeat split; reflexivity.

Lemma state_sched_state (e : Env) (m : Manager) :
  state (sched_state e m) =
  if due m then StateBreakRequired else state m.
Proof. unfold sched_state. destruct (due m); reflexivity. Qed.

Lemma currentTimer_sched_state (e : Env) (m : Manager) :
  currentTimer (sched_state e m) =
  if due m then None else Some (mkTimer (now e) (remaining m)).
Proof.
  frame_cases m e.
Qed.

Lemma breakStartTime_sched_state (e : Env) (m : Manager) :
  breakStartTime (sched_state e m) =
  if due m then mono (now e) else breakStartTime m.
Proof. unfold sched_state. destruct (due m); reflexivity. Qed.


Lemma currentBreakID_record_start (e : Env) (m : Manager) :
  currentBreakID (record_start e m) =
  if statsStore m then
    match breakStartResult e with
    | Some breakID => breakID
    | None => currentBreakID m
    end
  else currentBreakID m.
Proof.
  frame_cases m e.
Qed.

Lemma currentBreakID_sched_state (e : Env) (m : Manager) :
  currentBreakID (sched_state e m) =
  if due m then currentBreakID (record_start e m) else currentBreakID m.
Proof.
  frame_cases m e.
Qed.

Lemma frame_record_start (e : Env) (m : Manager) :
  state (record_start e m) = state m /\
  config (record_start e m) = config m /\
  statsStore (record_start e m) = statsStore m /\
  currentTimer (record_start e m) = currentTimer m /\
  workStartTime (record_start e m) = workStartTime m /\
  breakStartTime (record_start e m) = breakStartTime m /\
  elapsed (record_start e m) = elapsed m /\
  pauseTime (record_start e m) = pauseTime m /\
  onBreakRequired (record_start e m) = onBreakRequired m /\
  onBreakComplete (record_start e m) = onBreakComplete m /\
  onStateChange (record_start e m) = onStateChange m.
Proof.
  frame_cases m e.
Qed.

Lemma frame_sched_state (e : Env) (m : Manager) :
  config (sched_state e m) = config m /\
  statsStore (sched_state e m) = statsStore m /\
  workStartTime (sched_state e m) = workStartTime m /\
  elapsed (sched_state e m) = elapsed m /\
  pauseTime (sched_state e m) = pauseTime m /\
  onBreakRequired (sched_state e m) = onBreakRequired m /\
  onBreakComplete (sched_state e m) = onBreakComplete m /\
  onStateChange (sched_state e m) = onStateChange m.
Proof.
  frame_cases m e.
Qed.

Lemma callbacks_break_state (e : Env) (m : Manager) :
  onStateChange (break_state e m) = onStateChange m /\
  onBreakRequired (break_state e m) = onBreakRequired m /\
  onBreakComplete (break_state e m) = onBreakComplete m.
Proof. frame_cases m e. Qed.

(** Rewriting with the frame equations above. *)
Ltac go_frame :=
  repeat match goal with
    | |- context [?f (sched_state ?e ?m)] =>
        first
          [ rewrite (proj1 (frame_sched_state e m))
          | rewrite (proj1 (proj2 (frame_sched_state e m)))
          | rewrite (proj1 (proj2 (proj2 (frame_sched_state e m))))
          | rewrite (proj1 (proj2 (proj2 (proj2 (frame_sched_state e m)))))
          | rewrite (proj1 (proj2 (proj2 (proj2 (proj2
                       (frame_sched_state e m))))))
          | rewrite (proj1 (proj2 (proj2 (proj2 (proj2 (proj2
                       (frame_sched_state e m)))))))
          | rewrite (proj1 (proj2 (proj2 (proj2 (proj2 (proj2 (proj2
                       (frame_sched_state e m))))))))
          | rewrite (proj2 (proj2 (proj2 (proj2 (proj2 (proj2 (proj2
                       (frame_sched_state e m))))))))
          | rewrite (state_sched_state e m)
          | rewrite (currentTimer_sched_state e m)
          | rewrite (breakStartTime_sched_state e m)
          | rewrite (currentBreakID_sched_state e m) ]
    end;
  go_fields.

(** *** The state variable *)

Lemma one_of_four_iff (s : State) :
  one_of_four s <->
  s = StateRunning \/ s = StateBreakRequired \/
  s = StatePausedManual \/ s = StatePausedInactive.
Proof.
  unfold one_of_four, StateRunning, StateBreakRequired, StatePausedManual,
    StatePausedInactive. lia.
Qed.

Lemma final_bind {A B} (c : M A) (k : A -> M B) (m : Manager) :
  final (bind c k m) = final (k (result (c m)) (final (c m))).
Proof.
  unfold bind, final, result.
  destruct (c m) as [[a m1] t1]. cbn [fst snd].
  destruct (k a m1) as [[b m2] t2]. reflexivity.
Qed.

Lemma exec_state_one_of_four (e : Env) (c : Command) (m : Manager) :
  one_of_four (state m) -> one_of_four (state (final (exec e c m))).
Proof.
  rewrite !one_of_four_iff. intros Hs.
  destruct c as [[]| | | | | | |]; go_eval;
    repeat (go_case; go_eval); go_frame; repeat go_case;
    solve [ exact Hs | auto 6 ].
Qed.

Lemma run_state_one_of_four (h : list (Env * Command)) :
  forall m, one_of_four (state m) -> one_of_four (state (final (run h m))).
Proof.
  induction h as [|[e c] h IH]; intros m Hs.
  - exact Hs.
  - cbn [run]. rewrite final_bind. apply IH.
    apply exec_state_one_of_four, Hs.
Qed.

(** C6.  A scheduler fresh from [NewManager] is in [StatePausedManual], and
    after any history of calls (triggers, wake-ups, queries, configuration
    updates and callback registrations, with any clock readings and store
    answers) its [state] field holds exactly one of the four constants. *)
Theorem C6_state_is_one_of_four (cfg : config.Config) (store : bool) :
  state (NewManager cfg store) = StatePausedManual /\
  forall h : list (Env * Command),
    one_of_four (state (final (run h (NewManager cfg store)))).
Proof.
  split; [reflexivity|].
  intros h. apply run_state_one_of_four.
  apply one_of_four_iff. cbn. auto.
Qed.

Lemma exec_times_set (e : Env) (c : Command) (m : Manager) :
  times_set m -> times_set (final (exec e c m)).
Proof.
  unfold times_set. intros (HR & HB).
  destruct c as [[]| | | | | | |]; go_eval;
    repeat (go_case; go_eval); go_frame;
    (split; [intros Hs|intros Hs]); try discriminate Hs;
    try solve [ auto | eexists; reflexivity
              | destruct (due _); go_fields;
                (discriminate Hs || (eexists; reflexivity)) ].
Qed.

(** On every scheduler reached from [NewManager], [workStartTime] is a
    clock reading while running and [breakStartTime] is one during a
    break. *)
Lemma reachable_times_set (cfg : config.Config) (store : bool)
    (h : list (Env * Command)) :
  times_set (final (run h (NewManager cfg store))).
Proof.
  assert (H0 : times_set (NewManager cfg store))
    by (split; intros Hs; discriminate Hs).
  revert H0. generalize (NewManager cfg store).
  induction h as [|[e c] h IH]; intros m Hm.
  - exact Hm.
  - cbn [run]. rewrite final_bind. apply IH, exec_times_set, Hm.
Qed.

(** [elapsed] stays an [int64] value. *)
Lemma exec_elapsed_range (e : Env) (c : Command) (m : Manager) :
  int64_range (elapsed m) -> int64_range (elapsed (final (exec e c m))).
Proof.
  intros Hel.
  assert (H0 : int64_range 0)
    by (unfold int64_range; vm_compute; split; discriminate).
  destruct c as [[]| | | | | | |]; go_eval;
    repeat (go_case; go_eval); go_frame;
    solve [ exact Hel | exact H0 | apply wrap64_range
          | unfold break_state; go_fields;
            rewrite (proj1 (proj2 (proj2 (proj2 (proj2 (proj2 (proj2
                       (frame_record_start e m))))))));
            exact Hel ].
Qed.

(** *** The exported methods in closed form *)

Section Methods.

Variables (e : Env) (m : Manager).

Lemma Start_noop :
  state m = StateRunning \/ state m = StateBreakRequired ->
  Start e m = (tt, m, [mu_Lock; mu_Unlock]).
Proof. intros [H|H]; go_eval; rewrite H; reflexivity. Qed.

Lemma Start_active :
  state m = StatePausedManual \/ state m = StatePausedInactive ->
  Start e m =
  (tt, sched_state e (begin_work e m),
   mu_Lock
   :: (sched_trace e (begin_work e m) ++
       notify_trace (sched_state e (begin_work e m))) ++ [mu_Unlock]).
Proof. intros [H|H]; go_eval; rewrite H; go_eval; reflexivity. Qed.

Lemma Pause_noop :
  state m <> StateRunning -> Pause e m = (tt, m, [mu_Lock; mu_Unlock]).
Proof.
  intros H. go_eval.
  destruct (Z.eqb_spec (state m) StateRunning); [contradiction|reflexivity].
Qed.

Lemma Pause_active :
  state m = StateRunning ->
  Pause e m =
  (tt, bank StatePausedManual e m,
   mu_Lock
   :: (stop_trace m ++ notify_trace (bank StatePausedManual e m)) ++
      [mu_Unlock]).
Proof. intros H. go_eval. rewrite H. go_eval. reflexivity. Qed.

Lemma PauseInactive_noop :
  state m <> StateRunning ->
  PauseInactive e m = (tt, m, [mu_Lock; mu_Unlock]).
Proof.
  intros H. go_eval.
  destruct (Z.eqb_spec (state m) StateRunning); [contradiction|reflexivity].
Qed.

Lemma PauseInactive_active :
  state m = StateRunning ->
  PauseInactive e m =
  (tt, bank StatePausedInactive e m,
   mu_Lock
   :: (stop_trace m ++ notify_trace (bank StatePausedInactive e m)) ++
      [mu_Unlock]).
Proof. intros H. go_eval. rewrite H. go_eval. reflexivity. Qed.

Lemma Resume_noop :
  state m <> StatePausedManual -> state m <> StatePausedInactive ->
  Resume e m = (tt, m, [mu_Lock; mu_Unlock]).
Proof.
  intros H1 H2. go_eval.
  destruct (Z.eqb_spec (state m) StatePausedManual); [contradiction|].
  destruct (Z.eqb_spec (state m) StatePausedInactive); [contradiction|].
  reflexivity.
Qed.

Lemma Resume_active :
  state m = StatePausedManual \/ state m = StatePausedInactive ->
  Resume e m =
  (tt, sched_state e (resume_work e m),
   mu_Lock
   :: (sched_trace e (resume_work e m) ++
       notify_trace (sched_state e (resume_work e m))) ++ [mu_Unlock]).
Proof. intros [H|H]; go_eval; rewrite H; go_eval; reflexivity. Qed.

Lemma ResumeFromInactive_noop :
  state m <> StatePausedInactive ->
  ResumeFromInactive e m = (tt, m, [mu_Lock; mu_Unlock]).
Proof.
  intros H. go_eval.
  destruct (Z.eqb_spec (state m) StatePausedInactive);
    [contradiction|reflexivity].
Qed.

Lemma ResumeFromInactive_active :
  state m = StatePausedInactive ->
  ResumeFromInactive e m =
  (tt, sched_state e (resume_work e m),
   mu_Lock
   :: (sched_trace e (resume_work e m) ++
       notify_trace (sched_state e (resume_work e m))) ++ [mu_Unlock]).
Proof. intros H. go_eval. rewrite H. go_eval. reflexivity. Qed.

Lemma CompleteBreak_noop :
  state m <> StateBreakRequired ->
  CompleteBreak e m = (tt, m, [mu_Lock; mu_Unlock]).
Proof.
  intros H. go_eval.
  destruct (Z.eqb_spec (state m) StateBreakRequired);
    [contradiction|reflexivity].
Qed.

Lemma CompleteBreak_active :
  state m = StateBreakRequired ->
  CompleteBreak e m =
  (tt, sched_state e (end_break e m),
   mu_Lock
   :: ((if statsStore m && (0 <? currentBreakID m)
        then [store_RecordBreakComplete (currentBreakID m)
                (Since (now e) (breakStartTime m))]
        else []) ++
       sched_trace e (end_break e m) ++
       notify_trace (sched_state e (end_break e m)) ++
       (if onBreakComplete m then [call_onBreakComplete] else [])) ++
      [mu_Unlock]).
Proof.
  intros H. go_eval. rewrite H. go_eval.
  destruct (statsStore m && (0 <? currentBreakID m)); go_eval; go_frame;
    destruct (onBreakComplete m); reflexivity.
Qed.

Lemma SkipBreak_noop :
  state m <> StateBreakRequired ->
  SkipBreak e m = (tt, m, [mu_Lock; mu_Unlock]).
Proof.
  intros H. go_eval.
  destruct (Z.eqb_spec (state m) StateBreakRequired);
    [contradiction|reflexivity].
Qed.

Lemma SkipBreak_active :
  state m = StateBreakRequired ->
  SkipBreak e m =
  (tt, sched_state e (end_break e m),
   mu_Lock
   :: ((if statsStore m && (0 <? currentBreakID m)
        then [store_RecordBreakSkipped (currentBreakID m)]
        else []) ++
       sched_trace e (end_break e m) ++
       notify_trace (sched_state e (end_break e m))) ++
      [mu_Unlock]).
Proof.
  intros H. go_eval. rewrite H. go_eval.
  destruct (statsStore m && (0 <? currentBreakID m)); go_eval;
    reflexivity.
Qed.

Lemma workTimerFunc_noop :
  state m <> StateRunning ->
  workTimerFunc e m = (tt, m, [mu_Lock; mu_Unlock]).
Proof.
  intros H. go_eval.
  destruct (Z.eqb_spec (state m) StateRunning); [contradiction|reflexivity].
Qed.

Lemma workTimerFunc_active :
  state m = StateRunning ->
  workTimerFunc e m =
  (tt, break_state e m, mu_Lock :: break_trace e m ++ [mu_Unlock]).
Proof. intros H. go_eval. rewrite H. go_eval. reflexivity. Qed.

Lemma Stop_eq :
  Stop m =
  (tt, set_elapsed 0 (set_state StatePausedManual (set_currentTimer None m)),
   mu_Lock
   :: (stop_trace m ++
       (if onStateChange m then [go_onStateChange StatePausedManual]
        else [])) ++ [mu_Unlock]).
Proof. go_eval. unfold notify_trace. go_fields. reflexivity. Qed.

End Methods.

(** *** Trace fragments *)

Lemma store_free_stop (m : Manager) :
  forallb (fun ev => negb (is_store_write ev)) (stop_trace m) = true.
Proof. unfold stop_trace. destruct (currentTimer m); reflexivity. Qed.

Lemma store_free_notify (m : Manager) :
  forallb (fun ev => negb (is_store_write ev)) (notify_trace m) = true.
Proof. unfold notify_trace. destruct (onStateChange m); reflexivity. Qed.

(** A trace built from lock events, timer events, notifications and
    callback calls writes nothing to the store. *)
Ltac store_free :=
  unfold no_store_write;
  repeat (cbn [forallb app is_store_write negb andb]
          || rewrite forallb_app
          || rewrite store_free_stop
          || rewrite store_free_notify);
  repeat match goal with
    | |- context [if ?b then _ else _] => destruct b
    end;
  reflexivity.

Lemma sched_state_armed (e : Env) (m : Manager) :
  due m = false ->
  sched_state e m =
  set_currentTimer (Some (mkTimer (now e) (remaining m)))
    (set_currentTimer None m).
Proof. intros H. unfold sched_state. rewrite H. reflexivity. Qed.

Lemma sched_trace_armed (e : Env) (m : Manager) :
  due m = false ->
  sched_trace e m = stop_trace m ++ [time_AfterFunc (remaining m)].
Proof. intros H. unfold sched_trace. rewrite H. reflexivity. Qed.

(** *** Stop *)

(** C10.  In every state, [Stop] leaves the scheduler in
    [StatePausedManual] with no timer ([currentTimer] is [nil], and a timer
    that was set is stopped) and [elapsed = 0]; [currentBreakID] and
    [breakStartTime] keep their values, and the call makes no store write at
    all: its whole trace is the lock, the timer stop, the state-change
    notification and the unlock.  So a break that was open in
    [StateBreakRequired] is recorded neither as completed nor as skipped. *)
Theorem C10_Stop_frame (m : Manager) :
  state (final (Stop m)) = StatePausedManual /\
  currentTimer (final (Stop m)) = None /\
  elapsed (final (Stop m)) = 0 /\
  currentBreakID (final (Stop m)) = currentBreakID m /\
  breakStartTime (final (Stop m)) = breakStartTime m /\
  trace (Stop m) =
    mu_Lock
    :: (match currentTimer m with Some _ => [timer_Stop] | None => [] end ++
        (if onStateChange m then [go_onStateChange StatePausedManual]
         else [])) ++ [mu_Unlock] /\
  no_store_write (trace (Stop m)) = true.
Proof.
  rewrite Stop_eq. go_fields. repeat split. store_free.
Qed.

(** *** Store failures *)

(** Two runs of a call at the same clock reading, with any two sets of store
    answers, produce the same trace and the same scheduler up to
    [currentBreakID]. *)

Section StoreAnswers.

Variables (n : Z) (r1 r2 : option Z) (a1 b1 a2 b2 : bool).

Lemma break_trace_indep (m : Manager) :
  break_trace (mkEnv n r1 a1 b1) m = break_trace (mkEnv n r2 a2 b2) m.
Proof.
  destruct m as [st cfg store tm ws bs id el pt obr obc osc].
  unfold break_trace, notify_trace, break_state, record_start. go_fields.
  cbn [breakStartResult].
  destruct store, r1, r2; reflexivity.
Qed.

Lemma break_state_indep (m : Manager) :
  set_currentBreakID 0 (break_state (mkEnv n r1 a1 b1) m) =
  set_currentBreakID 0 (break_state (mkEnv n r2 a2 b2) m).
Proof.
  destruct m as [st cfg store tm ws bs id el pt obr obc osc].
  unfold break_state, record_start. go_fields. cbn [breakStartResult now].
  destruct store, r1, r2; reflexivity.
Qed.

Lemma sched_trace_indep (m : Manager) :
  sched_trace (mkEnv n r1 a1 b1) m = sched_trace (mkEnv n r2 a2 b2) m.
Proof.
  unfold sched_trace. destruct (due m); [|reflexivity].
  rewrite break_trace_indep. reflexivity.
Qed.

Lemma sched_state_indep (m : Manager) :
  set_currentBreakID 0 (sched_state (mkEnv n r1 a1 b1) m) =
  set_currentBreakID 0 (sched_state (mkEnv n r2 a2 b2) m).
Proof.
  unfold sched_state. destruct (due m); [|reflexivity].
  apply break_state_indep.
Qed.

Lemma notify_trace_indep (m1 m2 : Manager) :
  set_currentBreakID 0 m1 = set_currentBreakID 0 m2 ->
  notify_trace m1 = notify_trace m2.
Proof.
  intros H. unfold notify_trace.
  replace (onStateChange m1) with (onStateChange (set_currentBreakID 0 m1))
    by reflexivity.
  replace (state m1) with (state (set_currentBreakID 0 m1)) by reflexivity.
  rewrite H. reflexivity.
Qed.

Lemma store_answers_do_not_steer (c : Command) (m : Manager) :
  trace (exec (mkEnv n r1 a1 b1) c m) = trace (exec (mkEnv n r2 a2 b2) c m) /\
  set_currentBreakID 0 (final (exec (mkEnv n r1 a1 b1) c m)) =
  set_currentBreakID 0 (final (exec (mkEnv n r2 a2 b2) c m)).
Proof.
  destruct c as [[]| | | | | | |]; go_eval;
    repeat (go_frame; go_case; go_eval); cbn [now];
    rewrite ?(sched_trace_indep), ?break_trace_indep;
    rewrite ?(notify_trace_indep _ _ (sched_state_indep _));
    (split; [reflexivity|]);
    first [ reflexivity | apply sched_state_indep | apply break_state_indep ].
Qed.

End StoreAnswers.

(** C5.  The store's answers never steer the scheduler: a call run at the
    same clock reading with failing or succeeding store writes produces the
    same trace (hence the same transition, notifications and timer) and the
    same scheduler, up to [currentBreakID].  In particular, let a
    work-duration wake-up fire in [StateRunning] while [RecordBreakStart]
    fails and no break is open ([currentBreakID = 0]): the scheduler still
    enters [StateBreakRequired] with [breakStartTime = now], [currentBreakID]
    still 0, and a registered break-required callback is invoked.  A
    following [CompleteBreak] or [SkipBreak] (whatever the store answers
    then) brings it to [StateRunning] with [elapsed = 0],
    [workStartTime = now] and the wake-up armed for the whole work duration,
    and writes nothing to the store.  The work duration is positive, as a
    validated configuration has it. *)
Theorem C5_store_failure_does_not_block
    (e1 e2 : Env) (m : Manager) :
  state m = StateRunning ->
  currentBreakID m = 0 ->
  breakStartResult e1 = None ->
  0 < config.WorkDuration (config m) <= maxDuration ->
  let m1 := final (workTimerFunc e1 m) in
  (forall (c : Command) (m0 : Manager) (n : Z) (r r' : option Z)
          (a b a' b' : bool),
      trace (exec (mkEnv n r a b) c m0) =
        trace (exec (mkEnv n r' a' b') c m0) /\
      set_currentBreakID 0 (final (exec (mkEnv n r a b) c m0)) =
        set_currentBreakID 0 (final (exec (mkEnv n r' a' b') c m0))) /\
  (state m1 = StateBreakRequired /\
   breakStartTime m1 = mono (now e1) /\
   currentBreakID m1 = 0 /\
   (onBreakRequired m = true ->
    In call_onBreakRequired (trace (workTimerFunc e1 m)))) /\
  (state (final (CompleteBreak e2 m1)) = StateRunning /\
   elapsed (final (CompleteBreak e2 m1)) = 0 /\
   workStartTime (final (CompleteBreak e2 m1)) = mono (now e2) /\
   currentTimer (final (CompleteBreak e2 m1)) =
     Some (mkTimer (now e2) (config.WorkDuration (config m))) /\
   no_store_write (trace (CompleteBreak e2 m1)) = true) /\
  (state (final (SkipBreak e2 m1)) = StateRunning /\
   elapsed (final (SkipBreak e2 m1)) = 0 /\
   workStartTime (final (SkipBreak e2 m1)) = mono (now e2) /\
   currentTimer (final (SkipBreak e2 m1)) =
     Some (mkTimer (now e2) (config.WorkDuration (config m))) /\
   no_store_write (trace (SkipBreak e2 m1)) = true).
Proof.
  intros Hst Hid Hfail HW m1.
  assert (E1 : m1 = break_state e1 m)
    by (unfold m1; rewrite workTimerFunc_active by exact Hst; reflexivity).
  assert (Hid1 : currentBreakID m1 = 0).
  { rewrite E1. unfold break_state. go_fields.
    rewrite currentBreakID_record_start, Hfail, Hid.
    destruct (statsStore m); reflexivity. }
  assert (Hst1 : state m1 = StateBreakRequired) by (rewrite E1; reflexivity).
  assert (Hcfg : config m1 = config m).
  { rewrite E1. unfold break_state. go_fields.
    apply (frame_record_start e1 m). }
  assert (Hrem : remaining (end_break e2 m1) = config.WorkDuration (config m)).
  { unfold remaining, end_break. go_fields. rewrite Hcfg.
    rewrite sub_exact; rewrite Z.sub_0_r; [reflexivity|].
    unfold int64_range, minDuration, maxDuration in *. lia. }
  assert (Hdue : due (end_break e2 m1) = false).
  { unfold due. rewrite Hrem. apply Z.leb_gt. lia. }
  split; [intros; apply store_answers_do_not_steer|].
  split; [|split].
  - repeat split; try assumption.
    + rewrite E1. reflexivity.
    + intros Hcb. rewrite workTimerFunc_active by exact Hst.
      go_fields. unfold break_trace. rewrite Hcb.
      right. apply in_or_app. left. apply in_or_app. right.
      apply in_or_app. right. left. reflexivity.
  - rewrite CompleteBreak_active by exact Hst1. go_fields.
    rewrite sched_state_armed, sched_trace_armed by exact Hdue.
    rewrite Hrem, Hid1. go_fields. repeat split.
    rewrite andb_false_r. store_free.
  - rewrite SkipBreak_active by exact Hst1. go_fields.
    rewrite sched_state_armed, sched_trace_armed by exact Hdue.
    rewrite Hrem, Hid1. go_fields. repeat split.
    rewrite andb_false_r. store_free.
Qed.

(** *** Resuming *)

Lemma remaining_exact (m : Manager) :
  int64_range (config.WorkDuration (config m) - elapsed m) ->
  remaining m = config.WorkDuration (config m) - elapsed m.
Proof. apply sub_exact. Qed.

Section Resuming.

Variables (e : Env) (m : Manager).

Hypothesis d_range :
  int64_range (config.WorkDuration (config m) - elapsed m).
Hypothesis d_pos : 0 < config.WorkDuration (config m) - elapsed m.

Lemma resume_work_remaining :
  remaining (resume_work e m) =
  config.WorkDuration (config m) - elapsed m.
Proof.
  unfold remaining, resume_work. go_fields. apply sub_exact, d_range.
Qed.

Lemma resume_work_not_due : due (resume_work e m) = false.
Proof.
  unfold due. rewrite resume_work_remaining. apply Z.leb_gt, d_pos.
Qed.

Lemma resumed_ok_sched :
  resumed_ok e m (config.WorkDuration (config m) - elapsed m)
    (tt, sched_state e (resume_work e m),
     mu_Lock
     :: (sched_trace e (resume_work e m) ++
         notify_trace (sched_state e (resume_work e m))) ++ [mu_Unlock]).
Proof.
  unfold resumed_ok.
  rewrite sched_state_armed, sched_trace_armed by apply resume_work_not_due.
  rewrite resume_work_remaining. unfold notify_trace, resume_work, stop_trace.
  go_fields. rewrite <- app_assoc. repeat split.
Qed.

Lemma Resume_resumes :
  state m = StatePausedManual \/ state m = StatePausedInactive ->
  resumed_ok e m (config.WorkDuration (config m) - elapsed m) (Resume e m).
Proof. intros H. rewrite Resume_active by exact H. apply resumed_ok_sched. Qed.

Lemma ResumeFromInactive_resumes :
  state m = StatePausedInactive ->
  resumed_ok e m (config.WorkDuration (config m) - elapsed m)
    (ResumeFromInactive e m).
Proof.
  intros H. rewrite ResumeFromInactive_active by exact H.
  apply resumed_ok_sched.
Qed.

End Resuming.

(** C4 (as the code has it).  [ResumeFromInactive] acts only in
    [StatePausedInactive]: there, when [WorkDuration - elapsed] is positive,
    it moves the scheduler to [StateRunning], sets [workStartTime] to now,
    keeps [elapsed] and arms the wake-up for [WorkDuration - elapsed].  In
    [StatePausedManual] it does nothing.  [Resume] performs that transition
    from both paused states. *)
Theorem C4_resume_from_inactive_only (e : Env) (m : Manager) :
  (state m = StatePausedManual ->
   ResumeFromInactive e m = (tt, m, [mu_Lock; mu_Unlock])) /\
  (state m = StatePausedInactive ->
   int64_range (config.WorkDuration (config m) - elapsed m) ->
   0 < config.WorkDuration (config m) - elapsed m ->
   resumed_ok e m (config.WorkDuration (config m) - elapsed m)
     (ResumeFromInactive e m)) /\
  (state m = StatePausedManual \/ state m = StatePausedInactive ->
   int64_range (config.WorkDuration (config m) - elapsed m) ->
   0 < config.WorkDuration (config m) - elapsed m ->
   resumed_ok e m (config.WorkDuration (config m) - elapsed m)
     (Resume e m)).
Proof.
  split; [|split].
  - intros H. apply ResumeFromInactive_noop. rewrite H. discriminate.
  - intros H Hr Hp. apply ResumeFromInactive_resumes; assumption.
  - intros H Hr Hp. apply Resume_resumes; assumption.
Qed.

(** *** Banked work time across a pause *)

Lemma final_run_nil (m : Manager) : final (run [] m) = m.
Proof. reflexivity. Qed.

Lemma final_run_cons (e : Env) (c : Command) (h : list (Env * Command))
    (m : Manager) :
  final (run ((e, c) :: h) m) = final (run h (final (exec e c m))).
Proof. cbn [run]. rewrite final_bind. reflexivity. Qed.

Section Banking.

Variables (m : Manager) (e0 e1 e2 e3 : Env) (t : Z).

Hypothesis paused :
  state m = StatePausedManual \/ state m = StatePausedInactive.
Hypothesis W_range : 0 < config.WorkDuration (config m) <= maxDuration.
Hypothesis t_range : 0 <= t <= config.WorkDuration (config m).
Hypothesis pause_at : now e1 = now e0 + t.
Hypothesis query_at : now e3 = now e2.

Lemma started_running :
  state (final (Start e0 m)) = StateRunning /\
  elapsed (final (Start e0 m)) = 0 /\
  workStartTime (final (Start e0 m)) = mono (now e0) /\
  config (final (Start e0 m)) = config m.
Proof.
  rewrite Start_active by exact paused. go_fields.
  assert (Hd : due (begin_work e0 m) = false).
  { unfold due. rewrite remaining_exact; unfold begin_work; go_fields.
    - apply Z.leb_gt. lia.
    - unfold int64_range, minDuration, maxDuration in *. lia. }
  rewrite sched_state_armed by exact Hd. repeat split.
Qed.

(** Both ways of pausing bank exactly [t]. *)
Lemma paused_banks (s : State) :
  let m2 := bank s e1 (final (Start e0 m)) in
  state m2 = s /\ elapsed m2 = t /\ config m2 = config m.
Proof.
  destruct started_running as (_ & Hel & Hws & Hcfg).
  unfold bank. go_fields. rewrite Hel, Hws, Hcfg. repeat split.
  unfold Since. rewrite pause_at.
  replace (now e0 + t - now e0) with t by lia.
  assert (Ht : int64_range t)
    by (unfold int64_range, minDuration, maxDuration in *; lia).
  rewrite sat64_id by exact Ht. apply add_exact. exact Ht.
Qed.

(** After re-arming (or, when the whole work duration was already spent,
    after the immediate break), the query reads [WorkDuration - t]. *)
Lemma query_after_resume (m2 : Manager) :
  elapsed m2 = t ->
  config m2 = config m ->
  result
    (GetTimeUntilBreak e3 (sched_state e2 (resume_work e2 m2))) = config.WorkDuration (config m) - t.
Proof.
  intros Hel Hcfg.
  assert (Hrem : remaining (resume_work e2 m2) = config.WorkDuration (config m) - t).
  { rewrite remaining_exact; unfold resume_work; go_fields;
      rewrite Hel, Hcfg; [reflexivity|].
    unfold int64_range, minDuration, maxDuration in *. lia. }
  destruct (due (resume_work e2 m2)) eqn:Hd; unfold due in Hd;
    rewrite Hrem in Hd.
  - apply Z.leb_le in Hd.
    rewrite GetTimeUntilBreak_other; [lia|].
    rewrite state_sched_state. unfold due. rewrite Hrem.
    destruct (Z.leb_spec (config.WorkDuration (config m) - t) 0); [discriminate|lia].
  - apply Z.leb_gt in Hd.
    assert (Hd' : due (resume_work e2 m2) = false)
      by (unfold due; rewrite Hrem; apply Z.leb_gt; exact Hd).
    rewrite (GetTimeUntilBreak_running e3 _ (now e2));
      rewrite ?sched_state_armed by exact Hd'; unfold resume_work;
      go_fields; rewrite ?Hel, ?Hcfg, ?query_at;
      try reflexivity;
      unfold int64_range, minDuration, maxDuration in *; lia.
Qed.

Lemma banked_pause_resume :
  result
    (GetTimeUntilBreak e3
       (final (Resume e2 (final (Pause e1 (final (Start e0 m))))))) = config.WorkDuration (config m) - t.
Proof.
  destruct started_running as (Hst & _).
  destruct (paused_banks StatePausedManual) as (Hs2 & Hel2 & Hcfg2).
  rewrite (Pause_active e1 _ Hst). go_fields.
  rewrite Resume_active by (left; exact Hs2). go_fields.
  apply query_after_resume; assumption.
Qed.

Lemma banked_pauseInactive_resumeFromInactive :
  result
    (GetTimeUntilBreak e3
       (final (ResumeFromInactive e2
                 (final (PauseInactive e1 (final (Start e0 m))))))) = config.WorkDuration (config m) - t.
Proof.
  destruct started_running as (Hst & _).
  destruct (paused_banks StatePausedInactive) as (Hs2 & Hel2 & Hcfg2).
  rewrite (PauseInactive_active e1 _ Hst). go_fields.
  rewrite ResumeFromInactive_active by exact Hs2. go_fields.
  apply query_after_resume; assumption.
Qed.

Lemma banked_pauseInactive_resume :
  result
    (GetTimeUntilBreak e3
       (final (Resume e2
                 (final (PauseInactive e1 (final (Start e0 m))))))) = config.WorkDuration (config m) - t.
Proof.
  destruct started_running as (Hst & _).
  destruct (paused_banks StatePausedInactive) as (Hs2 & Hel2 & Hcfg2).
  rewrite (PauseInactive_active e1 _ Hst). go_fields.
  rewrite Resume_active by (right; exact Hs2). go_fields.
  apply query_after_resume; assumption.
Qed.

End Banking.

(** C2.  Start a paused scheduler at [now e0], pause it (manually or for
    inactivity) once [t] has been spent running, with [0 <= t <=
    WorkDuration], and resume it at any later or earlier clock reading
    [now e2] with the matching call ([Resume] after [Pause],
    [ResumeFromInactive] after [PauseInactive]; [Resume] after
    [PauseInactive] does the same).  Then [GetTimeUntilBreak], asked at the
    instant of the resume, returns [WorkDuration - t]: the length of the
    pause does not enter. *)
Theorem C2_banked_elapsed_preserved
    (m : Manager) (e0 e1 e2 e3 : Env) (t : Z) :
  state m = StatePausedManual \/ state m = StatePausedInactive ->
  0 < config.WorkDuration (config m) <= maxDuration ->
  0 <= t <= config.WorkDuration (config m) ->
  now e1 = now e0 + t ->
  now e3 = now e2 ->
  result
    (GetTimeUntilBreak e3
       (final (run [(e0, trigger start); (e1, trigger pause);
                    (e2, trigger resume)] m)))
    = config.WorkDuration (config m) - t /\
  result
    (GetTimeUntilBreak e3
       (final (run [(e0, trigger start); (e1, trigger pauseInactive);
                    (e2, trigger resumeFromInactive)] m)))
    = config.WorkDuration (config m) - t /\
  result
    (GetTimeUntilBreak e3
       (final (run [(e0, trigger start); (e1, trigger pauseInactive);
                    (e2, trigger resume)] m)))
    = config.WorkDuration (config m) - t.
Proof.
  intros Hp HW Ht H1 H3.
  rewrite !final_run_cons, !final_run_nil. cbn [exec fire].
  split; [|split].
  - apply banked_pause_resume; assumption.
  - apply banked_pauseInactive_resumeFromInactive; assumption.
  - apply banked_pauseInactive_resume; assumption.
Qed.

(** *** Callbacks and the mutex *)

Lemma lock_free_stop (m : Manager) :
  forallb (fun ev => negb (is_lock_event ev)) (stop_trace m) = true.
Proof. unfold stop_trace. destruct (currentTimer m); reflexivity. Qed.

Lemma lock_free_notify (m : Manager) :
  forallb (fun ev => negb (is_lock_event ev)) (notify_trace m) = true.
Proof. unfold notify_trace. destruct (onStateChange m); reflexivity. Qed.

Lemma lock_free_break (e : Env) (m : Manager) :
  forallb (fun ev => negb (is_lock_event ev)) (break_trace e m) = true.
Proof.
  unfold break_trace. rewrite !forallb_app, lock_free_notify.
  destruct (statsStore m), (onBreakRequired m); reflexivity.
Qed.

Lemma lock_free_sched (e : Env) (m : Manager) :
  forallb (fun ev => negb (is_lock_event ev)) (sched_trace e m) = true.
Proof.
  unfold sched_trace. rewrite forallb_app, lock_free_stop.
  destruct (due m); [apply lock_free_break|reflexivity].
Qed.

Ltac lock_free :=
  unfold no_lock_event;
  repeat (cbn [forallb app is_lock_event negb andb]
          || rewrite forallb_app
          || rewrite lock_free_stop
          || rewrite lock_free_notify
          || rewrite lock_free_break
          || rewrite lock_free_sched);
  repeat match goal with
    | |- context [if ?b then _ else _] => destruct b
    end;
  reflexivity.

Ltac in_trace :=
  solve [ left; reflexivity
        | right; in_trace
        | apply in_or_app; left; in_trace
        | apply in_or_app; right; in_trace ].

Lemma calls_under_lock_held (body : list Event) :
  no_lock_event body = true ->
  calls_under_lock true (body ++ [mu_Unlock]) =
  existsb is_callback_call body.
Proof.
  unfold no_lock_event.
  induction body as [|ev body IH]; intros H; [reflexivity|].
  cbn [forallb] in H. apply andb_prop in H. destruct H as [Hev Hb].
  destruct ev; try discriminate Hev; cbn [app calls_under_lock existsb];
    rewrite (IH Hb); reflexivity.
Qed.

Lemma calls_under_lock_bracketed (t : list Event) :
  bracketed t ->
  calls_under_lock false t = existsb is_callback_call t.
Proof.
  intros (body & -> & Hb). cbn [calls_under_lock existsb is_callback_call].
  rewrite (calls_under_lock_held body Hb), existsb_app. cbn.
  rewrite orb_false_r. reflexivity.
Qed.

Lemma exec_bracketed (e : Env) (c : Command) (m : Manager) :
  bracketed (trace (exec e c m)).
Proof.
  unfold bracketed.
  destruct c as [[]| | | | | | |]; go_eval;
    repeat (go_case; go_eval);
    first [ exists []; split; reflexivity
          | eexists; split; [reflexivity|lock_free]
          | match goal with
            | |- exists body, mu_Lock :: ?t = _ /\ _ =>
                exists (removelast t); rewrite ?app_comm_cons;
                rewrite removelast_last; split; [reflexivity|lock_free]
            end ].
Qed.

Lemma state_change_notified (e : Env) (c : Command) (m : Manager) :
  state (final (exec e c m)) <> state m ->
  onStateChange m = true ->
  In (go_onStateChange (state (final (exec e c m)))) (trace (exec e c m)).
Proof.
  destruct c as [[]| | | | | | |]; go_eval;
    repeat (go_case; go_eval);
    intros Hne Hcb; try (exfalso; apply Hne; reflexivity);
    unfold notify_trace, break_trace, notify_trace in *;
    go_frame; rewrite ?(proj1 (callbacks_break_state e m)), ?Hcb; in_trace.
Qed.

Lemma break_required_called (e : Env) (c : Command) (m : Manager) :
  state m <> StateBreakRequired ->
  state (final (exec e c m)) = StateBreakRequired ->
  onBreakRequired m = true ->
  In call_onBreakRequired (trace (exec e c m)).
Proof.
  destruct c as [[]| | | | | | |]; go_eval;
    repeat (go_case; go_eval);
    intros Hne Hb Hcb; try contradiction; try discriminate Hb;
    try (rewrite state_sched_state in Hb;
         destruct (due _) eqn:Hdue; go_fields;
         [|try discriminate Hb; try contradiction];
         unfold sched_trace; rewrite Hdue);
    unfold break_trace; go_fields; rewrite ?Hcb; in_trace.
Qed.

Lemma break_complete_called (e : Env) (m : Manager) :
  state m = StateBreakRequired ->
  onBreakComplete m = true ->
  In call_onBreakComplete (trace (CompleteBreak e m)).
Proof.
  intros Hst Hcb. rewrite CompleteBreak_active by exact Hst.
  go_fields. rewrite Hcb. in_trace.
Qed.

(** C7 (as the code has it).  Every call on the scheduler holds the mutex
    from its first to its last step.  A call that changes the state hands
    the state-change callback, with the new state, to a goroutine of its own
    ([go m.onStateChange(state)]), so that callback does not run inside the
    caller.  The break-required and break-complete callbacks are called
    directly by the transition: entering [StateBreakRequired] calls
    [onBreakRequired], and [CompleteBreak] in [StateBreakRequired] calls
    [onBreakComplete], both before the mutex is released; every callback
    call that a trace contains is made while the mutex is held. *)
Theorem C7_notifications_and_lock (e : Env) (c : Command) (m : Manager) :
  bracketed (trace (exec e c m)) /\
  calls_under_lock false (trace (exec e c m)) =
    existsb is_callback_call (trace (exec e c m)) /\
  (state (final (exec e c m)) <> state m ->
   onStateChange m = true ->
   In (go_onStateChange (state (final (exec e c m))))
      (trace (exec e c m))) /\
  (state m <> StateBreakRequired ->
   state (final (exec e c m)) = StateBreakRequired ->
   onBreakRequired m = true ->
   In call_onBreakRequired (trace (exec e c m))) /\
  (state m = StateBreakRequired ->
   onBreakComplete m = true ->
   In call_onBreakComplete (trace (CompleteBreak e m))).
Proof.
  split; [apply exec_bracketed|].
  split; [apply calls_under_lock_bracketed, exec_bracketed|].
  split; [apply state_change_notified|].
  split; [apply break_required_called|apply break_complete_called].
Qed.

(** *** Configuration *)



(** *** Compliance rate *)


Example rate_none_required : stats.CalculateComplianceRate 0 0 = 0.0%float.
Proof. reflexivity. Qed.

Example rate_half : stats.CalculateComplianceRate 1 2 = 50.0%float.
Proof. vm_compute. reflexivity. Qed.

Example rate_three_quarters :
  stats.CalculateComplianceRate 3 4 = 75.0%float.
Proof. vm_compute. reflexivity. Qed.

Example rate_all : stats.CalculateComplianceRate 20 20 = 100.0%float.
Proof. vm_compute. reflexivity. Qed.

Example rate_third :
  stats.CalculateComplianceRate 1 3 = 0x1.0aaaaaaaaaaaap+5%float.
Proof. vm_compute. reflexivity. Qed.

(* ====================================================================== *)
(** ** The sample session, checked                                        *)
(* ====================================================================== *)

(** Closed arithmetic side conditions. *)
Ltac closed_range :=
  unfold int64_range; vm_compute; split; discriminate.

(** 100 s into the work interval 1100 s remain; 5 s into the break 15 s
    remain. *)
Lemma C1_queries_witness :
  result (GetTimeUntilBreak (at_time (100 * Second) 1) scenario.running)
    = 1100 * Second /\
  result (GetBreakTimeRemaining (at_time (1205 * Second) 1) scenario.in_break)
    = 15 * Second.
Proof.
  split.
  - apply (proj1 (C1_queries (at_time (100 * Second) 1) scenario.running) 0);
      [reflexivity | reflexivity | closed_range | closed_range
      | closed_range].
  - apply (proj1 (proj2
              (C1_queries (at_time (1205 * Second) 1) scenario.in_break))
             (1200 * Second));
      [reflexivity | reflexivity | closed_range | closed_range].
Defined.

(** The scenario of the design: pause after 100 s, resume at 500 s, and
    1100 s remain. *)
Lemma C2_banked_elapsed_witness :
  result
    (GetTimeUntilBreak (at_time (500 * Second) 1)
       (final (run [(at_time 0 1, trigger start);
                    (at_time (100 * Second) 1, trigger pause);
                    (at_time (500 * Second) 1, trigger resume)]
                 scenario.fresh))) = 1100 * Second /\
  result
    (GetTimeUntilBreak (at_time (500 * Second) 1)
       (final (run [(at_time 0 1, trigger start);
                    (at_time (100 * Second) 1, trigger pauseInactive);
                    (at_time (500 * Second) 1, trigger resumeFromInactive)]
                 scenario.fresh))) = 1100 * Second /\
  result
    (GetTimeUntilBreak (at_time (500 * Second) 1)
       (final (run [(at_time 0 1, trigger start);
                    (at_time (100 * Second) 1, trigger pauseInactive);
                    (at_time (500 * Second) 1, trigger resume)]
                 scenario.fresh))) = 1100 * Second.
Proof.
  apply (C2_banked_elapsed_preserved scenario.fresh
           (at_time 0 1) (at_time (100 * Second) 1)
           (at_time (500 * Second) 1) (at_time (500 * Second) 1)
           (100 * Second)).
  - left. reflexivity.
  - vm_compute. split; [reflexivity|discriminate].
  - vm_compute. split; discriminate.
  - reflexivity.
  - reflexivity.
Defined.

(** A completion signal while the scheduler is running changes nothing. *)
Lemma C3_unlisted_trigger_witness :
  fire (at_time (100 * Second) 1) completeBreak scenario.running =
  (tt, scenario.running, [mu_Lock; mu_Unlock]).
Proof.
  apply C3_unlisted_trigger_is_noop.
  - unfold one_of_four. left. vm_compute. repeat split; discriminate.
  - reflexivity.
Defined.

(** After a manual pause, the idle monitor's "became active" signal does
    not resume the scheduler: it stays in [StatePausedManual],
    [workStartTime] keeps the instant of the start and no wake-up is
    armed, although 1100 s of the work duration are left. *)
Lemma C4_counterexample :
  state scenario.paused_manual = StatePausedManual /\
  config.WorkDuration (config scenario.paused_manual)
    - elapsed scenario.paused_manual = 1100 * Second /\
  state (final (ResumeFromInactive (at_time (500 * Second) 1)
                  scenario.paused_manual)) = StatePausedManual /\
  state (final (ResumeFromInactive (at_time (500 * Second) 1)
                  scenario.paused_manual)) <> StateRunning /\
  workStartTime (final (ResumeFromInactive (at_time (500 * Second) 1)
                          scenario.paused_manual)) = mono 0 /\
  currentTimer (final (ResumeFromInactive (at_time (500 * Second) 1)
                         scenario.paused_manual)) = None /\
  trace (ResumeFromInactive (at_time (500 * Second) 1)
           scenario.paused_manual) = [mu_Lock; mu_Unlock] /\
  ~ resumed_ok (at_time (500 * Second) 1) scenario.paused_manual
      (1100 * Second)
      (ResumeFromInactive (at_time (500 * Second) 1)
         scenario.paused_manual).
Proof.
  repeat split; try discriminate.
  intros (H & _). vm_compute in H. discriminate H.
Qed.

Lemma C4_resume_witness :
  ResumeFromInactive (at_time (500 * Second) 1) scenario.paused_manual =
    (tt, scenario.paused_manual, [mu_Lock; mu_Unlock]) /\
  resumed_ok (at_time (500 * Second) 1) scenario.paused_inactive
    (1100 * Second)
    (ResumeFromInactive (at_time (500 * Second) 1)
       scenario.paused_inactive) /\
  resumed_ok (at_time (500 * Second) 1) scenario.paused_manual
    (1100 * Second)
    (Resume (at_time (500 * Second) 1) scenario.paused_manual).
Proof.
  split; [|split].
  - apply (proj1 (C4_resume_from_inactive_only
                    (at_time (500 * Second) 1) scenario.paused_manual)).
    reflexivity.
  - apply (proj1 (proj2 (C4_resume_from_inactive_only
                           (at_time (500 * Second) 1)
                           scenario.paused_inactive)));
      [reflexivity | closed_range | reflexivity].
  - apply (proj2 (proj2 (C4_resume_from_inactive_only
                           (at_time (500 * Second) 1)
                           scenario.paused_manual)));
      [left; reflexivity | closed_range | reflexivity].
Defined.

(** The wake-up fires while the store is down, then the break completes
    (or is skipped) while it is still down. *)
Lemma C5_store_failure_witness :
  state (final (workTimerFunc (at_time_failing (1200 * Second))
                  scenario.running)) = StateBreakRequired /\
  state (final (CompleteBreak (at_time_failing (1220 * Second))
                  (final (workTimerFunc (at_time_failing (1200 * Second))
                            scenario.running)))) = StateRunning /\
  state (final (SkipBreak (at_time_failing (1220 * Second))
                  (final (workTimerFunc (at_time_failing (1200 * Second))
                            scenario.running)))) = StateRunning.
Proof.
  destruct (C5_store_failure_does_not_block
              (at_time_failing (1200 * Second))
              (at_time_failing (1220 * Second)) scenario.running)
    as (_ & (H1 & _) & (H2 & _) & (H3 & _)).
  - reflexivity.
  - reflexivity.
  - reflexivity.
  - vm_compute. split; [reflexivity|discriminate].
  - exact (conj H1 (conj H2 H3)).
Defined.

(** [CompleteBreak] calls the break-complete callback, and the wake-up
    calls the break-required callback, between [Lock] and [Unlock]. *)
Lemma C7_counterexample :
  trace (CompleteBreak (at_time (1220 * Second) 2) scenario.in_break) =
    [mu_Lock; store_RecordBreakComplete 1 (20 * Second); timer_Stop;
     time_AfterFunc (1200 * Second); go_onStateChange StateRunning;
     call_onBreakComplete; mu_Unlock] /\
  calls_under_lock false
    (trace (CompleteBreak (at_time (1220 * Second) 2) scenario.in_break))
    = true /\
  trace (workTimerFunc (at_time (1200 * Second) 1) scenario.running) =
    [mu_Lock; store_RecordBreakStart; go_onStateChange StateBreakRequired;
     call_onBreakRequired; mu_Unlock] /\
  calls_under_lock false
    (trace (workTimerFunc (at_time (1200 * Second) 1) scenario.running))
    = true.
Proof. repeat split. Qed.

Lemma C7_notifications_witness :
  In (go_onStateChange StateRunning)
    (trace (CompleteBreak (at_time (1220 * Second) 2) scenario.in_break)) /\
  In call_onBreakRequired
    (trace (workTimerFunc (at_time (1200 * Second) 1) scenario.running)) /\
  In call_onBreakComplete
    (trace (CompleteBreak (at_time (1220 * Second) 2) scenario.in_break)).
Proof.
  split; [|split].
  - apply (proj1 (proj2 (proj2
             (C7_notifications_and_lock (at_time (1220 * Second) 2)
                (trigger completeBreak) scenario.in_break))));
      [discriminate | reflexivity].
  - apply (proj1 (proj2 (proj2 (proj2
             (C7_notifications_and_lock (at_time (1200 * Second) 1)
                (trigger wakeUp) scenario.running)))));
      [discriminate | reflexivity | reflexivity].
  - apply (proj2 (proj2 (proj2 (proj2
             (C7_notifications_and_lock (at_time (1220 * Second) 2)
                (trigger completeBreak) scenario.in_break)))));
      reflexivity.
Defined.



(* ====================================================================== *)
(** ** Further properties of the scheduler                                *)
(* ====================================================================== *)

Import accounting.

Lemma final_run_app (h1 h2 : list (Env * Command)) (m : Manager) :
  final (run (h1 ++ h2) m) = final (run h2 (final (run h1 m))).
Proof.
  revert m. induction h1 as [|[e c] h1 IH]; intros m.
  - reflexivity.
  - cbn [app]. rewrite !final_run_cons. apply IH.
Qed.

Lemma trace_run_cons (e : Env) (c : Command) (h : list (Env * Command))
    (m : Manager) :
  trace (run ((e, c) :: h) m) =
  trace (exec e c m) ++ trace (run h (final (exec e c m))).
Proof.
  cbn [run]. unfold bind, trace, final.
  destruct (exec e c m) as [[a m1] t1]. cbn [fst snd].
  destruct (run h m1) as [[b m2] t2]. reflexivity.
Qed.

Lemma begin_work_not_due (e : Env) (m : Manager) :
  0 < config.WorkDuration (config m) <= maxDuration ->
  remaining (begin_work e m) = config.WorkDuration (config m) /\
  due (begin_work e m) = false.
Proof.
  intros HW.
  assert (Hr : remaining (begin_work e m) = config.WorkDuration (config m)).
  { unfold remaining, begin_work. go_fields.
    rewrite sub_exact; rewrite Z.sub_0_r; [reflexivity|].
    unfold int64_range, minDuration, maxDuration in *. lia. }
  split; [exact Hr|]. unfold due. rewrite Hr. apply Z.leb_gt. lia.
Qed.

Lemma end_break_not_due (e : Env) (m : Manager) :
  0 < config.WorkDuration (config m) <= maxDuration ->
  remaining (end_break e m) = config.WorkDuration (config m) /\
  due (end_break e m) = false.
Proof.
  intros HW.
  assert (Hr : remaining (end_break e m) = config.WorkDuration (config m)).
  { unfold remaining, end_break. go_fields.
    rewrite sub_exact; rewrite Z.sub_0_r; [reflexivity|].
    unfold int64_range, minDuration, maxDuration in *. lia. }
  split; [exact Hr|]. unfold due. rewrite Hr. apply Z.leb_gt. lia.
Qed.

(** [Start] on a paused scheduler: where it ends and what it does. *)
Lemma Start_from_paused (e : Env) (m : Manager) :
  state m = StatePausedManual \/ state m = StatePausedInactive ->
  0 < config.WorkDuration (config m) <= maxDuration ->
  state (final (Start e m)) = StateRunning /\
  trace (Start e m) =
    mu_Lock
    :: (stop_trace m ++ [time_AfterFunc (config.WorkDuration (config m))]) ++
       (if onStateChange m then [go_onStateChange StateRunning] else []) ++
       [mu_Unlock].
Proof.
  intros Hp HW. destruct (begin_work_not_due e m HW) as (Hr & Hd).
  rewrite Start_active by exact Hp. go_fields.
  rewrite sched_state_armed, sched_trace_armed by exact Hd. rewrite Hr.
  unfold notify_trace, begin_work, stop_trace. go_fields.
  rewrite <- app_assoc. repeat split.
Qed.

(** X1.  [Start] from either paused state throws away the work time banked
    so far: whatever [elapsed] was, the scheduler runs with [elapsed = 0],
    [workStartTime = now] and the wake-up armed for the whole work duration
    (where [Resume] keeps [elapsed] and arms it for the rest), and nothing
    is written to the store. *)
Theorem Start_discards_banked_time (e : Env) (m : Manager) :
  state m = StatePausedManual \/ state m = StatePausedInactive ->
  0 < config.WorkDuration (config m) <= maxDuration ->
  state (final (Start e m)) = StateRunning /\
  elapsed (final (Start e m)) = 0 /\
  workStartTime (final (Start e m)) = mono (now e) /\
  currentTimer (final (Start e m)) =
    Some (mkTimer (now e) (config.WorkDuration (config m))) /\
  trace (Start e m) =
    mu_Lock
    :: (stop_trace m ++ [time_AfterFunc (config.WorkDuration (config m))]) ++
       (if onStateChange m then [go_onStateChange StateRunning] else []) ++
       [mu_Unlock].
Proof.
  intros Hp HW. destruct (begin_work_not_due e m HW) as (Hr & Hd).
  rewrite Start_active by exact Hp. go_fields.
  rewrite sched_state_armed, sched_trace_armed by exact Hd. rewrite Hr.
  unfold notify_trace, begin_work, stop_trace. go_fields.
  rewrite <- app_assoc. repeat split.
Qed.

(** X2.  A resume that finds no work time left ([WorkDuration - elapsed <=
    0]) arms no wake-up: the scheduler goes straight to
    [StateBreakRequired] with [breakStartTime = now], opens a break in the
    store, calls the break-required callback, and announces
    [StateBreakRequired] twice (once from [triggerBreak], once from the
    resume itself) and [StateRunning] never. *)
Theorem resume_with_nothing_left (e : Env) (m : Manager) :
  state m = StatePausedManual \/ state m = StatePausedInactive ->
  int64_range (config.WorkDuration (config m) - elapsed m) ->
  config.WorkDuration (config m) - elapsed m <= 0 ->
  state (final (Resume e m)) = StateBreakRequired /\
  breakStartTime (final (Resume e m)) = mono (now e) /\
  currentTimer (final (Resume e m)) = None /\
  elapsed (final (Resume e m)) = elapsed m /\
  trace (Resume e m) =
    mu_Lock
    :: (stop_trace m ++
        (if statsStore m then [store_RecordBreakStart] else []) ++
        (if onStateChange m then [go_onStateChange StateBreakRequired]
         else []) ++
        (if onBreakRequired m then [call_onBreakRequired] else [])) ++
       (if onStateChange m then [go_onStateChange StateBreakRequired]
        else []) ++
       [mu_Unlock].
Proof.
  intros Hp Hr Hd.
  assert (Hdue : due (resume_work e m) = true).
  { unfold due, remaining, resume_work. go_fields.
    rewrite sub_exact by exact Hr. apply Z.leb_le. exact Hd. }
  rewrite Resume_active by exact Hp. go_fields.
  unfold sched_state, sched_trace. rewrite Hdue.
  destruct m as [st cfg store tm ws bs id el pt obr obc osc].
  unfold break_trace, notify_trace, break_state, record_start, resume_work,
    stop_trace.
  go_fields.
  destruct store, (breakStartResult e), osc, obr, tm; repeat split.
Qed.

(** X3.  A break that the store opened under [id] is closed under [id]:
    after the wake-up, [CompleteBreak] writes one record,
    [RecordBreakComplete id (now - breakStartTime)], and [SkipBreak] writes
    one record, [RecordBreakSkipped id]; either way the scheduler runs
    again with no break open. *)
Theorem break_is_recorded (e1 e2 : Env) (m : Manager) (id : Z) :
  state m = StateRunning ->
  statsStore m = true ->
  breakStartResult e1 = Some id ->
  0 < id ->
  0 < config.WorkDuration (config m) <= maxDuration ->
  int64_range (now e2 - now e1) ->
  let m1 := final (workTimerFunc e1 m) in
  state m1 = StateBreakRequired /\
  currentBreakID m1 = id /\
  resolved (trace (workTimerFunc e1 m)) = [] /\
  resolved (trace (CompleteBreak e2 m1)) = [id] /\
  In (store_RecordBreakComplete id (now e2 - now e1))
     (trace (CompleteBreak e2 m1)) /\
  state (final (CompleteBreak e2 m1)) = StateRunning /\
  currentBreakID (final (CompleteBreak e2 m1)) = 0 /\
  resolved (trace (SkipBreak e2 m1)) = [id] /\
  In (store_RecordBreakSkipped id) (trace (SkipBreak e2 m1)) /\
  state (final (SkipBreak e2 m1)) = StateRunning /\
  currentBreakID (final (SkipBreak e2 m1)) = 0.
Proof.
  intros Hst Hstore Hid Hpos HW Hrange m1.
  assert (E1 : m1 = break_state e1 m)
    by (unfold m1; rewrite workTimerFunc_active by exact Hst; reflexivity).
  assert (Hst1 : state m1 = StateBreakRequired) by (rewrite E1; reflexivity).
  assert (Hid1 : currentBreakID m1 = id).
  { rewrite E1. unfold break_state. go_fields.
    rewrite currentBreakID_record_start, Hstore, Hid. reflexivity. }
  assert (Hcfg : config m1 = config m).
  { rewrite E1. unfold break_state. go_fields.
    apply (frame_record_start e1 m). }
  assert (Hstore1 : statsStore m1 = true).
  { rewrite E1. unfold break_state. go_fields.
    rewrite (proj1 (proj2 (proj2 (frame_record_start e1 m)))). exact Hstore. }
  assert (Hbs : breakStartTime m1 = mono (now e1))
    by (rewrite E1; reflexivity).
  assert (HW1 : 0 < config.WorkDuration (config m1) <= maxDuration)
    by (rewrite Hcfg; exact HW).
  destruct (end_break_not_due e2 m1 HW1) as (Hrem & Hdue).
  assert (Hgt : (0 <? id) = true) by (apply Z.ltb_lt; exact Hpos).
  clearbody m1.
  split; [exact Hst1|]. split; [exact Hid1|].
  split.
  { rewrite workTimerFunc_active by exact Hst. go_fields.
    unfold break_trace, notify_trace.
    rewrite Hstore.
    destruct (onStateChange (break_state e1 m)), (onBreakRequired m);
      reflexivity. }
  rewrite CompleteBreak_active, SkipBreak_active by exact Hst1. go_fields.
  rewrite sched_state_armed, sched_trace_armed by exact Hdue.
  rewrite Hstore1, Hid1, Hgt, Hbs. go_fields.
  unfold Since. rewrite (sat64_id _ Hrange).
  unfold notify_trace, stop_trace, end_break. go_fields.
  destruct (currentTimer m1), (onStateChange m1), (onBreakComplete m1);
    repeat split; cbn; auto.
Qed.


Lemma break_ends_running (e : Env) (m : Manager) :
  state m = StateBreakRequired ->
  0 < config.WorkDuration (config m) <= maxDuration ->
  state (final (CompleteBreak e m)) = StateRunning /\
  state (final (SkipBreak e m)) = StateRunning.
Proof.
  intros Hst HW. destruct (end_break_not_due e m HW) as (_ & Hdue).
  rewrite CompleteBreak_active, SkipBreak_active by exact Hst. go_fields.
  rewrite sched_state_armed by exact Hdue. split; reflexivity.
Qed.

(** X4.  A break ends once.  After [CompleteBreak] or [SkipBreak] has
    ended the break, a second completion or skip signal (from the overlay
    and the user, in any combination) finds the scheduler running and
    changes nothing: no second store record, no notification, no timer
    change. *)
Theorem second_break_end_is_noop (e1 e2 : Env) (m : Manager) :
  state m = StateBreakRequired ->
  0 < config.WorkDuration (config m) <= maxDuration ->
  let c := final (CompleteBreak e1 m) in
  let s := final (SkipBreak e1 m) in
  CompleteBreak e2 c = (tt, c, [mu_Lock; mu_Unlock]) /\
  SkipBreak e2 c = (tt, c, [mu_Lock; mu_Unlock]) /\
  CompleteBreak e2 s = (tt, s, [mu_Lock; mu_Unlock]) /\
  SkipBreak e2 s = (tt, s, [mu_Lock; mu_Unlock]).
Proof.
  intros Hst HW c s.
  destruct (break_ends_running e1 m Hst HW) as (Hc & Hs).
  fold c in Hc. fold s in Hs.
  repeat split;
    first [ apply CompleteBreak_noop | apply SkipBreak_noop ];
    first [ rewrite Hc | rewrite Hs ]; discriminate.
Qed.

(** X5.  [Stop] during a break leaves [currentBreakID] behind, and a
    failing [RecordBreakStart] does not clear it: after [Stop], [Start], a
    wake-up during which the store fails, and [CompleteBreak], the
    completion is written against the id of the earlier, stopped break,
    with the duration of the new one. *)
Theorem stopped_break_id_is_reused
    (e1 e2 e3 : Env) (m : Manager) :
  state m = StateBreakRequired ->
  statsStore m = true ->
  0 < currentBreakID m ->
  0 < config.WorkDuration (config m) <= maxDuration ->
  breakStartResult e2 = None ->
  int64_range (now e3 - now e2) ->
  let m2 := final (run [(e1, trigger stop); (e1, trigger start);
                        (e2, trigger wakeUp)] m) in
  state m2 = StateBreakRequired /\
  currentBreakID m2 = currentBreakID m /\
  resolved (trace (run [(e1, trigger stop); (e1, trigger start);
                        (e2, trigger wakeUp)] m)) = [] /\
  In (store_RecordBreakComplete (currentBreakID m) (now e3 - now e2))
     (trace (CompleteBreak e3 m2)).
Proof.
  intros Hst Hstore Hid HW Hfail Hrange m2.
  set (m_stop := final (Stop m)).
  assert (Hstop : Stop m =
            (tt, m_stop,
             mu_Lock :: (stop_trace m ++
               (if onStateChange m then [go_onStateChange StatePausedManual]
                else [])) ++ [mu_Unlock])).
  { unfold m_stop. rewrite Stop_eq. reflexivity. }
  assert (Es : m_stop =
            set_elapsed 0 (set_state StatePausedManual
                             (set_currentTimer None m)))
    by (unfold m_stop; rewrite Stop_eq; reflexivity).
  assert (HWs : 0 < config.WorkDuration (config m_stop) <= maxDuration)
    by (rewrite Es; exact HW).
  destruct (Start_from_paused e1 m_stop
              (or_introl (eq_trans (f_equal state Es) eq_refl)) HWs)
    as (Hr & Htr).
  set (m_run := final (Start e1 m_stop)) in *.
  assert (Erun : Start e1 m_stop =
            (tt, sched_state e1 (begin_work e1 m_stop),
             mu_Lock
             :: (sched_trace e1 (begin_work e1 m_stop) ++
                 notify_trace (sched_state e1 (begin_work e1 m_stop))) ++
                [mu_Unlock]))
    by (apply Start_active; left; rewrite Es; reflexivity).
  destruct (begin_work_not_due e1 m_stop HWs) as (_ & Hdue).
  assert (Em_run : m_run =
            set_currentTimer
              (Some (mkTimer (now e1) (remaining (begin_work e1 m_stop))))
              (set_currentTimer None (begin_work e1 m_stop))).
  { unfold m_run. rewrite Erun. go_fields.
    apply sched_state_armed. exact Hdue. }
  assert (Hid_run : currentBreakID m_run = currentBreakID m)
    by (rewrite Em_run, Es; reflexivity).
  assert (Hstore_run : statsStore m_run = true)
    by (rewrite Em_run, Es; exact Hstore).
  assert (E2 : m2 = break_state e2 m_run).
  { unfold m2. rewrite !final_run_cons, final_run_nil. cbn [exec fire].
    fold m_stop. fold m_run.
    rewrite workTimerFunc_active by exact Hr. reflexivity. }
  assert (Hst2 : state m2 = StateBreakRequired) by (rewrite E2; reflexivity).
  assert (Hid2 : currentBreakID m2 = currentBreakID m).
  { rewrite E2. unfold break_state. go_fields.
    rewrite currentBreakID_record_start, Hstore_run, Hfail. exact Hid_run. }
  assert (Hstore2 : statsStore m2 = true).
  { rewrite E2. unfold break_state. go_fields.
    rewrite (proj1 (proj2 (proj2 (frame_record_start e2 m_run)))).
    exact Hstore_run. }
  assert (Hbs2 : breakStartTime m2 = mono (now e2))
    by (rewrite E2; reflexivity).
  split; [exact Hst2|]. split; [exact Hid2|]. split.
  - rewrite !trace_run_cons. cbn [exec fire run]. fold m_stop.
    rewrite Hstop. go_fields. fold m_run. rewrite Htr.
    rewrite workTimerFunc_active by exact Hr. go_fields.
    unfold break_trace, notify_trace, stop_trace. rewrite Hstore_run.
    destruct (currentTimer m), (onStateChange m), (currentTimer m_stop),
      (onStateChange m_stop), (onStateChange (break_state e2 m_run)),
      (onBreakRequired m_run); reflexivity.
  - clearbody m2. rewrite CompleteBreak_active by exact Hst2. go_fields.
    rewrite Hstore2, Hid2, Hbs2.
    replace (0 <? currentBreakID m) with true
      by (symmetry; apply Z.ltb_lt; exact Hid).
    unfold Since. rewrite (sat64_id _ Hrange). go_fields.
    right. left. reflexivity.
Qed.

(** *** The armed wake-up *)

Lemma exec_timer_consistent (e : Env) (c : Command) (m : Manager) :
  is_updateConfig c = false ->
  timer_consistent m -> timer_consistent (final (exec e c m)).
Proof.
  unfold timer_consistent. intros Hc (HR & HP).
  destruct c as [[]| | | | | | |]; try discriminate Hc; go_eval;
    repeat (go_case; go_eval);
    try (split; assumption);
    unfold sched_state, bank, break_state;
    try (destruct (due _) eqn:Hdue); go_fields;
    (split; intros Hs; go_fields;
     try discriminate Hs; try (destruct Hs as [Hs|Hs]; discriminate Hs);
     try reflexivity;
     try (eexists; split; reflexivity)).
Qed.

Lemma run_timer_consistent (h : list (Env * Command)) :
  forall m,
    forallb (fun ec => negb (is_updateConfig (snd ec))) h = true ->
    timer_consistent m -> timer_consistent (final (run h m)).
Proof.
  induction h as [|[e c] h IH]; intros m Hh Hm.
  - exact Hm.
  - cbn [forallb snd] in Hh. apply andb_prop in Hh. destruct Hh as [Hc Hh].
    rewrite final_run_cons. apply IH; [exact Hh|].
    apply exec_timer_consistent; [|exact Hm].
    destruct (is_updateConfig c); [discriminate Hc|reflexivity].
Qed.

(** X6.  As long as the configuration is not replaced, the scheduler and
    its timer agree after every history of calls from [NewManager]: while
    running, the wake-up in [currentTimer] is the one armed at
    [workStartTime] for [WorkDuration - elapsed]; while paused (manually or
    for inactivity), no wake-up is held. *)
Theorem wake_up_follows_state
    (cfg : config.Config) (store : bool) (h : list (Env * Command)) :
  forallb (fun ec => negb (is_updateConfig (snd ec))) h = true ->
  timer_consistent (final (run h (NewManager cfg store))).
Proof.
  intros Hh. apply run_timer_consistent; [exact Hh|].
  split; [intros Hs; discriminate Hs|reflexivity].
Qed.

(** X7.  On such a scheduler in [StateRunning], the time that
    [GetTimeUntilBreak] reports is the time left until the armed wake-up
    is due: [max 0 (armedAt + delay - now)] (the differences being
    representable in [int64]). *)
Theorem query_agrees_with_wake_up
    (cfg : config.Config) (store : bool) (h : list (Env * Command))
    (e : Env) :
  forallb (fun ec => negb (is_updateConfig (snd ec))) h = true ->
  let m := final (run h (NewManager cfg store)) in
  state m = StateRunning ->
  exists tm : Timer,
    currentTimer m = Some tm /\
    workStartTime m = mono (armedAt tm) /\
    (int64_range (config.WorkDuration (config m) - elapsed m) ->
     int64_range (now e - armedAt tm) ->
     int64_range (elapsed m + (now e - armedAt tm)) ->
     int64_range
       (config.WorkDuration (config m) - elapsed m - (now e - armedAt tm)) ->
     result (GetTimeUntilBreak e m) =
     Z.max 0 (armedAt tm + delay tm - now e)).
Proof.
  intros Hh m Hst.
  destruct (run_timer_consistent h (NewManager cfg store) Hh) as (HR & _).
  { split; [intros Hs; discriminate Hs|reflexivity]. }
  fold m in HR. destruct (HR Hst) as (ws & Hws & Htm).
  exists (mkTimer ws (remaining m)). cbn [armedAt delay].
  split; [exact Htm|]. split; [exact Hws|].
  intros H0 H1 H2 H3.
  rewrite (GetTimeUntilBreak_running e m ws Hst Hws H1 H2 H3).
  rewrite (remaining_exact m H0). f_equal. lia.
Qed.

(** X8.  [UpdateConfig] only stores the new configuration: state, banked
    time and the armed wake-up (with its old delay) stay as they are and
    nothing is notified.  The queries read the new configuration at once,
    so while running [GetTimeUntilBreak] reports the time left of the new
    work duration although the wake-up is still due at the old one. *)
Theorem UpdateConfig_not_retroactive
    (e : Env) (cfg' : config.Config) (m : Manager) :
  UpdateConfig cfg' m = (tt, set_config cfg' m, [mu_Lock; mu_Unlock]) /\
  state (final (UpdateConfig cfg' m)) = state m /\
  elapsed (final (UpdateConfig cfg' m)) = elapsed m /\
  currentTimer (final (UpdateConfig cfg' m)) = currentTimer m /\
  (forall ws,
      state m = StateRunning ->
      workStartTime m = mono ws ->
      int64_range (now e - ws) ->
      int64_range (elapsed m + (now e - ws)) ->
      int64_range (config.WorkDuration cfg' - elapsed m - (now e - ws)) ->
      result (GetTimeUntilBreak e (final (UpdateConfig cfg' m))) =
      Z.max 0 (config.WorkDuration cfg' - elapsed m - (now e - ws))).
Proof.
  assert (E : UpdateConfig cfg' m = (tt, set_config cfg' m,
                                     [mu_Lock; mu_Unlock]))
    by (go_eval; reflexivity).
  rewrite E. go_fields. repeat split.
  intros ws Hst Hws H1 H2 H3.
  apply (GetTimeUntilBreak_running e (set_config cfg' m) ws); assumption.
Qed.

(** *** Break ids *)

Lemma resolved_app (t1 t2 : list Event) :
  resolved (t1 ++ t2) = resolved t1 ++ resolved t2.
Proof.
  induction t1 as [|ev t1 IH]; [reflexivity|].
  destruct ev; cbn [app resolved]; rewrite IH; reflexivity.
Qed.

Lemma resolved_stop (m : Manager) : resolved (stop_trace m) = [].
Proof. unfold stop_trace. destruct (currentTimer m); reflexivity. Qed.

Lemma resolved_notify (m : Manager) : resolved (notify_trace m) = [].
Proof. unfold notify_trace. destruct (onStateChange m); reflexivity. Qed.

Lemma resolved_break (e : Env) (m : Manager) :
  resolved (break_trace e m) = [].
Proof.
  unfold break_trace. rewrite !resolved_app, resolved_notify.
  destruct (statsStore m), (onBreakRequired m); reflexivity.
Qed.

Lemma resolved_sched (e : Env) (m : Manager) :
  resolved (sched_trace e m) = [].
Proof.
  unfold sched_trace. rewrite resolved_app, resolved_stop.
  destruct (due m); [apply resolved_break|reflexivity].
Qed.

Ltac resolved_eval :=
  repeat (cbn [resolved app]
          || rewrite resolved_app
          || rewrite resolved_stop
          || rewrite resolved_notify
          || rewrite resolved_break
          || rewrite resolved_sched).

(** A call closes at most the break that is open, and only under a
    positive id. *)
Lemma exec_resolved (e : Env) (c : Command) (m : Manager) (id : Z) :
  In id (resolved (trace (exec e c m))) ->
  id = currentBreakID m /\ 0 < id.
Proof.
  destruct c as [[]| | | | | | |]; go_eval;
    repeat (go_case; go_eval); resolved_eval;
    repeat match goal with
      | |- context [if ?b then _ else _] => destruct b; resolved_eval
      end;
    intros Hin; try contradiction Hin.
  all: destruct Hin as [Hin|Hin]; [subst id|contradiction Hin].
  all: match goal with
       | H : _ && (0 <? _) = true |- _ =>
           apply andb_prop in H; destruct H as [_ H]; apply Z.ltb_lt in H;
           split; [reflexivity|exact H]
       end.
Qed.

(** The open break changes only to 0 or to an id that the store has just
    returned. *)
Lemma exec_currentBreakID (e : Env) (c : Command) (m : Manager) :
  currentBreakID (final (exec e c m)) = 0 \/
  currentBreakID (final (exec e c m)) = currentBreakID m \/
  (existsb is_RecordBreakStart (trace (exec e c m)) = true /\
   breakStartResult e = Some (currentBreakID (final (exec e c m)))).
Proof.
  destruct m as [st cfg store tm ws bs id el pt obr obc osc].
  destruct c as [[]| | | | | | |]; go_eval;
    repeat (go_case; go_eval);
    try (right; left; reflexivity);
    unfold sched_state, sched_trace, break_state, break_trace, record_start,
      notify_trace, stop_trace;
    go_fields;
    repeat match goal with
      | |- context [if ?b then _ else _] => destruct b eqn:?; go_fields
      | |- context [match ?x with Some _ => _ | None => _ end] =>
          destruct x eqn:?; go_fields
      end;
    try (left; reflexivity); try (right; left; reflexivity);
    right; right; (split; [reflexivity|]); try reflexivity;
    try congruence.
Qed.

Lemma run_resolved_opened (h : list (Env * Command)) :
  forall (m : Manager) (P : list Z),
    currentBreakID m = 0 \/ In (currentBreakID m) P ->
    forall id,
      In id (resolved (trace (run h m))) ->
      0 < id /\ In id (P ++ opened h m).
Proof.
  induction h as [|[e c] h IH]; intros m P HJ id Hin.
  - contradiction Hin.
  - rewrite trace_run_cons, resolved_app in Hin.
    apply in_app_or in Hin. destruct Hin as [Hin|Hin].
    + apply exec_resolved in Hin. destruct Hin as (-> & Hpos).
      split; [exact Hpos|]. apply in_or_app. left.
      destruct HJ as [H0|HP]; [lia|exact HP].
    + cbn [opened]. rewrite app_assoc. apply IH; [|exact Hin].
      destruct (exec_currentBreakID e c m) as [H0|[Hsame|(Hev & Hres)]].
      * left. exact H0.
      * rewrite Hsame. destruct HJ as [H0|HP]; [left; exact H0|].
        right. apply in_or_app. left. exact HP.
      * right. apply in_or_app. right. rewrite Hev, Hres. left. reflexivity.
Qed.

(** X9.  The scheduler closes only breaks that the store opened for it:
    in every history from [NewManager], each id written by
    [RecordBreakComplete] or [RecordBreakSkipped] is positive and is an id
    that one of the scheduler's own [RecordBreakStart] calls returned. *)
Theorem resolved_breaks_were_opened
    (cfg : config.Config) (store : bool) (h : list (Env * Command))
    (id : Z) :
  In id (resolved (trace (run h (NewManager cfg store)))) ->
  0 < id /\ In id (opened h (NewManager cfg store)).
Proof.
  intros Hin.
  apply (run_resolved_opened h (NewManager cfg store) []); [|exact Hin].
  left. reflexivity.
Qed.

(** *** Several work intervals *)

Lemma worked_nonneg (l : list Cycle) :
  forall t, in_order t l -> 0 <= worked t l.
Proof.
  induction l as [|c l IH]; intros t Ho; cbn [worked in_order] in *.
  - lia.
  - destruct Ho as (H1 & H2). specialize (IH _ H2). lia.
Qed.

Section Cycles.

Variable cfg : config.Config.

Hypothesis W_range : 0 < config.WorkDuration cfg <= maxDuration.

(** One pause and resume, on a running scheduler that has banked [a]. *)
Lemma cycle_banks (c : Cycle) (m : Manager) (a t : Z) :
  state m = StateRunning ->
  config m = cfg ->
  elapsed m = a ->
  workStartTime m = mono t ->
  0 <= a ->
  t <= now (paused_at c) ->
  a + (now (paused_at c) - t) < config.WorkDuration cfg ->
  let m' := final (run (cycle_calls c) m) in
  state m' = StateRunning /\
  config m' = cfg /\
  elapsed m' = a + (now (paused_at c) - t) /\
  workStartTime m' = mono (now (resumed_at c)).
Proof.
  intros Hst Hcfg Hel Hws Ha Ht Hlt.
  assert (Hd : int64_range (now (paused_at c) - t))
    by (unfold int64_range, minDuration, maxDuration in *; lia).
  assert (Hs : int64_range (a + (now (paused_at c) - t)))
    by (unfold int64_range, minDuration, maxDuration in *; lia).
  assert (Hbank : forall s,
             elapsed (bank s (paused_at c) m) =
             a + (now (paused_at c) - t)).
  { intros s. unfold bank. go_fields. rewrite Hel, Hws. unfold Since.
    rewrite (sat64_id _ Hd). apply add_exact. exact Hs. }
  assert (Hres : forall s,
             due (resume_work (resumed_at c) (bank s (paused_at c) m))
             = false).
  { intros s. apply resume_work_not_due.
    - rewrite Hbank. unfold bank. go_fields. rewrite Hcfg.
      unfold int64_range, minDuration, maxDuration in *. lia.
    - rewrite Hbank. unfold bank. go_fields. rewrite Hcfg. lia. }
  unfold cycle_calls. destruct (manual c);
    rewrite !final_run_cons, final_run_nil; cbn [exec fire].
  - rewrite (Pause_active _ _ Hst). go_fields.
    rewrite Resume_active by (left; reflexivity). go_fields.
    rewrite sched_state_armed by apply Hres. go_fields.
    repeat split; [exact Hcfg|apply Hbank].
  - rewrite (PauseInactive_active _ _ Hst). go_fields.
    rewrite ResumeFromInactive_active by reflexivity. go_fields.
    rewrite sched_state_armed by apply Hres. go_fields.
    repeat split; [exact Hcfg|apply Hbank].
Qed.

Lemma cycles_bank (l : list Cycle) :
  forall (m : Manager) (a t : Z),
    state m = StateRunning ->
    config m = cfg ->
    elapsed m = a ->
    workStartTime m = mono t ->
    0 <= a ->
    in_order t l ->
    a + worked t l < config.WorkDuration cfg ->
    let m' := final (run (flat_map cycle_calls l) m) in
    state m' = StateRunning /\
    config m' = cfg /\
    elapsed m' = a + worked t l /\
    workStartTime m' = mono (last_resume t l).
Proof.
  induction l as [|c l IH]; intros m a t Hst Hcfg Hel Hws Ha Ho Hlt.
  - cbn [flat_map worked last_resume]. rewrite final_run_nil.
    repeat split; try assumption. lia.
  - cbn [flat_map worked last_resume in_order] in *.
    destruct Ho as (Ht & Ho).
    pose proof (worked_nonneg l _ Ho) as Hn.
    destruct (cycle_banks c m a t Hst Hcfg Hel Hws Ha Ht ltac:(lia))
      as (Hst1 & Hcfg1 & Hel1 & Hws1).
    rewrite final_run_app.
    destruct (IH _ _ _ Hst1 Hcfg1 Hel1 Hws1 ltac:(lia) Ho ltac:(lia))
      as (H1 & H2 & H3 & H4).
    repeat split; try assumption. rewrite H3. lia.
Qed.

End Cycles.

(** X10.  Work time adds up over any number of pauses.  Start a paused
    scheduler and let it go through a list of work intervals, each ended by
    [Pause] and [Resume] or by [PauseInactive] and [ResumeFromInactive],
    with the intervals' lengths adding up to less than the work duration.
    Then it is running, [elapsed] is the sum of the lengths of the
    intervals, and [GetTimeUntilBreak] at the instant of the last resume is
    the work duration minus that sum; the lengths of the pauses do not
    count. *)
Theorem work_time_adds_up
    (m : Manager) (e0 e : Env) (l : list Cycle) :
  state m = StatePausedManual \/ state m = StatePausedInactive ->
  0 < config.WorkDuration (config m) <= maxDuration ->
  in_order (now e0) l ->
  worked (now e0) l < config.WorkDuration (config m) ->
  now e = last_resume (now e0) l ->
  let m' := final (run ((e0, trigger start) :: flat_map cycle_calls l) m) in
  state m' = StateRunning /\
  elapsed m' = worked (now e0) l /\
  result (GetTimeUntilBreak e m') =
    config.WorkDuration (config m) - worked (now e0) l.
Proof.
  intros Hp HW Ho Hlt He.
  pose proof (worked_nonneg l _ Ho) as Hn.
  destruct (begin_work_not_due e0 m HW) as (_ & Hdue).
  rewrite final_run_cons. cbn [exec fire].
  set (m1 := final (Start e0 m)).
  assert (E1 : m1 =
            set_currentTimer
              (Some (mkTimer (now e0) (remaining (begin_work e0 m))))
              (set_currentTimer None (begin_work e0 m))).
  { unfold m1. rewrite Start_active by exact Hp. go_fields.
    apply sched_state_armed. exact Hdue. }
  assert (Hcfg1 : config m1 = config m) by (rewrite E1; reflexivity).
  destruct (cycles_bank (config m) HW l m1 0 (now e0))
    as (Hst & Hcfg & Hel & Hws);
    try (rewrite E1; reflexivity); try assumption; try lia.
  cbn zeta. rewrite Z.add_0_l in Hel.
  split; [exact Hst|]. split; [exact Hel|].
  rewrite (GetTimeUntilBreak_running e _ (last_resume (now e0) l) Hst Hws);
    rewrite ?Hel, ?Hcfg, ?He;
    unfold int64_range, minDuration, maxDuration in *; lia.
Qed.

(** *** Names of states *)

(** X11.  [String] tells the four states apart, and on a scheduler driven
    from [NewManager] through any history of calls it never yields
    ["Unknown"]. *)
Theorem State_String_known
    (cfg : config.Config) (store : bool) (h : list (Env * Command)) :
  timer_names.State_String (state (final (run h (NewManager cfg store))))
    <> timer_names.Unknown /\
  (forall s1 s2 : State,
      one_of_four s1 -> one_of_four s2 ->
      timer_names.State_String s1 = timer_names.State_String s2 ->
      s1 = s2).
Proof.
  split.
  - pose proof (run_state_one_of_four h (NewManager cfg store)) as H.
    assert (H0 : one_of_four (state (NewManager cfg store)))
      by (apply one_of_four_iff; cbn; auto).
    apply H in H0. apply one_of_four_iff in H0.
    destruct H0 as [E|[E|[E|E]]]; rewrite E; discriminate.
  - intros s1 s2 H1 H2. apply one_of_four_iff in H1, H2.
    destruct H1 as [E1|[E1|[E1|E1]]], H2 as [E2|[E2|[E2|E2]]];
      rewrite E1, E2; cbn; intros H; try reflexivity; discriminate H.
Qed.

(* ====================================================================== *)
(** ** Properties of the monitor, the application and the overlay         *)
(* ====================================================================== *)

(** *** The activity monitor *)

Lemma checkIdleStatus_eq (got : option Duration) (m : activity.Monitor) :
  fst (activity.checkIdleStatus got m) =
  activity.set_isIdle (activity.reads_idle got m) m.
Proof.
  destruct m as [cfg pi idle tk sc oi oa rn].
  unfold activity.checkIdleStatus, activity.reads_idle, activity.setIdle,
    activity.setActive.
  cbn [activity.config activity.isIdle].
  destruct got as [d|]; [destruct (config.IdleThreshold cfg <=? d)|];
    destruct idle; reflexivity.
Qed.

Lemma checkIdleStatus_calls (got : option Duration) (m : activity.Monitor) :
  activity.calls (snd (activity.checkIdleStatus got m)) =
  match activity.isIdle m, activity.reads_idle got m with
  | false, true =>
      if activity.onBecameIdle m then [activity.call_onBecameIdle] else []
  | true, false =>
      if activity.onBecameActive m then [activity.call_onBecameActive]
      else []
  | _, _ => []
  end.
Proof.
  destruct m as [cfg pi idle tk sc oi oa rn].
  unfold activity.checkIdleStatus, activity.reads_idle, activity.setIdle,
    activity.setActive.
  cbn [activity.config activity.isIdle activity.onBecameIdle
       activity.onBecameActive].
  destruct got as [d|]; [destruct (config.IdleThreshold cfg <=? d)|];
    destruct idle, oi, oa; reflexivity.
Qed.

(** X12.  One poll of the idle time.  Afterwards [isIdle] says whether the
    reading reached the threshold, a failed reading counting as activity;
    nothing else in the monitor changes.  A callback is called only when
    that changes [isIdle]: "became idle" when it turns true, "became
    active" when it turns false, and none when it stays. *)
Theorem checkIdleStatus_level_and_edge
    (got : option Duration) (m : activity.Monitor) :
  fst (activity.checkIdleStatus got m) =
    activity.set_isIdle
      (match got with
       | None => false
       | Some d =>
           config.IdleThreshold (activity.config m) <=? d
       end) m /\
  activity.calls (snd (activity.checkIdleStatus got m)) =
    match activity.isIdle m,
          activity.isIdle (fst (activity.checkIdleStatus got m)) with
    | false, true =>
        if activity.onBecameIdle m then [activity.call_onBecameIdle]
        else []
    | true, false =>
        if activity.onBecameActive m then [activity.call_onBecameActive]
        else []
    | _, _ => []
    end.
Proof.
  split.
  - apply checkIdleStatus_eq.
  - rewrite checkIdleStatus_calls, checkIdleStatus_eq. reflexivity.
Qed.

Lemma monitorLoop_cons (got : option Duration)
    (ticks : list (option Duration)) (m : activity.Monitor) :
  activity.monitorLoop (got :: ticks) m =
  (fst (activity.monitorLoop ticks (fst (activity.checkIdleStatus got m))),
   snd (activity.checkIdleStatus got m) ++
   snd (activity.monitorLoop ticks (fst (activity.checkIdleStatus got m)))).
Proof.
  cbn [activity.monitorLoop].
  destruct (activity.checkIdleStatus got m) as [m1 t1]. cbn [fst snd].
  destruct (activity.monitorLoop ticks m1) as [m2 t2]. reflexivity.
Qed.

Lemma calls_app (t1 t2 : list activity.Event) :
  activity.calls (t1 ++ t2) = activity.calls t1 ++ activity.calls t2.
Proof. apply filter_app. Qed.

(** X13.  With both callbacks registered, the calls made over any series
    of polls alternate: "became idle" and "became active" take turns, and
    the first one is "became idle" if the monitor was not idle before and
    "became active" if it was.  No transition is reported twice. *)
Theorem monitor_calls_alternate
    (ticks : list (option Duration)) (m : activity.Monitor) :
  activity.onBecameIdle m = true ->
  activity.onBecameActive m = true ->
  activity.alternating (activity.isIdle m)
    (activity.calls (snd (activity.monitorLoop ticks m))).
Proof.
  revert m. induction ticks as [|got ticks IH]; intros m Hi Ha.
  - exact I.
  - rewrite monitorLoop_cons. cbn [snd]. rewrite calls_app.
    rewrite checkIdleStatus_calls, Hi, Ha.
    specialize (IH (fst (activity.checkIdleStatus got m))).
    rewrite checkIdleStatus_eq in IH |- *.
    cbn [activity.onBecameIdle activity.onBecameActive activity.set_isIdle
         activity.isIdle] in IH.
    specialize (IH Hi Ha).
    destruct (activity.isIdle m), (activity.reads_idle got m);
      cbn [app activity.alternating]; auto.
Qed.

Lemma calls_under_lock_app (t1 t2 : list activity.Event) :
  forall held,
    activity.calls_under_lock held (t1 ++ t2) =
    activity.calls_under_lock held t1
    || activity.calls_under_lock (activity.held_after held t1) t2.
Proof.
  induction t1 as [|ev t1 IH]; intros held; [reflexivity|].
  destruct ev;
    cbn [app activity.calls_under_lock activity.held_after];
    rewrite IH; try reflexivity; rewrite orb_assoc; reflexivity.
Qed.

Lemma held_after_app (t1 t2 : list activity.Event) :
  forall held,
    activity.held_after held (t1 ++ t2) =
    activity.held_after (activity.held_after held t1) t2.
Proof.
  induction t1 as [|ev t1 IH]; intros held; [reflexivity|].
  destruct ev; cbn [app activity.held_after]; apply IH.
Qed.

Lemma checkIdleStatus_unlocked (got : option Duration)
    (m : activity.Monitor) :
  activity.calls_under_lock false (snd (activity.checkIdleStatus got m))
    = false /\
  activity.held_after false (snd (activity.checkIdleStatus got m)) = false.
Proof.
  destruct m as [cfg pi idle tk sc oi oa rn].
  unfold activity.checkIdleStatus, activity.setIdle, activity.setActive.
  cbn [activity.config activity.isIdle activity.onBecameIdle
       activity.onBecameActive].
  destruct got as [d|]; [destruct (config.IdleThreshold cfg <=? d)|];
    destruct idle, oi, oa; split; reflexivity.
Qed.

(** X14.  The monitor never calls "became idle" or "became active" while
    it holds its mutex: in the trace of any series of polls every callback
    call comes after the unlock, and the mutex is free when the series
    ends.  (The callbacks take the scheduler's lock, so the two locks are
    never held together by the monitor.) *)
Theorem monitor_calls_outside_lock
    (ticks : list (option Duration)) (m : activity.Monitor) :
  activity.calls_under_lock false (snd (activity.monitorLoop ticks m))
    = false /\
  activity.held_after false (snd (activity.monitorLoop ticks m)) = false.
Proof.
  revert m. induction ticks as [|got ticks IH]; intros m.
  - split; reflexivity.
  - rewrite monitorLoop_cons. cbn [snd].
    rewrite calls_under_lock_app, held_after_app.
    destruct (checkIdleStatus_unlocked got m) as (H1 & H2).
    rewrite H1, H2. apply IH.
Qed.

(** X15.  A monitor can be stopped once.  [Stop] on a running monitor
    whose stop channel is open closes the channel, stops the ticker and
    returns; [Stop] on a stopped monitor returns at once.  But [Start]
    does not make a new channel: on a monitor that was stopped, [Start]
    followed by [Stop] closes the closed channel and panics. *)
Theorem monitor_stops_once (m : activity.Monitor) :
  (activity.running m = true ->
   activity.stopChan m = activity.chan_open ->
   exists m1 t1,
     activity.Stop m = Some (m1, t1) /\
     activity.running m1 = false /\
     activity.ticker m1 = false /\
     activity.stopChan m1 = activity.chan_closed /\
     In activity.close_stopChan t1 /\
     activity.Stop m1 = Some (m1, [activity.Lock; activity.Unlock]) /\
     activity.Stop (fst (activity.Start m1)) = None) /\
  (activity.running m = false ->
   activity.Stop m = Some (m, [activity.Lock; activity.Unlock])) /\
  (activity.running m = true ->
   activity.Start m = (m, [activity.Lock; activity.Unlock])).
Proof.
  destruct m as [cfg pi idle tk sc oi oa rn].
  cbn [activity.running activity.stopChan].
  split; [|split].
  - intros -> ->. unfold activity.Stop. cbn.
    destruct tk; do 2 eexists; repeat split; cbn; auto.
  - intros ->. reflexivity.
  - intros ->. reflexivity.
Qed.

(** *** The monitor and the scheduler together *)

Lemma deliver_calls (e : Env) (t : list activity.Event) (tm : Manager) :
  app.deliver e t tm = app.deliver e (activity.calls t) tm.
Proof.
  unfold app.deliver. revert tm.
  induction t as [|ev t IH]; intros tm; [reflexivity|].
  destruct ev; cbn [fold_left activity.calls filter activity.is_call
                    app.monitor_callback]; apply IH.
Qed.

Lemma monitor_callback_undisturbed (e : Env) (ev : activity.Event)
    (tm : Manager) :
  state tm = StatePausedManual \/ state tm = StateBreakRequired ->
  app.monitor_callback e ev tm = tm.
Proof.
  intros Hs. destruct ev; try reflexivity; cbn [app.monitor_callback].
  - rewrite PauseInactive_noop; [reflexivity|].
    destruct Hs as [H|H]; rewrite H; discriminate.
  - rewrite ResumeFromInactive_noop; [reflexivity|].
    destruct Hs as [H|H]; rewrite H; discriminate.
Qed.

Lemma deliver_undisturbed (e : Env) (t : list activity.Event)
    (tm : Manager) :
  state tm = StatePausedManual \/ state tm = StateBreakRequired ->
  app.deliver e t tm = tm.
Proof.
  intros Hs. unfold app.deliver.
  induction t as [|ev t IH]; [reflexivity|].
  cbn [fold_left]. rewrite monitor_callback_undisturbed by exact Hs.
  exact IH.
Qed.

(** X16.  The idle monitor does not touch a scheduler that the user paused
    or that is in a break: whatever the monitor reads over any series of
    polls, and whatever its own state, a scheduler in [StatePausedManual]
    or [StateBreakRequired] is exactly as before (in particular coming
    back from idleness does not resume a manual pause). *)
Theorem polls_leave_manual_pause_and_break
    (h : list (Env * option Duration)) (a : app.App) :
  state (app.timerManager a) = StatePausedManual \/
  state (app.timerManager a) = StateBreakRequired ->
  app.timerManager
    (app.steps (map (fun p => (fst p, app.tick (snd p))) h) a)
  = app.timerManager a.
Proof.
  revert a. induction h as [|[e got] h IH]; intros a Hs; [reflexivity|].
  cbn [map app.steps fst snd].
  assert (Hstep : app.timerManager (app.step e (app.tick got) a)
                  = app.timerManager a).
  { unfold app.step.
    destruct (activity.checkIdleStatus got (app.activityMonitor a))
      as [mon t].
    cbn [app.timerManager]. apply deliver_undisturbed. exact Hs. }
  rewrite IH; [exact Hstep|]. rewrite Hstep. exact Hs.
Qed.

(** A trigger other than [PauseInactive] does not bring the scheduler into
    [StatePausedInactive]. *)
Lemma enters_inactive_only_by_PauseInactive (e : Env) (t : Trigger)
    (tm : Manager) :
  t <> pauseInactive ->
  state (final (fire e t tm)) = StatePausedInactive ->
  state tm = StatePausedInactive.
Proof.
  intros Ht.
  destruct t; try contradiction; go_eval;
    repeat (go_case; go_eval); go_frame;
    repeat go_case; intros H; try discriminate H; try exact H.
Qed.

Lemma ResumeFromInactive_leaves_inactive (e : Env) (tm : Manager) :
  state (final (ResumeFromInactive e tm)) <> StatePausedInactive.
Proof.
  go_eval. repeat (go_case; go_eval); go_frame; repeat go_case;
    try discriminate.
  apply negb_true_iff in Heqb.
  destruct (Z.eqb_spec (state tm) StatePausedInactive);
    [discriminate Heqb|assumption].
Qed.

Lemma step_inactive_means_idle (e : Env) (i : app.Input) (a : app.App) :
  activity.onBecameActive (app.activityMonitor a) = true ->
  (state (app.timerManager a) = StatePausedInactive ->
   activity.isIdle (app.activityMonitor a) = true) ->
  activity.onBecameActive (app.activityMonitor (app.step e i a)) = true /\
  (state (app.timerManager (app.step e i a)) = StatePausedInactive ->
   activity.isIdle (app.activityMonitor (app.step e i a)) = true).
Proof.
  intros Hcb Hinv.
  destruct i as [got| | | |]; cbn [app.step app.activityMonitor
                                       app.timerManager].
  - pose proof (checkIdleStatus_eq got (app.activityMonitor a)) as Em.
    pose proof (checkIdleStatus_calls got (app.activityMonitor a)) as Ec.
    destruct (activity.checkIdleStatus got (app.activityMonitor a))
      as [mon t].
    cbn [fst snd app.activityMonitor app.timerManager] in *.
    subst mon. cbn [activity.onBecameActive activity.set_isIdle
                    activity.isIdle].
    split; [exact Hcb|].
    rewrite deliver_calls, Ec, Hcb.
    destruct (activity.isIdle (app.activityMonitor a)) eqn:Hidle,
             (activity.reads_idle got (app.activityMonitor a));
      try (intros _; reflexivity).
    + cbn [app.deliver fold_left app.monitor_callback].
      intros H. exfalso.
      exact (ResumeFromInactive_leaves_inactive e _ H).
    + cbn [app.deliver fold_left]. intros H.
      specialize (Hinv H). discriminate Hinv.
  - split; [exact Hcb|]. intros H. apply Hinv.
    apply (enters_inactive_only_by_PauseInactive e pause); [discriminate|].
    exact H.
  - split; [exact Hcb|]. intros H. apply Hinv.
    apply (enters_inactive_only_by_PauseInactive e resume); [discriminate|].
    exact H.
  - split; [exact Hcb|]. intros H. apply Hinv.
    apply (enters_inactive_only_by_PauseInactive e completeBreak);
      [discriminate|]. exact H.
  - split; [exact Hcb|]. intros H. apply Hinv.
    apply (enters_inactive_only_by_PauseInactive e wakeUp); [discriminate|].
    exact H.
Qed.

(** X17.  In the running application the scheduler is in
    [StatePausedInactive] only while the monitor holds the user for idle:
    after [New], [Run] and any series of polls, menu commands, overlay
    completions and wake-ups, [StatePausedInactive] implies [isIdle].
    (The inputs are handled one after the other: a poll and the callback
    that it makes are over before the next input.) *)
Theorem inactive_pause_means_idle
    (cfg : config.Config) (e0 : Env) (h : list (Env * app.Input)) :
  let a := app.steps h (app.Run e0 (app.New cfg)) in
  state (app.timerManager a) = StatePausedInactive ->
  activity.isIdle (app.activityMonitor a) = true.
Proof.
  cbn zeta.
  assert (H0 : activity.onBecameActive
                 (app.activityMonitor (app.Run e0 (app.New cfg))) = true /\
               (state (app.timerManager (app.Run e0 (app.New cfg)))
                = StatePausedInactive ->
                activity.isIdle
                  (app.activityMonitor (app.Run e0 (app.New cfg))) = true)).
  { split; [reflexivity|].
    intros H. exfalso. revert H.
    unfold app.Run, app.New. cbn [app.timerManager].
    intros H.
    apply (enters_inactive_only_by_PauseInactive e0 start) in H;
      [discriminate H|discriminate]. }
  revert H0. generalize (app.Run e0 (app.New cfg)).
  induction h as [|[e i] h IH]; intros a (Hcb & Hinv).
  - exact Hinv.
  - cbn [app.steps]. apply IH. apply step_inactive_means_idle; assumption.
Qed.

Lemma set_isIdle_same (m : activity.Monitor) :
  activity.set_isIdle (activity.isIdle m) m = m.
Proof. destruct m; reflexivity. Qed.

Lemma step_tick_same_level (e : Env) (got : option Duration) (a : app.App) :
  activity.reads_idle got (app.activityMonitor a)
  = activity.isIdle (app.activityMonitor a) ->
  app.step e (app.tick got) a = a.
Proof.
  intros Hl.
  pose proof (checkIdleStatus_eq got (app.activityMonitor a)) as Em.
  pose proof (checkIdleStatus_calls got (app.activityMonitor a)) as Ec.
  unfold app.step.
  destruct (activity.checkIdleStatus got (app.activityMonitor a)) as [mon t].
  cbn [fst snd] in Em, Ec. rewrite deliver_calls, Ec, Em, Hl.
  rewrite set_isIdle_same.
  destruct (activity.isIdle (app.activityMonitor a)), a; reflexivity.
Qed.

(** X18.  The monitor reports changes, not levels.  A series of polls whose
    readings all agree with what the monitor already holds (all idle while
    [isIdle], or all active while not) changes neither the monitor nor the
    scheduler.  So a scheduler that the user resumed by hand while the
    monitor holds them idle keeps running through every further idle
    reading: it is paused for inactivity again only after activity has
    been seen in between. *)
Theorem polls_at_same_level_change_nothing
    (h : list (Env * option Duration)) (a : app.App) :
  Forall (fun p => activity.reads_idle (snd p) (app.activityMonitor a)
                   = activity.isIdle (app.activityMonitor a)) h ->
  app.steps (map (fun p => (fst p, app.tick (snd p))) h) a = a.
Proof.
  induction 1 as [|[e got] h Hp _ IH]; [reflexivity|].
  cbn [map app.steps fst snd] in *.
  rewrite step_tick_same_level by exact Hp. exact IH.
Qed.

(** X19.  In the application a break ends only when the overlay's
    countdown completes.  While the scheduler is in [StateBreakRequired],
    no series of polls, menu commands and stale wake-ups changes it in any
    way; the next completion of the countdown sets it running again. *)
Theorem break_ends_only_by_countdown
    (h : list (Env * app.Input)) (e : Env) (a : app.App) :
  state (app.timerManager a) = StateBreakRequired ->
  0 < config.WorkDuration (config (app.timerManager a)) <= maxDuration ->
  Forall (fun p => snd p <> app.overlayComplete) h ->
  app.timerManager (app.steps h a) = app.timerManager a /\
  state (app.timerManager (app.step e app.overlayComplete (app.steps h a)))
    = StateRunning.
Proof.
  intros Hs HW Hh.
  assert (E : app.timerManager (app.steps h a) = app.timerManager a).
  { clear HW. revert a Hs.
    induction Hh as [|[e1 i] h Hi _ IH]; intros a Hs; [reflexivity|].
    cbn [app.steps snd] in *.
    assert (Hstep : app.timerManager (app.step e1 i a)
                    = app.timerManager a).
    { destruct i as [got| | | |]; cbn [app.step app.timerManager].
      - destruct (activity.checkIdleStatus got (app.activityMonitor a))
          as [mon t].
        cbn [app.timerManager]. apply deliver_undisturbed. right. exact Hs.
      - rewrite Pause_noop; [reflexivity|]. rewrite Hs. discriminate.
      - rewrite Resume_noop; [reflexivity| |]; rewrite Hs; discriminate.
      - contradiction Hi. reflexivity.
      - rewrite workTimerFunc_noop; [reflexivity|]. rewrite Hs.
        discriminate. }
    rewrite IH; [exact Hstep|]. rewrite Hstep. exact Hs. }
  split; [exact E|].
  cbn [app.step app.timerManager]. rewrite E.
  apply (break_ends_running e (app.timerManager a) Hs HW).
Qed.

(** *** The configuration manager *)

Lemma DefaultConfig_valid : config.Validate config.DefaultConfig = None.
Proof. vm_compute. reflexivity. Qed.

Lemma call_holds_valid (ovf : float -> Z) (c : config_manager.Call)
    (m : config_manager.Manager) :
  config_manager.holds_valid m ->
  config_manager.holds_valid (config_manager.call ovf c m).
Proof.
  unfold config_manager.holds_valid. intros H.
  destruct m as [p [c0|]];
    destruct c as [r|w|w c1|]; cbn [config_manager.call];
    unfold config_manager.Load, config_manager.Save, config_manager.Update,
      config_manager.Save, config_manager.Get;
    cbn [config_manager.config config_manager.configPath] in *;
    try (destruct r as [| | |raw];
         [| | |destruct (config.Validate (config_manager.parse ovf raw))
                 eqn:E]);
    try (destruct (config.Validate c1) eqn:E1);
    try rewrite H; try rewrite DefaultConfig_valid;
    try rewrite E1;
    repeat match goal with
      | |- context [if ?b then _ else _] => destruct b
      end;
    cbn [fst snd config_manager.config];
    solve [ exact H | exact I | assumption | exact DefaultConfig_valid ].
Qed.

Lemma call_keeps_config (ovf : float -> Z) (c : config_manager.Call)
    (m : config_manager.Manager) :
  config_manager.config m <> None ->
  config_manager.config (config_manager.call ovf c m) <> None.
Proof.
  intros H.
  destruct m as [p [c0|]]; [|contradiction H; reflexivity].
  destruct c as [r|w|w c1|]; cbn [config_manager.call];
    unfold config_manager.Load, config_manager.Save, config_manager.Update,
      config_manager.Save, config_manager.Get;
    cbn [config_manager.config config_manager.configPath] in *;
    try (destruct r as [| | |raw];
         [| | |destruct (config.Validate (config_manager.parse ovf raw))]);
    try (destruct (config.Validate c1));
    try (destruct (config.Validate c0));
    repeat match goal with
      | |- context [if ?b then _ else _] => destruct b
      end;
    cbn [fst snd config_manager.config]; discriminate.
Qed.

Lemma NewManager_holds_valid (ovf : float -> Z)
    (s : config_manager.Startup) (m : config_manager.Manager) :
  config_manager.NewManager ovf s = inl m ->
  config_manager.holds_valid m /\ config_manager.config m <> None.
Proof.
  unfold config_manager.NewManager, config_manager.holds_valid.
  destruct (config_manager.path s) as [p|]; [|discriminate].
  destruct (config_manager.mkdir_ok s); cbn [negb]; [|discriminate].
  unfold config_manager.Load, config_manager.Save.
  destruct (config_manager.read s) as [| | |raw];
    cbn [config_manager.config config_manager.configPath];
    try discriminate.
  - rewrite DefaultConfig_valid.
    destruct (config_manager.marshal_ok (config_manager.disk s));
      cbn [negb]; [|discriminate].
    destruct (config_manager.write_ok (config_manager.disk s));
      cbn [negb]; [|discriminate].
    intros H. injection H as <-. cbn [config_manager.config].
    split; [exact DefaultConfig_valid|discriminate].
  - destruct (config.Validate (config_manager.parse ovf raw)) eqn:E;
      [discriminate|].
    intros H. injection H as <-. cbn [config_manager.config].
    split; [exact E|discriminate].
Qed.

(** X20.  The methods of a configuration manager never install an
    invalid configuration: the manager that [NewManager] returns holds a
    configuration that passes [Validate], and it still does after any
    series of [Load], [Save], [Update] and [Get] calls, whatever the file
    contains and whether or not the writes succeed.  (Configurations are
    values here: a caller that assigns to the fields behind the pointer
    that [Get] returned is outside this statement.) *)
Theorem manager_config_always_valid
    (ovf : float -> Z) (s : config_manager.Startup)
    (m : config_manager.Manager) (calls : list config_manager.Call) :
  config_manager.NewManager ovf s = inl m ->
  exists c : config.Config,
    config_manager.config
      (fold_left (fun m c => config_manager.call ovf c m) calls m) = Some c /\
    config.Validate c = None.
Proof.
  intros H. apply NewManager_holds_valid in H. destruct H as (Hv & Hc).
  assert (Hinv : config_manager.holds_valid
                   (fold_left (fun m c => config_manager.call ovf c m)
                      calls m) /\
                 config_manager.config
                   (fold_left (fun m c => config_manager.call ovf c m)
                      calls m) <> None).
  { revert m Hv Hc. induction calls as [|c calls IH]; intros m Hv Hc.
    - split; assumption.
    - cbn [fold_left]. apply IH;
        [apply call_holds_valid|apply call_keeps_config]; assumption. }
  destruct Hinv as (Hv' & Hc'). unfold config_manager.holds_valid in Hv'.
  destruct (config_manager.config
              (fold_left (fun m c => config_manager.call ovf c m) calls m))
    as [c|]; [|contradiction Hc'; reflexivity].
  exists c. split; [reflexivity|exact Hv'].
Qed.

(** X21.  [Load] and [Update] change the manager only when the new
    configuration is valid.  A [Load] that returns an error (no file,
    unreadable file, no JSON object, values out of bounds) leaves the
    manager as it was; an [Update] with an invalid configuration returns
    the validation error, leaves the manager as it was and writes
    nothing.  An [Update] with a valid configuration replaces the
    configuration in memory even when saving it fails: it returns the
    error of [Save] and the new configuration stays. *)
Theorem Load_and_Update_outcomes
    (ovf : float -> Z) (m : config_manager.Manager) :
  (forall r e,
      snd (config_manager.Load ovf r m) = Some e ->
      fst (config_manager.Load ovf r m) = m) /\
  (forall w c e,
      config.Validate c = Some e ->
      config_manager.Update w c m =
      (m, Some (config_manager.ErrValidation e), None)) /\
  (forall w c,
      config.Validate c = None ->
      fst (fst (config_manager.Update w c m)) =
        config_manager.mkManager (config_manager.configPath m) (Some c) /\
      snd (fst (config_manager.Update w c m)) =
        (if negb (config_manager.marshal_ok w)
         then Some config_manager.ErrMarshal
         else if negb (config_manager.write_ok w)
              then Some config_manager.ErrWriteFile
              else None) /\
      snd (config_manager.Update w c m) =
        (if config_manager.marshal_ok w && config_manager.write_ok w
         then Some (config_manager.to_raw c) else None)).
Proof.
  split; [|split].
  - intros r e. unfold config_manager.Load.
    destruct r as [| | |raw]; try reflexivity.
    destruct (config.Validate (config_manager.parse ovf raw));
      [reflexivity|discriminate].
  - intros w c e H. unfold config_manager.Update. rewrite H. reflexivity.
  - intros w c H. unfold config_manager.Update, config_manager.Save.
    rewrite H. cbn [config_manager.config config_manager.configPath].
    rewrite H.
    destruct (config_manager.marshal_ok w), (config_manager.write_ok w);
      repeat split.
Qed.

(** X22.  What [NewManager] does with the configuration file.  If there is
    no file it takes the defaults and saves them, and fails if that save
    fails; if the file is there but cannot be read, is not a JSON object,
    or holds values out of bounds, it fails and does not fall back to the
    defaults; if the file is valid it holds what the file says. *)
Theorem NewManager_outcomes
    (ovf : float -> Z) (s : config_manager.Startup) (p : String.string) :
  config_manager.path s = Some p ->
  config_manager.mkdir_ok s = true ->
  match config_manager.read s with
  | config_manager.file_missing =>
      if config_manager.marshal_ok (config_manager.disk s)
         && config_manager.write_ok (config_manager.disk s)
      then config_manager.NewManager ovf s =
           inl (config_manager.mkManager p (Some config.DefaultConfig))
      else exists e,
          config_manager.NewManager ovf s =
          inr (config_manager.ErrSaveDefault e)
  | config_manager.file_unreadable =>
      config_manager.NewManager ovf s =
      inr (config_manager.ErrLoadConfig config_manager.ErrRead)
  | config_manager.file_not_json =>
      config_manager.NewManager ovf s =
      inr (config_manager.ErrLoadConfig config_manager.ErrUnmarshal)
  | config_manager.file_json raw =>
      match config.Validate (config_manager.parse ovf raw) with
      | Some e =>
          config_manager.NewManager ovf s =
          inr (config_manager.ErrLoadConfig
                 (config_manager.ErrInvalidConfig e))
      | None =>
          config_manager.NewManager ovf s =
          inl (config_manager.mkManager p
                 (Some (config_manager.parse ovf raw)))
      end
  end.
Proof.
  intros Hp Hd. unfold config_manager.NewManager. rewrite Hp, Hd.
  cbn [negb]. unfold config_manager.Load, config_manager.Save.
  destruct (config_manager.read s) as [| | |raw];
    cbn [config_manager.config config_manager.configPath];
    try reflexivity.
  - rewrite DefaultConfig_valid.
    destruct (config_manager.marshal_ok (config_manager.disk s)),
             (config_manager.write_ok (config_manager.disk s));
      cbn [negb andb]; try reflexivity; eexists; reflexivity.
  - destruct (config.Validate (config_manager.parse ovf raw));
      reflexivity.
Qed.

(** *** Saving and loading back *)

Lemma all_from_spec (fuel : nat) (p : Z -> bool) :
  forall k : Z,
    GoConv.all_from fuel k p = true ->
    forall z : Z, k <= z < k + Z.of_nat fuel -> p z = true.
Proof.
  induction fuel as [|f IH]; intros k H z Hz.
  - cbn in Hz. lia.
  - cbn [GoConv.all_from] in H. apply andb_prop in H. destruct H as (Hk & Hr).
    destruct (Z.eq_dec z k) as [->|Hne]; [exact Hk|].
    apply (IH (k + 1) Hr). lia.
Qed.

Section RoundTrip.

Variable ovf : float -> Z.

Lemma minutes_checked :
  GoConv.all_from (Z.to_nat 10000) 1
    (fun k => config_manager.minutesToDuration ovf
                (config_manager.durationToMinutes (k * Minute))
              =? k * Minute) = true.
Proof. vm_compute. reflexivity. Qed.

Lemma seconds_checked :
  GoConv.all_from (Z.to_nat 10000) 1
    (fun k => config_manager.secondsToDuration ovf
                (config_manager.durationToSeconds (k * Second))
              =? k * Second) = true.
Proof. vm_compute. reflexivity. Qed.

Lemma whole_minutes_round_trip (k : Z) :
  1 <= k <= 10000 ->
  config_manager.minutesToDuration ovf
    (config_manager.durationToMinutes (k * Minute)) = k * Minute.
Proof.
  intros H. apply Z.eqb_eq.
  apply (all_from_spec _ _ _ minutes_checked k). lia.
Qed.

Lemma whole_seconds_round_trip (k : Z) :
  1 <= k <= 10000 ->
  config_manager.secondsToDuration ovf
    (config_manager.durationToSeconds (k * Second)) = k * Second.
Proof.
  intros H. apply Z.eqb_eq.
  apply (all_from_spec _ _ _ seconds_checked k). lia.
Qed.

Lemma parse_to_raw (c : config.Config) :
  config_manager.parse ovf (config_manager.to_raw c) =
  {| config.WorkDuration :=
       config_manager.minutesToDuration ovf
         (config_manager.durationToMinutes (config.WorkDuration c));
     config.BreakDuration :=
       config_manager.secondsToDuration ovf
         (config_manager.durationToSeconds (config.BreakDuration c));
     config.IdleThreshold :=
       config_manager.minutesToDuration ovf
         (config_manager.durationToMinutes (config.IdleThreshold c));
     config.AutoStartOnLogin := config.AutoStartOnLogin c;
     config.PauseOnFullscreen := config.PauseOnFullscreen c;
     config.NotificationSound := config.NotificationSound c;
     config.OverlayOpacity := config.OverlayOpacity c;
     config.FirstRun := config.FirstRun c |}.
Proof. reflexivity. Qed.

End RoundTrip.

(** A break of 1.001 s is saved as [1.001] and loaded back one nanosecond
    short: the product [1.001 * 1e9] lies just below the integer. *)
Example millisecond_break_loses_a_nanosecond (ovf : float -> Z) :
  config_manager.secondsToDuration ovf
    (config_manager.durationToSeconds 1001000000) = 1000999999.
Proof. vm_compute. reflexivity. Qed.

(** X23.  A saved configuration loads back unchanged when its durations are
    whole units of the file: if the work duration and the idle threshold are
    whole minutes and the break duration is whole seconds, each between 1 and
    10000 units, and [Save] returns no error, then a [Load] of the file that
    [Save] wrote installs exactly the configuration that was saved. *)
Theorem saved_config_loads_back
    (ovf : float -> Z) (w : config_manager.Disk)
    (m m' : config_manager.Manager) (c : config.Config) (k j i : Z) :
  config_manager.config m = Some c ->
  config.WorkDuration c = k * Minute -> 1 <= k <= 10000 ->
  config.BreakDuration c = j * Second -> 1 <= j <= 10000 ->
  config.IdleThreshold c = i * Minute -> 1 <= i <= 10000 ->
  snd (fst (config_manager.Save w m)) = None ->
  exists raw : config_manager.Raw,
    snd (config_manager.Save w m) = Some raw /\
    config_manager.Load ovf (config_manager.file_json raw) m' =
    (config_manager.mkManager (config_manager.configPath m') (Some c), None).
Proof.
  intros Hc Hw Hk Hb Hj Hi Hi' Hs.
  assert (Hp : config_manager.parse ovf (config_manager.to_raw c) = c).
  { rewrite parse_to_raw, Hw, Hb, Hi.
    rewrite !whole_minutes_round_trip, whole_seconds_round_trip by assumption.
    rewrite <- Hw, <- Hb, <- Hi. destruct c; reflexivity. }
  unfold config_manager.Save in *. rewrite Hc in *.
  destruct (config.Validate c) eqn:Hv; cbn [fst snd] in Hs; [discriminate|].
  destruct (config_manager.marshal_ok w); cbn [negb fst snd] in *;
    [|discriminate].
  destruct (config_manager.write_ok w); cbn [negb fst snd] in *;
    [|discriminate].
  exists (config_manager.to_raw c). split; [reflexivity|].
  unfold config_manager.Load. rewrite Hp, Hv. reflexivity.
Qed.

(** *** The overlay's countdown *)

Lemma shown_app (t1 t2 : list overlay.Event) :
  overlay.shown (t1 ++ t2) = overlay.shown t1 ++ overlay.shown t2.
Proof.
  induction t1 as [|ev t1 IH]; [reflexivity|].
  destruct ev; cbn [app overlay.shown]; rewrite IH; reflexivity.
Qed.

Lemma completions_app (t1 t2 : list overlay.Event) :
  overlay.completions (t1 ++ t2) =
  (overlay.completions t1 + overlay.completions t2)%nat.
Proof.
  unfold overlay.completions. rewrite filter_app. apply length_app.
Qed.

Lemma countdownTick_goes_on (w : overlay.Window) :
  overlay.isShowing w = true ->
  1 < overlay.remainingSecs w <= maxDuration ->
  overlay.countdownTick w =
  (overlay.set_remainingSecs (overlay.remainingSecs w - 1) w,
   [overlay.Lock; overlay.Unlock;
    overlay.dispatch_labels (overlay.remainingSecs w - 1)],
   true).
Proof.
  intros Hs Hr. unfold overlay.countdownTick. rewrite Hs. cbn [negb].
  rewrite sub_exact
    by (unfold int64_range, minDuration, maxDuration in *; lia).
  destruct (Z.leb_spec (overlay.remainingSecs w - 1) 0); [lia|reflexivity].
Qed.

Lemma countdownTick_last (w : overlay.Window) :
  overlay.isShowing w = true ->
  overlay.remainingSecs w = 1 ->
  overlay.countdownTick w =
  (overlay.set_stopChan true
     (overlay.set_ticker false
        (overlay.set_isShowing false (overlay.set_remainingSecs 0 w))),
   [overlay.Lock; overlay.Unlock; overlay.dispatch_labels 0; overlay.Lock] ++
   (if overlay.ticker w then [overlay.ticker_Stop] else []) ++
   [overlay.Unlock; overlay.Lock] ++
   (if overlay.ticker w then [overlay.ticker_Stop] else []) ++
   [overlay.Unlock; overlay.dispatch_close] ++
   (if overlay.onComplete w then [overlay.call_onComplete] else []),
   false).
Proof.
  intros Hs Hr. destruct w as [cfg sh tk sc oc rs].
  cbn [overlay.isShowing overlay.remainingSecs] in Hs, Hr. subst sh rs.
  unfold overlay.countdownTick, overlay.Hide. cbn. destruct tk; reflexivity.
Qed.

Lemma countdown_partial (k : nat) :
  forall w : overlay.Window,
    overlay.isShowing w = true ->
    Z.of_nat k < overlay.remainingSecs w <= maxDuration ->
    overlay.countdown k w =
    (overlay.set_remainingSecs (overlay.remainingSecs w - Z.of_nat k) w,
     snd (fst (overlay.countdown k w)), true) /\
    overlay.shown (snd (fst (overlay.countdown k w)))
      = overlay.down_from k (overlay.remainingSecs w) /\
    overlay.completions (snd (fst (overlay.countdown k w))) = 0%nat.
Proof.
  induction k as [|k IH]; intros w Hs Hr.
  - cbn [overlay.countdown fst snd Z.of_nat]. rewrite Z.sub_0_r.
    destruct w; repeat split.
  - cbn [overlay.countdown].
    rewrite countdownTick_goes_on by (try assumption; lia).
    set (w1 := overlay.set_remainingSecs (overlay.remainingSecs w - 1) w).
    destruct (IH w1) as (E & Hsh & Hc);
      [exact Hs | subst w1; cbn [overlay.remainingSecs
                                  overlay.set_remainingSecs]; lia |].
    rewrite E. cbn [fst snd].
    rewrite shown_app, completions_app, Hsh, Hc.
    subst w1. cbn [overlay.remainingSecs overlay.set_remainingSecs
                   overlay.config overlay.isShowing overlay.ticker
                   overlay.stopChan overlay.onComplete].
    replace (overlay.remainingSecs w - 1 - Z.of_nat k)
      with (overlay.remainingSecs w - Z.of_nat (S k)) by lia.
    repeat split.
Qed.

Lemma down_from_to_nat (r : Z) :
  1 < r ->
  overlay.down_from (Z.to_nat r) r =
  (r - 1) :: overlay.down_from (Z.to_nat (r - 1)) (r - 1).
Proof.
  intros H. replace (Z.to_nat r) with (S (Z.to_nat (r - 1))) by lia.
  reflexivity.
Qed.

Lemma countdown_done (k : nat) :
  forall w : overlay.Window,
    overlay.isShowing w = true ->
    1 <= overlay.remainingSecs w <= maxDuration ->
    overlay.remainingSecs w <= Z.of_nat k ->
    overlay.countdown k w =
    (overlay.set_stopChan true
       (overlay.set_ticker false
          (overlay.set_isShowing false (overlay.set_remainingSecs 0 w))),
     snd (fst (overlay.countdown k w)), false) /\
    overlay.shown (snd (fst (overlay.countdown k w)))
      = overlay.down_from (Z.to_nat (overlay.remainingSecs w))
          (overlay.remainingSecs w) /\
    overlay.completions (snd (fst (overlay.countdown k w)))
      = (if overlay.onComplete w then 1%nat else 0%nat).
Proof.
  induction k as [|k IH]; intros w Hs Hr Hk; [cbn in Hk; lia|].
  cbn [overlay.countdown].
  destruct (Z.eq_dec (overlay.remainingSecs w) 1) as [E1|N1].
  - rewrite countdownTick_last by assumption. cbn [fst snd]. rewrite E1.
    destruct (overlay.ticker w), (overlay.onComplete w); repeat split.
  - rewrite countdownTick_goes_on by (try assumption; lia).
    set (w1 := overlay.set_remainingSecs (overlay.remainingSecs w - 1) w).
    destruct (IH w1) as (E & Hsh & Hc);
      [ exact Hs
      | subst w1; cbn [overlay.remainingSecs overlay.set_remainingSecs]; lia
      | subst w1; cbn [overlay.remainingSecs overlay.set_remainingSecs]; lia
      | ].
    rewrite E. cbn [fst snd].
    rewrite shown_app, completions_app, Hsh, Hc.
    rewrite (down_from_to_nat (overlay.remainingSecs w)) by lia.
    subst w1. cbn [overlay.remainingSecs overlay.set_remainingSecs
                   overlay.config overlay.isShowing overlay.ticker
                   overlay.stopChan overlay.onComplete].
    repeat split.
Qed.

(** The countdown from a window that is showing with [n] seconds left. *)
Lemma countdown_from_showing (w : overlay.Window) (n : Z) :
  overlay.isShowing w = true ->
  overlay.remainingSecs w = n ->
  1 <= n <= maxDuration ->
  (forall k : nat,
      Z.of_nat k < n ->
      snd (overlay.countdown k w) = true /\
      overlay.completions (snd (fst (overlay.countdown k w))) = 0%nat /\
      overlay.isShowing (fst (fst (overlay.countdown k w))) = true /\
      overlay.remainingSecs (fst (fst (overlay.countdown k w)))
        = n - Z.of_nat k) /\
  (forall k : nat,
      n <= Z.of_nat k ->
      snd (overlay.countdown k w) = false /\
      overlay.completions (snd (fst (overlay.countdown k w)))
        = (if overlay.onComplete w then 1%nat else 0%nat) /\
      overlay.shown (snd (fst (overlay.countdown k w)))
        = overlay.down_from (Z.to_nat n) n /\
      fst (fst (overlay.countdown k w)) =
        overlay.set_stopChan true
          (overlay.set_ticker false
             (overlay.set_isShowing false (overlay.set_remainingSecs 0 w)))).
Proof.
  intros Hs Hn Hr. subst n. split; intros k Hk.
  - destruct (countdown_partial k w Hs ltac:(lia)) as (E & _ & Hc).
    rewrite Hc. rewrite E. cbn [fst snd]. repeat split. exact Hs.
  - destruct (countdown_done k w Hs Hr Hk) as (E & Hsh & Hc).
    rewrite Hc, Hsh. rewrite E. cbn [fst snd]. repeat split.
Qed.

Lemma whole_seconds_checked (ovf : float -> Z) :
  GoConv.all_from (Z.to_nat 10000) 1
    (fun k => GoConv.int64_of_float ovf (GoConv.Seconds (k * Second)) =? k)
  = true.
Proof. vm_compute. reflexivity. Qed.

(** [Show] of a whole number of seconds starts the countdown at that
    number. *)
Lemma Show_whole_seconds (ovf : float -> Z) (w : overlay.Window) (k : Z) :
  overlay.isShowing w = false ->
  1 <= k <= 10000 ->
  overlay.remainingSecs (fst (overlay.Show ovf (k * Second) w)) = k.
Proof.
  intros Hs Hk. unfold overlay.Show. rewrite Hs.
  cbn [fst overlay.remainingSecs overlay.set_stopChan
       overlay.set_remainingSecs].
  apply Z.eqb_eq.
  apply (all_from_spec _ _ _ (whole_seconds_checked ovf) k). lia.
Qed.

(** X24.  The countdown of the overlay.  [Show] on a hidden window, for a
    duration of [n >= 1] whole seconds by [int(duration.Seconds())], and
    [startCountdown] give a goroutine that goes on for the first [n - 1]
    ticks, taking one second off at each and calling nothing; at tick [n]
    it puts 0 on the labels, hides the window and calls the completion
    callback, once, and ends, so that further ticks do nothing.  The labels
    show [n - 1], ..., 1, 0 and never a negative number.  The [Hide] of
    the last tick leaves a signal in [stopChan], which the next [Show]
    takes out before the next countdown. *)
Theorem countdown_completes_once
    (ovf : float -> Z) (w : overlay.Window) (d : Duration) (n : Z) :
  overlay.isShowing w = false ->
  GoConv.int64_of_float ovf (GoConv.Seconds d) = n ->
  1 <= n <= maxDuration ->
  let w0 := fst (overlay.startCountdown (fst (overlay.Show ovf d w))) in
  (forall k : nat,
      Z.of_nat k < n ->
      snd (overlay.countdown k w0) = true /\
      overlay.completions (snd (fst (overlay.countdown k w0))) = 0%nat /\
      overlay.isShowing (fst (fst (overlay.countdown k w0))) = true /\
      overlay.remainingSecs (fst (fst (overlay.countdown k w0)))
        = n - Z.of_nat k) /\
  (forall k : nat,
      n <= Z.of_nat k ->
      snd (overlay.countdown k w0) = false /\
      overlay.completions (snd (fst (overlay.countdown k w0)))
        = (if overlay.onComplete w then 1%nat else 0%nat) /\
      overlay.shown (snd (fst (overlay.countdown k w0)))
        = overlay.down_from (Z.to_nat n) n /\
      overlay.isShowing (fst (fst (overlay.countdown k w0))) = false /\
      overlay.ticker (fst (fst (overlay.countdown k w0))) = false /\
      overlay.stopChan (fst (fst (overlay.countdown k w0))) = true /\
      forall d' : Duration,
        overlay.isShowing
          (fst (overlay.Show ovf d' (fst (fst (overlay.countdown k w0)))))
          = true /\
        overlay.stopChan
          (fst (overlay.Show ovf d' (fst (fst (overlay.countdown k w0)))))
          = false).
Proof.
  intros Hs Hn Hr w0.
  assert (Hs0 : overlay.isShowing w0 = true)
    by (unfold w0, overlay.Show; rewrite Hs; reflexivity).
  assert (Hn0 : overlay.remainingSecs w0 = n)
    by (unfold w0, overlay.Show; rewrite Hs; exact Hn).
  assert (Hc0 : overlay.onComplete w0 = overlay.onComplete w)
    by (unfold w0, overlay.Show; rewrite Hs; reflexivity).
  destruct (countdown_from_showing w0 n Hs0 Hn0 Hr) as (HA & HB).
  clearbody w0. split; [exact HA|].
  intros k Hk. destruct (HB k Hk) as (H1 & H2 & H3 & H4).
  rewrite H4, <- Hc0.
  repeat split; assumption.
Qed.

(** X25.  Once the window is hidden the countdown is silent, and hiding
    twice is hiding once: after [Hide], whatever the window was before, a
    tick that still reaches the goroutine ends it without touching the
    labels, the seconds left or the completion callback, and a second
    [Hide] (the scheduler's break-complete callback calls one after the
    countdown has hidden the window itself) changes nothing and closes no
    window. *)
Theorem hidden_countdown_is_silent (w : overlay.Window) (k : nat) :
  let w' := fst (overlay.Hide w) in
  overlay.countdown (S k) w'
    = (w', [overlay.Lock; overlay.Unlock], false) /\
  overlay.Hide w' = (w', [overlay.Lock; overlay.Unlock]).
Proof.
  destruct w as [cfg sh tk sc oc rs].
  unfold overlay.Hide. cbn [overlay.isShowing].
  destruct sh; split; reflexivity.
Qed.

(* ====================================================================== *)
(** ** The further properties on the sample session                       *)
(* ====================================================================== *)

(** After 100 s of work and a pause, [Start] begins at zero again. *)
Lemma Start_discards_banked_time_witness :
  elapsed scenario.paused_manual = 100 * Second /\
  elapsed (final (Start (at_time (500 * Second) 1) scenario.paused_manual))
    = 0.
Proof.
  split; [reflexivity|].
  destruct (Start_discards_banked_time (at_time (500 * Second) 1)
              scenario.paused_manual) as (_ & H & _);
    [ left; reflexivity
    | vm_compute; split; [reflexivity|discriminate]
    | exact H ].
Defined.

(** Paused at the very end of the work time, then resumed. *)
Lemma resume_with_nothing_left_witness :
  state
    (final
       (Resume (at_time (1500 * Second) 2)
          (final (Pause (at_time (1200 * Second) 1) scenario.running))))
  = StateBreakRequired.
Proof.
  destruct (resume_with_nothing_left (at_time (1500 * Second) 2)
              (final (Pause (at_time (1200 * Second) 1) scenario.running)))
    as (H & _);
    [ left; reflexivity
    | closed_range
    | vm_compute; discriminate
    | exact H ].
Defined.

(** The break opened under id 1 is completed under id 1, after 20 s. *)
Lemma break_is_recorded_witness :
  In (store_RecordBreakComplete 1 (20 * Second))
     (trace (CompleteBreak (at_time (1220 * Second) 1) scenario.in_break)).
Proof.
  destruct (break_is_recorded (at_time (1200 * Second) 1)
              (at_time (1220 * Second) 1) scenario.running 1)
    as (_ & _ & _ & _ & H & _);
    [ reflexivity
    | reflexivity
    | reflexivity
    | reflexivity
    | vm_compute; split; [reflexivity|discriminate]
    | closed_range
    | exact H ].
Defined.

(** A skip that arrives after the completion does nothing. *)
Lemma second_break_end_is_noop_witness :
  SkipBreak (at_time (1221 * Second) 1)
    (final (CompleteBreak (at_time (1220 * Second) 1) scenario.in_break))
  = (tt,
     final (CompleteBreak (at_time (1220 * Second) 1) scenario.in_break),
     [mu_Lock; mu_Unlock]).
Proof.
  destruct (second_break_end_is_noop (at_time (1220 * Second) 1)
              (at_time (1221 * Second) 1) scenario.in_break)
    as (_ & H & _);
    [ reflexivity
    | vm_compute; split; [reflexivity|discriminate]
    | exact H ].
Defined.

(** Break 1 is stopped; the next break, which the store fails to open, is
    completed under id 1. *)
Lemma stopped_break_id_is_reused_witness :
  In (store_RecordBreakComplete 1 (20 * Second))
     (trace
        (CompleteBreak (at_time (2520 * Second) 2)
           (final
              (run [(at_time (1210 * Second) 2, trigger stop);
                    (at_time (1210 * Second) 2, trigger start);
                    (at_time_failing (2500 * Second), trigger wakeUp)]
                 scenario.in_break)))).
Proof.
  destruct (stopped_break_id_is_reused (at_time (1210 * Second) 2)
              (at_time_failing (2500 * Second))
              (at_time (2520 * Second) 2) scenario.in_break)
    as (_ & _ & _ & H);
    [ reflexivity
    | reflexivity
    | reflexivity
    | vm_compute; split; [reflexivity|discriminate]
    | reflexivity
    | closed_range
    | exact H ].
Defined.

Lemma wake_up_follows_state_witness :
  timer_consistent
    (final
       (run [(at_time 0 1, trigger start);
             (at_time (100 * Second) 1, trigger pause);
             (at_time (500 * Second) 1, trigger resume)]
          (NewManager scenario.cfg true))).
Proof.
  apply (wake_up_follows_state scenario.cfg true
           [(at_time 0 1, trigger start);
            (at_time (100 * Second) 1, trigger pause);
            (at_time (500 * Second) 1, trigger resume)]).
  reflexivity.
Defined.

Lemma query_agrees_with_wake_up_witness :
  exists tm : Timer,
    currentTimer
      (final (run [(at_time 0 1, trigger start)]
                (NewManager scenario.cfg true))) = Some tm /\
    workStartTime
      (final (run [(at_time 0 1, trigger start)]
                (NewManager scenario.cfg true))) = mono (armedAt tm).
Proof.
  destruct (query_agrees_with_wake_up scenario.cfg true
              [(at_time 0 1, trigger start)] (at_time (100 * Second) 1))
    as (tm & H1 & H2 & _);
    [ reflexivity
    | reflexivity
    | exists tm; split; [exact H1|exact H2] ].
Defined.

(** The work duration is halved 100 s into the interval: the query counts
    from 600 s at once. *)
Lemma UpdateConfig_not_retroactive_witness :
  result
    (GetTimeUntilBreak (at_time (100 * Second) 1)
       (final
          (UpdateConfig
             (config.mkConfig (600 * Second) (20 * Second) (5 * Minute)
                true false true 0x1.e666666666666p-1%float true)
             scenario.running)))
  = 500 * Second.
Proof.
  destruct (UpdateConfig_not_retroactive (at_time (100 * Second) 1)
              (config.mkConfig (600 * Second) (20 * Second) (5 * Minute)
                 true false true 0x1.e666666666666p-1%float true)
              scenario.running)
    as (_ & _ & _ & _ & H).
  apply (H 0);
    [ reflexivity | reflexivity | closed_range | closed_range
    | closed_range ].
Defined.

Lemma resolved_breaks_were_opened_witness :
  0 < 7 /\
  In 7
    (opened [(at_time 0 7, trigger start);
             (at_time (1200 * Second) 7, trigger wakeUp);
             (at_time (1220 * Second) 7, trigger completeBreak)]
       (NewManager scenario.cfg true)).
Proof.
  apply (resolved_breaks_were_opened scenario.cfg true
           [(at_time 0 7, trigger start);
            (at_time (1200 * Second) 7, trigger wakeUp);
            (at_time (1220 * Second) 7, trigger completeBreak)] 7).
  vm_compute. left. reflexivity.
Defined.

(** 100 s of work, a manual pause, 200 s of work, an idle pause: 900 s
    are left. *)
Lemma work_time_adds_up_witness :
  result
    (GetTimeUntilBreak (at_time (2000 * Second) 1)
       (final
          (run ((at_time 0 1, trigger start)
                :: flat_map cycle_calls
                     [mkCycle true (at_time (100 * Second) 1)
                        (at_time (500 * Second) 1);
                      mkCycle false (at_time (700 * Second) 1)
                        (at_time (2000 * Second) 1)])
             scenario.fresh)))
  = 900 * Second.
Proof.
  destruct (work_time_adds_up scenario.fresh (at_time 0 1)
              (at_time (2000 * Second) 1)
              [mkCycle true (at_time (100 * Second) 1)
                 (at_time (500 * Second) 1);
               mkCycle false (at_time (700 * Second) 1)
                 (at_time (2000 * Second) 1)])
    as (_ & _ & H);
    [ left; reflexivity
    | vm_compute; split; [reflexivity|discriminate]
    | vm_compute; repeat split; discriminate
    | reflexivity
    | reflexivity
    | exact H ].
Defined.

Lemma State_String_known_witness :
  timer_names.State_String
    (state
       (final
          (run [(at_time 0 1, trigger start);
                (at_time (1200 * Second) 1, trigger wakeUp)]
             (NewManager scenario.cfg true))))
  <> timer_names.Unknown /\
  StatePausedManual = StatePausedManual.
Proof.
  destruct (State_String_known scenario.cfg true
              [(at_time 0 1, trigger start);
               (at_time (1200 * Second) 1, trigger wakeUp)]) as (H1 & H2).
  split; [exact H1|].
  apply (H2 StatePausedManual StatePausedManual);
    [ apply one_of_four_iff; right; right; left; reflexivity
    | apply one_of_four_iff; right; right; left; reflexivity
    | reflexivity ].
Defined.

(** Idle, no reading, active, idle again: the calls take turns. *)
Lemma monitor_calls_alternate_witness :
  activity.alternating false
    (activity.calls
       (snd
          (activity.monitorLoop
             [Some (400 * Second); None; Some (10 * Second);
              Some (301 * Second)]
             (fst (activity.SetOnBecameActive true
                     (fst (activity.SetOnBecameIdle true
                             (activity.NewMonitor scenario.cfg)))))))).
Proof.
  apply (monitor_calls_alternate
           [Some (400 * Second); None; Some (10 * Second);
            Some (301 * Second)]
           (fst (activity.SetOnBecameActive true
                   (fst (activity.SetOnBecameIdle true
                           (activity.NewMonitor scenario.cfg))))));
    reflexivity.
Defined.

(** Started, stopped, started again: the second [Stop] panics. *)
Lemma monitor_stops_once_witness :
  exists (m1 : activity.Monitor) (t1 : list activity.Event),
    activity.Stop (fst (activity.Start (activity.NewMonitor scenario.cfg)))
      = Some (m1, t1) /\
    activity.Stop (fst (activity.Start m1)) = None.
Proof.
  destruct (proj1 (monitor_stops_once
                     (fst (activity.Start
                             (activity.NewMonitor scenario.cfg))))
              eq_refl eq_refl)
    as (m1 & t1 & H1 & _ & _ & _ & _ & _ & H2).
  exists m1, t1. split; [exact H1|exact H2].
Defined.

(** The user pauses, goes idle and comes back: the pause stays. *)
Lemma polls_leave_manual_pause_and_break_witness :
  app.timerManager
    (app.steps
       (map (fun p => (fst p, app.tick (snd p)))
          [(at_time (200 * Second) 1, Some (400 * Second));
           (at_time (600 * Second) 1, Some 0)])
       (app.mkApp (activity.NewMonitor scenario.cfg)
          scenario.paused_manual))
  = scenario.paused_manual.
Proof.
  apply (polls_leave_manual_pause_and_break
           [(at_time (200 * Second) 1, Some (400 * Second));
            (at_time (600 * Second) 1, Some 0)]
           (app.mkApp (activity.NewMonitor scenario.cfg)
              scenario.paused_manual)).
  left. reflexivity.
Defined.

Lemma inactive_pause_means_idle_witness :
  activity.isIdle
    (app.activityMonitor
       (app.steps [(at_time (400 * Second) 1,
                    app.tick (Some (400 * Second)))]
          (app.Run (at_time 0 1) (app.New scenario.cfg))))
  = true.
Proof.
  apply (inactive_pause_means_idle scenario.cfg (at_time 0 1)
           [(at_time (400 * Second) 1, app.tick (Some (400 * Second)))]).
  reflexivity.
Defined.

(** The user resumes by hand while idle; further idle readings do not
    pause the scheduler again. *)
Lemma polls_at_same_level_change_nothing_witness :
  state
    (app.timerManager
       (app.steps
          (map (fun p => (fst p, app.tick (snd p)))
             [(at_time (410 * Second) 1, Some (410 * Second));
              (at_time (420 * Second) 1, Some (420 * Second))])
          (app.steps
             [(at_time (400 * Second) 1, app.tick (Some (400 * Second)));
              (at_time (405 * Second) 1, app.menuResume)]
             (app.Run (at_time 0 1) (app.New scenario.cfg)))))
  = StateRunning.
Proof.
  rewrite (polls_at_same_level_change_nothing
             [(at_time (410 * Second) 1, Some (410 * Second));
              (at_time (420 * Second) 1, Some (420 * Second))]
             (app.steps
                [(at_time (400 * Second) 1,
                  app.tick (Some (400 * Second)));
                 (at_time (405 * Second) 1, app.menuResume)]
                (app.Run (at_time 0 1) (app.New scenario.cfg)))).
  - reflexivity.
  - repeat (constructor; [reflexivity|]). constructor.
Defined.

(** During the break of the sample session: a poll, both menu entries and
    a stale wake-up; then the countdown completes. *)
Lemma break_ends_only_by_countdown_witness :
  app.timerManager
    (app.steps
       [(at_time (1201 * Second) 1, app.tick (Some (400 * Second)));
        (at_time (1202 * Second) 1, app.menuPause);
        (at_time (1203 * Second) 1, app.menuResume);
        (at_time (1204 * Second) 1, app.wakeUp)]
       (app.mkApp (activity.NewMonitor scenario.cfg) scenario.in_break))
  = scenario.in_break /\
  state
    (app.timerManager
       (app.step (at_time (1220 * Second) 1) app.overlayComplete
          (app.steps
             [(at_time (1201 * Second) 1, app.tick (Some (400 * Second)));
              (at_time (1202 * Second) 1, app.menuPause);
              (at_time (1203 * Second) 1, app.menuResume);
              (at_time (1204 * Second) 1, app.wakeUp)]
             (app.mkApp (activity.NewMonitor scenario.cfg)
                scenario.in_break))))
  = StateRunning.
Proof.
  apply (break_ends_only_by_countdown
           [(at_time (1201 * Second) 1, app.tick (Some (400 * Second)));
            (at_time (1202 * Second) 1, app.menuPause);
            (at_time (1203 * Second) 1, app.menuResume);
            (at_time (1204 * Second) 1, app.wakeUp)]
           (at_time (1220 * Second) 1)
           (app.mkApp (activity.NewMonitor scenario.cfg)
              scenario.in_break)).
  - reflexivity.
  - vm_compute. split; [reflexivity|discriminate].
  - repeat (constructor; [discriminate|]). constructor.
Defined.

(** No file at startup; then an update whose write fails, a load of a file
    that is no JSON, and a read. *)
Lemma manager_config_always_valid_witness :
  exists c : config.Config,
    config_manager.config
      (fold_left (fun m c => config_manager.call (fun _ => 0) c m)
         [config_manager.call_Update (config_manager.mkDisk true false)
            scenario.cfg;
          config_manager.call_Load config_manager.file_not_json;
          config_manager.call_Get]
         (config_manager.mkManager config_manager.configFileName
            (Some config.DefaultConfig)))
    = Some c /\
    config.Validate c = None.
Proof.
  apply (manager_config_always_valid (fun _ => 0)
           (config_manager.mkStartup
              (Some config_manager.configFileName) true
              config_manager.file_missing
              (config_manager.mkDisk true true))).
  reflexivity.
Defined.

(** A work duration of zero is refused and nothing is written. *)
Lemma Load_and_Update_outcomes_witness :
  config_manager.Update (config_manager.mkDisk true true)
    (config.mkConfig 0 (20 * Second) (5 * Minute)
       true false true 0x1.e666666666666p-1%float true)
    (config_manager.mkManager config_manager.configFileName
       (Some config.DefaultConfig))
  = (config_manager.mkManager config_manager.configFileName
       (Some config.DefaultConfig),
     Some (config_manager.ErrValidation config.ErrInvalidWorkDuration),
     None).
Proof.
  apply (proj1 (proj2 (Load_and_Update_outcomes (fun _ => 0)
                         (config_manager.mkManager
                            config_manager.configFileName
                            (Some config.DefaultConfig))))).
  reflexivity.
Defined.

(** A file that cannot be read stops the startup. *)
Lemma NewManager_outcomes_witness :
  config_manager.NewManager (fun _ => 0)
    (config_manager.mkStartup (Some config_manager.configFileName) true
       config_manager.file_unreadable (config_manager.mkDisk true true))
  = inr (config_manager.ErrLoadConfig config_manager.ErrRead).
Proof.
  apply (NewManager_outcomes (fun _ => 0)
           (config_manager.mkStartup
              (Some config_manager.configFileName) true
              config_manager.file_unreadable
              (config_manager.mkDisk true true))
           config_manager.configFileName);
    reflexivity.
Defined.

(** The configuration of the sample session: 20 min, 20 s, 5 min. *)
Lemma saved_config_loads_back_witness :
  exists raw : config_manager.Raw,
    snd (config_manager.Save (config_manager.mkDisk true true)
           (config_manager.mkManager config_manager.configFileName
              (Some scenario.cfg)))
    = Some raw /\
    config_manager.Load (fun _ => 0) (config_manager.file_json raw)
      (config_manager.mkManager config_manager.configFileName None)
    = (config_manager.mkManager config_manager.configFileName
         (Some scenario.cfg), None).
Proof.
  apply (saved_config_loads_back (fun _ => 0)
           (config_manager.mkDisk true true)
           (config_manager.mkManager config_manager.configFileName
              (Some scenario.cfg))
           (config_manager.mkManager config_manager.configFileName None)
           scenario.cfg 20 20 5);
    [ reflexivity | reflexivity | lia | reflexivity | lia
    | reflexivity | lia | reflexivity ].
Defined.

(** A break of 20 s: nothing is called after 19 ticks, the callback once
    after 20. *)
Lemma countdown_completes_once_witness :
  overlay.completions
    (snd (fst (overlay.countdown 19
                 (fst (overlay.startCountdown
                         (fst (overlay.Show (fun _ => 0) (20 * Second)
                                 (overlay.SetOnComplete true
                                    (overlay.NewWindow scenario.cfg))))))))) 
  = 0%nat /\
  overlay.completions
    (snd (fst (overlay.countdown 20
                 (fst (overlay.startCountdown
                         (fst (overlay.Show (fun _ => 0) (20 * Second)
                                 (overlay.SetOnComplete true
                                    (overlay.NewWindow scenario.cfg)))))))))
  = 1%nat.
Proof.
  destruct (countdown_completes_once (fun _ => 0)
              (overlay.SetOnComplete true (overlay.NewWindow scenario.cfg))
              (20 * Second) 20)
    as (HA & HB);
    [ reflexivity
    | reflexivity
    | vm_compute; split; discriminate
    | ].
  split.
  - apply (HA 19%nat). reflexivity.
  - apply (HB 20%nat). vm_compute. discriminate.
Defined.
